(** * CLV Model Interface (app.py): a shallow embedding and its properties

    The development follows [src/app.py], the Streamlit front end of the
    customer-lifetime-value predictor:

    - [PyFloat]: the float64 values pandas computes with.  Finite values are
      idealised as exact rationals (no rounding, no overflow); the special
      values that pandas' division produces (inf, -inf, NaN) are kept, since
      the code divides by a batch maximum that may be zero.
    - [value], [DataFrame]: pandas tables as ordered lists of named columns.
    - [handle_manual_entry]: the sidebar form and its validation.
    - [prediction_section]: the "Generate CLV Predictions" block of [main],
      written in a state-and-exception monad over the Streamlit session.
    - [CLVModel]: the parts of the imported module [clv_model] that app.py
      calls but whose code is not part of app.py.
    - [display_manual_customers], [data_source_section]: the list of manual
      customers and the choice of the data source.
    - [summary_metrics], [filtered_df]: the metric cards and the detailed
      table under the stored predictions.
    - [main_pages]: the admin controls and the page flags of [main].
    - [display_feature_request_form], [display_feature_requests_admin]:
      feature requests, from the form to the admin dashboard. *)

From Stdlib Require Import QArith Lqa ZArith Bool Ascii String List Sorted.
From stdpp Require Import base tactics option list strings gmap.
Import ListNotations.

Local Open Scope string_scope.
Local Open Scope list_scope.

(* ===================================================================== *)
(** ** Floats as pandas computes with them *)
(* ===================================================================== *)

Module PyFloat.

(** A float64 value.  [Fin q] is a finite number, idealised as the exact
    rational [q]; zero is unsigned. *)
Inductive pyfloat : Type :=
| Fin (q : Q)
| PosInf
| NegInf
| NaN.

Definition of_Z (z : Z) : pyfloat := Fin (inject_Z z).

(** [x * y] on floats (IEEE 754: NaN is absorbing, [inf * 0] is NaN). *)
Definition fmul (x y : pyfloat) : pyfloat :=
  match x, y with
  | NaN, _ | _, NaN => NaN
  | Fin a, Fin b => Fin (a * b)
  | Fin a, PosInf | PosInf, Fin a =>
      match (a ?= 0)%Q with Gt => PosInf | Lt => NegInf | Eq => NaN end
  | Fin a, NegInf | NegInf, Fin a =>
      match (a ?= 0)%Q with Gt => NegInf | Lt => PosInf | Eq => NaN end
  | PosInf, PosInf | NegInf, NegInf => PosInf
  | PosInf, NegInf | NegInf, PosInf => NegInf
  end.

(** [x / y] as numpy and pandas compute it: no exception on a zero divisor;
    [0 / 0] is NaN, [a / 0] is inf or -inf with the sign of [a]. *)
Definition fdiv (x y : pyfloat) : pyfloat :=
  match x, y with
  | NaN, _ | _, NaN => NaN
  | Fin a, Fin b =>
      match (b ?= 0)%Q with
      | Eq => match (a ?= 0)%Q with Gt => PosInf | Lt => NegInf | Eq => NaN end
      | _ => Fin (a / b)
      end
  | Fin _, PosInf | Fin _, NegInf => Fin 0
  | PosInf, Fin b => match (b ?= 0)%Q with Lt => NegInf | _ => PosInf end
  | NegInf, Fin b => match (b ?= 0)%Q with Lt => PosInf | _ => NegInf end
  | PosInf, PosInf | PosInf, NegInf | NegInf, PosInf | NegInf, NegInf => NaN
  end.

(** [x < y]; every comparison with NaN is false. *)
Definition fltb (x y : pyfloat) : bool :=
  match x, y with
  | NaN, _ | _, NaN => false
  | Fin a, Fin b => match (a ?= b)%Q with Lt => true | _ => false end
  | NegInf, Fin _ | NegInf, PosInf | Fin _, PosInf => true
  | _, _ => false
  end.

(** [x == y]; NaN differs from everything, itself included. *)
Definition feqb (x y : pyfloat) : bool :=
  match x, y with
  | Fin a, Fin b => Qeq_bool a b
  | PosInf, PosInf | NegInf, NegInf => true
  | _, _ => false
  end.

Definition is_nan (x : pyfloat) : bool :=
  match x with NaN => true | _ => false end.

End PyFloat.
Export PyFloat.

(* ===================================================================== *)
(** ** Python values, exceptions, pandas tables *)
(* ===================================================================== *)

(** A cell of a table: the Python objects app.py stores in its frames. *)
Inductive value : Type :=
| VInt (z : Z)
| VFloat (x : pyfloat)
| VStr (s : string).

(** Exceptions, with the text [str(e)] shows. *)
Inductive exn : Type :=
| ValueError (msg : string)
| TypeError (msg : string)
| KeyError (msg : string)
| Exception (msg : string).

Definition exn_str (e : exn) : string :=
  match e with
  | ValueError m | TypeError m | KeyError m | Exception m => m
  end.

(** The outcome of a Python expression: a value, or a raised exception. *)
Inductive result (A : Type) : Type :=
| Ok (a : A)
| Raised (e : exn).
Arguments Ok {A} a.
Arguments Raised {A} e.

Definition rbind {A B} (r : result A) (k : A -> result B) : result B :=
  match r with
  | Ok a => k a
  | Raised e => Raised e
  end.

Declare Scope result_scope.
Delimit Scope result_scope with result.
Notation "x <-! r ; k" := (rbind r (fun x => k))
  (at level 100, r at next level, right associativity) : result_scope.

(** A column is the list of its cells, top row first; a DataFrame is the
    ordered list of its named columns (column labels are taken to be
    distinct, as [pd.read_csv] and [pd.DataFrame(dict)] make them). *)
Abbreviation column := (list value).
Abbreviation DataFrame := (list (string * list value)).

(** [df.columns] *)
Definition columns (df : DataFrame) : list string := map fst df.

(** [name in df.columns] *)
Definition has_column (name : string) (df : DataFrame) : bool :=
  existsb (String.eqb name) (columns df).

(** [df[name]] when the column exists. *)
Fixpoint get_column (name : string) (df : DataFrame) : option column :=
  match df with
  | [] => None
  | (n, c) :: rest => if String.eqb n name then Some c else get_column name rest
  end.

(** [len(df)]: the number of rows. *)
Definition nrows (df : DataFrame) : nat :=
  match df with
  | [] => 0
  | (_, c) :: _ => length c
  end.

(** [df.empty]: no columns or no rows. *)
Definition df_empty (df : DataFrame) : bool :=
  match df with
  | [] => true
  | _ => Nat.eqb (nrows df) 0
  end.

(** The cell of column [name] in row [i]. *)
Definition cell (df : DataFrame) (name : string) (i : nat) : option value :=
  c ← get_column name df; c !! i.

(** Where [df[name] = c] puts the column: an existing label keeps its
    position and gets the new cells, a new label goes last. *)
Fixpoint put_column (name : string) (c : column) (df : DataFrame) : DataFrame :=
  match df with
  | [] => [(name, c)]
  | (n, c0) :: rest =>
      if String.eqb n name then (name, c) :: rest
      else (n, c0) :: put_column name c rest
  end.

(** [df[name] = c] for an array or list [c]: pandas raises ValueError when
    the length differs from the number of rows (a frame without columns
    takes any length). *)
Definition set_column (df : DataFrame) (name : string) (c : column)
  : result DataFrame :=
  match df with
  | [] => Ok [(name, c)]
  | _ =>
      if Nat.eqb (length c) (nrows df) then Ok (put_column name c df)
      else Raised (ValueError "Length of values does not match length of index")
  end.

(** [df[name] = v] for a scalar [v]: broadcast to every row. *)
Definition set_column_scalar (df : DataFrame) (name : string) (v : value)
  : DataFrame :=
  put_column name (repeat v (nrows df)) df.

(** [df[name]] as an expression: KeyError when the label is missing. *)
Definition read_column (df : DataFrame) (name : string) : result column :=
  match get_column name df with
  | Some c => Ok c
  | None => Raised (KeyError name)
  end.

(* ===================================================================== *)
(** ** Series arithmetic *)
(* ===================================================================== *)

(** The number a cell stands for in float arithmetic; a string has none. *)
Definition to_float (v : value) : option pyfloat :=
  match v with
  | VInt z => Some (of_Z z)
  | VFloat x => Some x
  | VStr _ => None
  end.

(** The numbers of a numeric column.  A column holding a string makes the
    operations below raise TypeError.  (pandas itself can rank a column of
    strings and take its maximum.  The block ranks only [predicted_clv],
    which it has just assigned from a float array, and it divides
    [days_since_last_purchase] by its maximum right away, which raises
    TypeError on strings.) *)
Fixpoint series_floats (c : column) : result (list pyfloat) :=
  match c with
  | [] => Ok []
  | v :: rest =>
      match to_float v with
      | Some x =>
          match series_floats rest with
          | Ok xs => Ok (x :: xs)
          | Raised e => Raised e
          end
      | None => Raised (TypeError "unsupported operand type(s)")
      end
  end.

(** [series * k] for a float constant [k]. *)
Definition series_mul (c : column) (k : Q) : result column :=
  match series_floats c with
  | Ok xs => Ok (map (fun x => VFloat (fmul x (Fin k))) xs)
  | Raised e => Raised e
  end.

(** One step of [Series.max()], which skips NaN (skipna=True). *)
Definition fmax_skipna (acc x : pyfloat) : pyfloat :=
  match acc, x with
  | NaN, _ => x
  | _, NaN => acc
  | _, _ => if fltb acc x then x else acc
  end.

(** [series.max()]: the largest number that is not NaN, NaN when there is
    none (an empty batch). *)
Definition series_max (c : column) : result pyfloat :=
  match series_floats c with
  | Ok xs => Ok (fold_left fmax_skipna xs NaN)
  | Raised e => Raised e
  end.

(** [series / m] for a scalar [m]. *)
Definition series_div (c : column) (m : pyfloat) : result column :=
  match series_floats c with
  | Ok xs => Ok (map (fun x => VFloat (fdiv x m)) xs)
  | Raised e => Raised e
  end.

(** *** [Series.rank(pct=True)]

    pandas' defaults: method='average' (tied values share the mean of their
    positions), ascending order, na_option='keep' (NaN keeps NaN and is not
    counted).  With [lt] values below [x] and [eq] values equal to it, the
    tied positions are [lt+1 .. lt+eq], of mean [(2*lt + eq + 1) / 2]. *)

Definition count_lt (xs : list pyfloat) (x : pyfloat) : nat :=
  length (List.filter (fun y => fltb y x) xs).

Definition count_eq (xs : list pyfloat) (x : pyfloat) : nat :=
  length (List.filter (fun y => feqb y x) xs).

Definition count_valid (xs : list pyfloat) : nat :=
  length (List.filter (fun y => negb (is_nan y)) xs).

Definition rank_average (xs : list pyfloat) (x : pyfloat) : pyfloat :=
  if is_nan x then NaN
  else Fin (Z.of_nat (2 * count_lt xs x + count_eq xs x + 1) # 2).

(** pct=True divides each rank by the number of valid values. *)
Definition rank_pct (xs : list pyfloat) : list pyfloat :=
  map (fun x => fdiv (rank_average xs x) (of_Z (Z.of_nat (count_valid xs)))) xs.

Definition series_rank_pct (c : column) : result column :=
  match series_floats c with
  | Ok xs => Ok (map VFloat (rank_pct xs))
  | Raised e => Raised e
  end.

(* ===================================================================== *)
(** ** Strings *)
(* ===================================================================== *)

(** A [string] holds the UTF-8 bytes of a Python [str].  Whitespace as
    [str.strip()] sees it, in one byte: tab, line feed, vertical tab, form
    feed, carriage return, the separators 28..31, space. *)
Definition is_space (a : ascii) : bool :=
  let n := nat_of_ascii a in
  (Nat.leb 9 n && Nat.leb n 13) || (Nat.leb 28 n && Nat.leb n 32).

(** The whitespace of two bytes: U+0085 (next line) and U+00A0 (no-break
    space). *)
Definition is_space2 (a b : ascii) : bool :=
  let m := nat_of_ascii a in
  let n := nat_of_ascii b in
  Nat.eqb m 194 && (Nat.eqb n 133 || Nat.eqb n 160).

(** The whitespace of three bytes: U+1680, U+2000..U+200A, U+2028, U+2029,
    U+202F, U+205F and U+3000. *)
Definition is_space3 (a b c : ascii) : bool :=
  let m := nat_of_ascii a in
  let n := nat_of_ascii b in
  let k := nat_of_ascii c in
  (Nat.eqb m 225 && Nat.eqb n 154 && Nat.eqb k 128)
  || (Nat.eqb m 226 && Nat.eqb n 128
      && ((Nat.leb 128 k && Nat.leb k 138)
          || Nat.eqb k 168 || Nat.eqb k 169 || Nat.eqb k 175))
  || (Nat.eqb m 226 && Nat.eqb n 129 && Nat.eqb k 159)
  || (Nat.eqb m 227 && Nat.eqb n 128 && Nat.eqb k 128).

(** [s.lstrip()] on the bytes. *)
Fixpoint lstrip_chars (l : list ascii) : list ascii :=
  match l with
  | [] => []
  | a :: rest =>
      if is_space a then lstrip_chars rest
      else
        match rest with
        | [] => l
        | b :: rest2 =>
            if is_space2 a b then lstrip_chars rest2
            else
              match rest2 with
              | [] => l
              | c :: rest3 =>
                  if is_space3 a b c then lstrip_chars rest3 else l
              end
        end
  end.

(** [s.rstrip()] on the bytes in reverse order: the last byte comes
    first. *)
Fixpoint rstrip_reversed (l : list ascii) : list ascii :=
  match l with
  | [] => []
  | a :: rest =>
      if is_space a then rstrip_reversed rest
      else
        match rest with
        | [] => l
        | b :: rest2 =>
            if is_space2 b a then rstrip_reversed rest2
            else
              match rest2 with
              | [] => l
              | c :: rest3 =>
                  if is_space3 c b a then rstrip_reversed rest3 else l
              end
        end
  end.

(** [s.strip()] *)
Definition strip (s : string) : string :=
  string_of_list_ascii
    (rev (rstrip_reversed (rev (lstrip_chars (list_ascii_of_string s))))).

(** Decimal digits of a natural number, as [str(n)] and an f-string print
    them. *)
Definition digit_char (n : nat) : ascii := ascii_of_nat (48 + n).

Fixpoint digits_fuel (fuel n : nat) (acc : string) : string :=
  match fuel with
  | O => acc
  | S fuel' =>
      let acc' := String (digit_char (n mod 10)) acc in
      if Nat.ltb n 10 then acc' else digits_fuel fuel' (n / 10) acc'
  end.

Definition str_of_nat (n : nat) : string := digits_fuel (S n) n EmptyString.

(* ===================================================================== *)
(** ** The Streamlit session and the effects of a script run *)
(* ===================================================================== *)

(** The entries of [st.session_state] that the modelled code reads or
    writes. *)
Record session_state : Type := mkSession {
  predictions : option DataFrame;
  customer_data : option DataFrame;
  manual_customers : DataFrame;
  trigger_prediction : bool
}.

(** What a run shows to the user. *)
Inductive ui_event : Type :=
| SidebarError (msg : string)
| SidebarSuccess (msg : string)
| StError (msg : string)
| StWarning (msg : string)
| StSuccess (msg : string).

(** The methods of [clv_predictor] that the prediction block invokes. *)
Inductive predictor_call : Type :=
| CallCreateAdvancedFeatures
| CallPrepareFeatures
| CallPredictCLV
| CallSegmentCustomers.

(** Everything a run can change: the session, the messages shown so far
    (oldest first) and the predictor methods invoked so far. *)
Record world : Type := mkWorld {
  session : session_state;
  ui : list ui_event;
  calls : list predictor_call
}.

(** Statements that may raise and that act on the world.  An exception does
    not undo what was done before it was raised. *)
Definition M (A : Type) : Type := world -> result A * world.

Definition ret {A} (a : A) : M A := fun w => (Ok a, w).

Definition bind {A B} (m : M A) (k : A -> M B) : M B :=
  fun w =>
    match m w with
    | (Ok a, w') => k a w'
    | (Raised e, w') => (Raised e, w')
    end.

Declare Scope stmt_scope.
Delimit Scope stmt_scope with stmt.
Notation "x <~ m ; k" := (bind m (fun x => k))
  (at level 100, m at next level, right associativity) : stmt_scope.
Notation "m ;; k" := (bind m (fun _ => k))
  (at level 100, right associativity) : stmt_scope.

(** A pure expression evaluated inside a block. *)
Definition lift {A} (r : result A) : M A := fun w => (r, w).

(** [try: body except Exception as e: handler(e)] *)
Definition try_except {A} (body : M A) (handler : exn -> M A) : M A :=
  fun w =>
    match body w with
    | (Ok a, w') => (Ok a, w')
    | (Raised e, w') => handler e w'
    end.

Definition emit (ev : ui_event) : M unit :=
  fun w => (Ok tt, mkWorld (session w) (ui w ++ [ev]) (calls w)).

(** A method call on [clv_predictor]: recorded, then its outcome. *)
Definition call {A} (c : predictor_call) (r : result A) : M A :=
  fun w => (r, mkWorld (session w) (ui w) (calls w ++ [c])).

Definition modify_session (f : session_state -> session_state) : M unit :=
  fun w => (Ok tt, mkWorld (f (session w)) (ui w) (calls w)).

(** [st.session_state.predictions = df] *)
Definition set_predictions (df : DataFrame) : M unit :=
  modify_session (fun s =>
    mkSession (Some df) (customer_data s) (manual_customers s)
              (trigger_prediction s)).

(** [st.session_state.trigger_prediction = b] *)
Definition set_trigger_prediction (b : bool) : M unit :=
  modify_session (fun s =>
    mkSession (predictions s) (customer_data s) (manual_customers s) b).

(** The interface of [EnhancedCLVPredictor] (module [clv_model]) as far as
    the prediction block uses it.  Each method may raise; none modifies the
    table it is given.  Predictions are a float array of finite numbers,
    segments an array of labels. *)
Class CLVPredictor : Type := {
  create_advanced_features : DataFrame -> result DataFrame;
  prepare_features_for_prediction : DataFrame -> result DataFrame;
  predict_clv : DataFrame -> result (list Q);
  segment_customers : list Q -> result (list string)
}.

(* ===================================================================== *)
(** ** The prediction block of [main] (lines 601-644) *)
(* ===================================================================== *)

Definition float_column (xs : list Q) : column :=
  map (fun q => VFloat (Fin q)) xs.

(** [predictions_df['percentile_rank'] =
       predictions_df['predicted_clv'].rank(pct=True) * 100] *)
Definition add_percentile_rank (predictions_df : DataFrame) : result DataFrame :=
  (clv <-! read_column predictions_df "predicted_clv";
   ranks <-! series_rank_pct clv;
   pct <-! series_mul ranks 100;
   set_column predictions_df "percentile_rank" pct)%result.

(** [predictions_df['confidence_lower'] = predictions_df['predicted_clv'] * 0.8]
    [predictions_df['confidence_upper'] = predictions_df['predicted_clv'] * 1.2] *)
Definition add_confidence_intervals (predictions_df : DataFrame)
  : result DataFrame :=
  (clv <-! read_column predictions_df "predicted_clv";
   lower <-! series_mul clv 0.8;
   predictions_df <-! set_column predictions_df "confidence_lower" lower;
   clv <-! read_column predictions_df "predicted_clv";
   upper <-! series_mul clv 1.2;
   set_column predictions_df "confidence_upper" upper)%result.

(** [if 'days_since_last_purchase' in predictions_df.columns:
        max_days = predictions_df['days_since_last_purchase'].max()
        predictions_df['churn_risk'] =
            predictions_df['days_since_last_purchase'] / max_days
    else:
        predictions_df['churn_risk'] = 0.5] *)
Definition add_churn_risk (predictions_df : DataFrame) : result DataFrame :=
  if has_column "days_since_last_purchase" predictions_df then
    (days <-! read_column predictions_df "days_since_last_purchase";
     max_days <-! series_max days;
     days <-! read_column predictions_df "days_since_last_purchase";
     risk <-! series_div days max_days;
     set_column predictions_df "churn_risk" risk)%result
  else
    Ok (set_column_scalar predictions_df "churn_risk" (VFloat (Fin 0.5))).

(** The body of the [if 'customer_id' in customer_data.columns:] branch.
    [customer_data.copy()] is a fresh table with the same content. *)
Definition predict_block `{CLVPredictor} (customer_data : DataFrame) : M unit :=
  (processed_data <~ call CallCreateAdvancedFeatures
                       (create_advanced_features customer_data);
   X <~ call CallPrepareFeatures
          (prepare_features_for_prediction processed_data);
   raw_predictions <~ call CallPredictCLV (predict_clv X);
   let predictions_df := customer_data in
   predictions_df <~ lift (set_column predictions_df "predicted_clv"
                             (float_column raw_predictions));
   segments <~ call CallSegmentCustomers (segment_customers raw_predictions);
   predictions_df <~ lift (set_column predictions_df "customer_segment"
                             (map VStr segments));
   predictions_df <~ lift (add_percentile_rank predictions_df);
   predictions_df <~ lift (add_confidence_intervals predictions_df);
   predictions_df <~ lift (add_churn_risk predictions_df);
   set_predictions predictions_df;;
   set_trigger_prediction false;;
   emit (StSuccess "✅ Predictions generated successfully!"))%stmt.

(** [if predict_button_clicked or st.session_state.trigger_prediction:
        try:
            if 'customer_id' in customer_data.columns: ...
            else: st.error(...)
        except Exception as e:
            st.error(f"... {str(e)}")] *)
Definition prediction_section `{CLVPredictor}
    (customer_data : DataFrame) (predict_button_clicked : bool) : M unit :=
  fun w =>
    if predict_button_clicked || trigger_prediction (session w) then
      try_except
        (if has_column "customer_id" customer_data
         then predict_block customer_data
         else emit (StError
           "❌ Invalid customer data format. Please check your input data."))
        (fun e => emit (StError ("❌ Prediction failed: " ++ exn_str e)))
        w
    else (Ok tt, w).

(* ===================================================================== *)
(** ** Manual entry: [handle_manual_entry] (lines 114-192) *)
(* ===================================================================== *)

(** What the sidebar form hands to the script when it is submitted: the
    widget values and the two submit buttons. *)
Record manual_form : Type := mkForm {
  customer_id : string;
  age : Z;
  total_purchases : Z;
  avg_order_value : Q;
  days_since_first : Z;
  days_since_last : Z;
  acquisition_channel : string;
  location : string;
  subscription_status : string;
  add_customer : bool;
  add_and_predict : bool
}.

(** [x == y] between a string and a cell, as [in] on a list applies it. *)
Definition str_eq_value (s : string) (v : value) : bool :=
  match v with
  | VStr t => String.eqb s t
  | _ => false
  end.

(** The messages, in the order the code appends them. *)
Definition msg_empty_id : string := "Customer ID cannot be empty!".
Definition msg_duplicate_id (customer_id : string) : string :=
  "Customer ID '" ++ customer_id ++ "' already exists!".
Definition msg_age : string := "Age must be between 18 and 100!".
Definition msg_total_purchases : string := "Total purchases cannot be negative!".
Definition msg_avg_order_value : string :=
  "Average order value must be greater than 0!".
Definition msg_days_first : string :=
  "Days since first purchase must be at least 1!".
Definition msg_days_last : string :=
  "Days since last purchase cannot be negative!".
Definition msg_days_order : string :=
  "Days since last purchase cannot be greater than days since first purchase!".

(** [validation_errors.append(msg)] under [if cond:] *)
Definition append_if (cond : bool) (msg : string) (errors : list string)
  : list string :=
  if cond then errors ++ [msg] else errors.

(** The customer-id check: an empty id, else an id already in the table. *)
Definition check_customer_id (manual : DataFrame) (f : manual_form)
    (errors : list string) : list string :=
  if String.eqb (strip (customer_id f)) EmptyString then errors ++ [msg_empty_id]
  else if negb (df_empty manual) && has_column "customer_id" manual then
    let existing_ids :=
      match get_column "customer_id" manual with Some ids => ids | None => [] end in
    if existsb (str_eq_value (strip (customer_id f))) existing_ids
    then errors ++ [msg_duplicate_id (customer_id f)]
    else errors
  else errors.

(** The validation block: every check runs, each appends its own message. *)
Definition validation_errors (manual : DataFrame) (f : manual_form)
  : list string :=
  let errors := [] in
  let errors := check_customer_id manual f errors in
  let errors := append_if ((age f <? 18)%Z || (age f >? 100)%Z) msg_age errors in
  let errors := append_if (total_purchases f <? 0)%Z msg_total_purchases errors in
  let errors := append_if (Qle_bool (avg_order_value f) 0)
                          msg_avg_order_value errors in
  let errors := append_if (days_since_first f <? 1)%Z msg_days_first errors in
  let errors := append_if (days_since_last f <? 0)%Z msg_days_last errors in
  let errors := append_if (days_since_last f >? days_since_first f)%Z
                          msg_days_order errors in
  errors.

(** [pd.DataFrame({...})] with one row. *)
Definition new_customer (f : manual_form) : DataFrame :=
  [ ("customer_id", [VStr (strip (customer_id f))]);
    ("age", [VInt (age f)]);
    ("total_purchases", [VInt (total_purchases f)]);
    ("avg_order_value", [VFloat (Fin (avg_order_value f))]);
    ("days_since_first_purchase", [VInt (days_since_first f)]);
    ("days_since_last_purchase", [VInt (days_since_last f)]);
    ("acquisition_channel", [VStr (acquisition_channel f)]);
    ("location", [VStr (location f)]);
    ("subscription_status", [VStr (subscription_status f)]) ].

(** A column of [df] for [pd.concat]: its cells, or NaN in every row when
    [df] has no such column. *)
Definition column_or_nan (df : DataFrame) (name : string) : column :=
  match get_column name df with
  | Some c => c
  | None => repeat (VFloat NaN) (nrows df)
  end.

(** [pd.concat([a, b], ignore_index=True)]: the rows of [a], then the rows
    of [b]; the columns of [a], then those only [b] has. *)
Definition concat_frames (a b : DataFrame) : DataFrame :=
  let names :=
    columns a ++ List.filter (fun n => negb (has_column n a)) (columns b) in
  map (fun n => (n, column_or_nan a n ++ column_or_nan b n)) names.

Definition emit_all (mk : string -> ui_event) (msgs : list string) : M unit :=
  fun w => (Ok tt, mkWorld (session w) (ui w ++ map mk msgs) (calls w)).

(** The form handler.  Returns [not st.session_state.manual_customers.empty]. *)
Definition handle_manual_entry (f : manual_form) : M bool :=
  ((if add_customer f || add_and_predict f then
      fun w =>
        let manual := manual_customers (session w) in
        let errors := validation_errors manual f in
        match errors with
        | _ :: _ => emit_all SidebarError errors w
        | [] =>
            let manual' :=
              if df_empty manual then new_customer f
              else concat_frames manual (new_customer f) in
            (modify_session (fun s =>
               mkSession (predictions s) (Some manual') manual'
                         (trigger_prediction s));;
             emit (SidebarSuccess
               ("✅ Customer " ++ customer_id f ++ " added! Total: "
                  ++ str_of_nat (nrows manual')));;
             if add_and_predict f then set_trigger_prediction true
             else ret tt)%stmt w
        end
    else ret tt);;
   fun w => (Ok (negb (df_empty (manual_customers (session w)))), w))%stmt.

(* ===================================================================== *)
(** ** The predictor module [clv_model] *)
(* ===================================================================== *)

(** app.py imports [EnhancedCLVPredictor] from [clv_model]; the code of that
    module is not part of app.py.  The segmenter and the persistor below are
    written from the design document of the system. *)
Module CLVModel.

(** Modelled from the spec: the segment labels of the Segmenter, which is
    part of the missing module [clv_model]. *)
Inductive segment : Type :=
| LowValue
| MediumValue
| HighValue.

(** Modelled from the spec: the label text of a segment, as the missing
    Segmenter returns it. *)
Definition segment_label (s : segment) : string :=
  match s with
  | LowValue => "Low Value"
  | MediumValue => "Medium Value"
  | HighValue => "High Value"
  end.

(** Modelled from the spec: the position of a label of the missing
    Segmenter in "Low Value" < "Medium Value" < "High Value". *)
Definition segment_rank (s : segment) : nat :=
  match s with
  | LowValue => 0
  | MediumValue => 1
  | HighValue => 2
  end.

(** Modelled from the spec: the ordering of the labels of the missing
    Segmenter. *)
Definition segment_le (s t : segment) : Prop :=
  (segment_rank s <= segment_rank t)%nat.

(** Modelled from the spec: what the file of the missing Persistor holds,
    as its bytes encode it: integers, floats, text, sequences and keyed
    fields.  A float is written exactly. *)
#[warnings="-register-all"]
Inductive blob : Type :=
| BInt (z : Z)
| BFloat (q : Q)
| BStr (s : string)
| BList (items : list blob)
| BDict (fields : list (string * blob)).

(** Modelled from the spec: reading one field of the keyed fields the
    missing Persistor wrote. *)
Definition field (name : string) (fields : list (string * blob))
  : option blob :=
  match List.find (fun kv => String.eqb (fst kv) name) fields with
  | Some kv => Some (snd kv)
  | None => None
  end.

(** Modelled from the spec: the reader of the missing Persistor for an
    integer; like the other readers it refuses a blob of another kind. *)
Definition decode_int (b : blob) : option Z :=
  match b with BInt z => Some z | _ => None end.

(** Modelled from the spec: the reader of the missing Persistor for a
    float. *)
Definition decode_float (b : blob) : option Q :=
  match b with BFloat q => Some q | _ => None end.

(** Modelled from the spec: the reader of the missing Persistor for
    text. *)
Definition decode_str (b : blob) : option string :=
  match b with BStr s => Some s | _ => None end.

(** Modelled from the spec: the missing Persistor reading the items of a
    sequence one by one; one unreadable item makes the whole
    unreadable. *)
Fixpoint decode_items {A : Type} (decode : blob -> option A)
    (items : list blob) : option (list A) :=
  match items with
  | [] => Some []
  | b :: rest =>
      match decode b, decode_items decode rest with
      | Some a, Some l => Some (a :: l)
      | _, _ => None
      end
  end.

(** Modelled from the spec: the missing Persistor reading keyed fields one
    by one, keeping their keys. *)
Fixpoint decode_fields {A : Type} (decode : blob -> option A)
    (fields : list (string * blob)) : option (list (string * A)) :=
  match fields with
  | [] => Some []
  | (k, b) :: rest =>
      match decode b, decode_fields decode rest with
      | Some a, Some l => Some ((k, a) :: l)
      | _, _ => None
      end
  end.

(** Modelled from the spec: the reader of the missing Persistor for a
    sequence. *)
Definition decode_list {A : Type} (decode : blob -> option A) (b : blob)
  : option (list A) :=
  match b with BList items => decode_items decode items | _ => None end.

(** Modelled from the spec: the reader of the missing Persistor for keyed
    fields. *)
Definition decode_dict {A : Type} (decode : blob -> option A) (b : blob)
  : option (list (string * A)) :=
  match b with BDict fields => decode_fields decode fields | _ => None end.

(** Modelled from the spec: the temporary path the missing Persistor
    writes to before it renames. *)
Definition temp_path (path : string) : string := path ++ ".tmp".

(** Modelled from the spec: the rename step of the missing Persistor; the
    file at [src] takes the place of the one at [dst].  The files of the
    working directory are a map from paths to blobs. *)
Definition rename_file (src dst : string) (fs : gmap string blob)
  : result (gmap string blob) :=
  match fs !! src with
  | Some b => Ok (<[dst := b]> (delete src fs))
  | None => Raised (Exception "FileNotFoundError")
  end.

Section Artifact.

(** The fitted regression model: its parameters, and the predictions it
    makes from an aligned feature matrix (one number per row). *)
Variable params : Type.
Variable regress : params -> DataFrame -> list Q.

(** How the regression library writes the parameters of its model into a
    blob, and how it reads them back. *)
Variable dump_params : params -> blob.
Variable load_params : blob -> option params.

(** The feature schema the Feature Engineer of the running code
    produces. *)
Variable engineer_schema : list string.

(** Modelled from the spec: the fitted state (ModelArtifact) of the
    missing module [clv_model]: the model, the frozen feature schema
    with its encoders and imputation defaults, and the two frozen
    segment boundaries. *)
Record ModelArtifact : Type := mkArtifact {
  model_parameters : params;
  feature_schema : list string;
  encoders : list (string * list (string * Z));
  imputation_defaults : list (string * Q);
  segment_thresholds : Q * Q
}.

(** Modelled from the spec: what the artifact file of the missing
    Persistor records: a version tag, the artifact and the fit
    metadata. *)
Record ArtifactFile : Type := mkFile {
  format_version : nat;
  payload : ModelArtifact;
  fit_metadata : string
}.

(** Modelled from the spec: the version tag the missing Persistor writes
    and accepts; the spec gives it no value, any constant will do. *)
Definition FORMAT_VERSION : nat := 1.

(** Modelled from the spec: the predictor object of the missing module
    [clv_model]; it owns at most one artifact. *)
Record predictor : Type := mkPredictor {
  artifact : option ModelArtifact;
  metadata : string
}.

(** Modelled from the spec: [EnhancedCLVPredictor()] of the missing module
    [clv_model]; a new predictor owns no artifact. *)
Definition new_predictor : predictor := mkPredictor None EmptyString.

(** Modelled from the spec: the attribute [is_fitted] of the missing
    predictor class; it holds when the predictor owns an artifact. *)
Definition is_fitted (p : predictor) : bool :=
  match artifact p with Some _ => true | None => false end.

(** Modelled from the spec: the segment of one value in the missing
    Segmenter.  A value is bucketed by the two boundaries stored in the
    artifact, never by the batch it comes in. *)
Definition segment_of (a : ModelArtifact) (v : Q) : segment :=
  let '(low_cut, high_cut) := segment_thresholds a in
  if Qle_bool v low_cut then LowValue
  else if Qle_bool v high_cut then MediumValue
  else HighValue.

(** Modelled from the spec: [segment_customers] of the missing module
    [clv_model]: one label per value, in the order of the values; it needs
    a fitted artifact. *)
Definition segment_customers (p : predictor) (predictions : list Q)
  : result (list segment) :=
  match artifact p with
  | None => Raised (Exception "NotFittedError: model is not fitted")
  | Some a => Ok (map (segment_of a) predictions)
  end.

(** Modelled from the spec: the floor of the missing Predictor, whose
    outputs are never negative: a regression output below zero is given
    as 0. *)
Definition floor_at_zero (v : Q) : Q := if Qle_bool 0 v then v else 0.

(** Modelled from the spec: [predict_clv] of the missing module
    [clv_model]; it needs a fitted artifact and only reads it, and it
    returns one number per row, none of them negative. *)
Definition predict_clv (p : predictor) (X : DataFrame) : result (list Q) :=
  match artifact p with
  | None => Raised (Exception "NotFittedError: model is not fitted")
  | Some a => Ok (map floor_at_zero (regress (model_parameters a) X))
  end.

(** Modelled from the spec: the fields of an artifact in the file of the
    missing Persistor: feature schema, encoders (category mappings and
    fill values), model parameters and segment thresholds. *)
Definition encode_artifact (a : ModelArtifact) : list (string * blob) :=
  [ ("feature_schema", BList (map BStr (feature_schema a)));
    ("encoders",
     BDict
       [ ("categories",
          BDict (map (fun e =>
                        (fst e,
                         BDict (map (fun c => (fst c, BInt (snd c)))
                                    (snd e))))
                     (encoders a)));
         ("fill_values",
          BDict (map (fun d => (fst d, BFloat (snd d)))
                     (imputation_defaults a))) ]);
    ("model_parameters", dump_params (model_parameters a));
    ("segment_thresholds",
     BList [ BFloat (fst (segment_thresholds a));
             BFloat (snd (segment_thresholds a)) ]) ].

(** Modelled from the spec: the blob the missing Persistor writes: the
    version tag first, then the artifact, then the fit metadata. *)
Definition encode_file (f : ArtifactFile) : blob :=
  BDict (("format_version", BInt (Z.of_nat (format_version f)))
           :: encode_artifact (payload f)
           ++ [("fit_metadata", BStr (fit_metadata f))]).

(** Modelled from the spec: the missing Persistor reading an artifact back
    from the fields of a blob; none when a field is missing or holds
    something else than what is written there. *)
Definition decode_artifact (fields : list (string * blob))
  : option ModelArtifact :=
  match field "feature_schema" fields ≫= decode_list decode_str,
        field "encoders" fields with
  | Some schema, Some (BDict enc) =>
      match field "categories" enc ≫= decode_dict (decode_dict decode_int),
            field "fill_values" enc ≫= decode_dict decode_float,
            field "model_parameters" fields ≫= load_params,
            field "segment_thresholds" fields ≫= decode_list decode_float with
      | Some categories, Some fill_values, Some parameters,
        Some [low_cut; high_cut] =>
          Some (mkArtifact parameters schema categories fill_values
                           (low_cut, high_cut))
      | _, _, _, _ => None
      end
  | _, _ => None
  end.

(** Modelled from the spec: [save_model] of the missing Persistor.  The
    blob is written to a temporary path and then renamed over the
    target. *)
Definition save_model (p : predictor) (path : string)
    (fs : gmap string blob) : result (gmap string blob) :=
  match artifact p with
  | None => Raised (Exception "NotFittedError: nothing to save")
  | Some a =>
      let blob := encode_file (mkFile FORMAT_VERSION a (metadata p)) in
      rename_file (temp_path path) path (<[temp_path path := blob]> fs)
  end.

(** Modelled from the spec: [load_model] of the missing Persistor.  It
    reads the version tag first and refuses a blob of another format
    version; it then reads the artifact, and refuses one whose schema is
    not the Feature Engineer's. *)
Definition load_model (path : string) (fs : gmap string blob)
  : result predictor :=
  match fs !! path with
  | None => Raised (Exception "FileNotFoundError")
  | Some (BDict fields) =>
      match field "format_version" fields ≫= decode_int with
      | None => Raised (Exception "SchemaMismatchError: no format version")
      | Some version =>
          if negb (Z.eqb version (Z.of_nat FORMAT_VERSION)) then
            Raised (Exception "SchemaMismatchError: format version")
          else
            match decode_artifact fields,
                  field "fit_metadata" fields ≫= decode_str with
            | Some a, Some note =>
                if negb (bool_decide (feature_schema a = engineer_schema))
                then Raised (Exception "SchemaMismatchError: feature schema")
                else Ok (mkPredictor (Some a) note)
            | _, _ => Raised (Exception "SchemaMismatchError: unreadable artifact")
            end
      end
  | Some _ => Raised (Exception "SchemaMismatchError: unreadable artifact")
  end.

End Artifact.

Arguments mkArtifact {params}.
Arguments model_parameters {params}.
Arguments feature_schema {params}.
Arguments encoders {params}.
Arguments imputation_defaults {params}.
Arguments segment_thresholds {params}.
Arguments mkFile {params}.
Arguments format_version {params}.
Arguments payload {params}.
Arguments fit_metadata {params}.
Arguments mkPredictor {params}.
Arguments artifact {params}.
Arguments metadata {params}.
Arguments new_predictor {params}.
Arguments is_fitted {params}.
Arguments segment_of {params}.
Arguments segment_customers {params}.
Arguments predict_clv {params}.
Arguments save_model {params}.
Arguments load_model {params}.
Arguments encode_artifact {params}.
Arguments encode_file {params}.
Arguments decode_artifact {params}.

End CLVModel.

(* ===================================================================== *)
(** ** Start of the script: load the saved model or train one (lines 64-110) *)
(* ===================================================================== *)

Definition MODEL_FILE : string := "clv_model.joblib".

(** Streamlit runs the script from the top on every interaction: a new
    predictor object is made, the saved model is loaded when the file is
    there, and a model is trained and saved otherwise (or when loading
    fails).  [run_full_pipeline] is the outcome of training on freshly
    generated sample data.  The result is the predictor in use, the files
    and the messages shown. *)
Definition startup {params : Type}
    (dump_params : params -> CLVModel.blob)
    (load_params : CLVModel.blob -> option params)
    (engineer_schema : list string)
    (run_full_pipeline : result (CLVModel.predictor params))
    (fs : gmap string CLVModel.blob)
  : CLVModel.predictor params * gmap string CLVModel.blob
    * list ui_event :=
  let clv_predictor := CLVModel.new_predictor in
  let FORCE_RETRAIN := false in
  let '(clv_predictor, FORCE_RETRAIN, shown) :=
    if negb (CLVModel.is_fitted clv_predictor) && negb FORCE_RETRAIN then
      match fs !! MODEL_FILE with
      | Some _ =>
          match CLVModel.load_model load_params engineer_schema MODEL_FILE
                                    fs with
          | Ok loaded =>
              (loaded, FORCE_RETRAIN,
               [StSuccess "✅ CLV Model loaded from saved file!"])
          | Raised e =>
              (clv_predictor, true,
               [StWarning ("Could not load saved model: " ++ exn_str e)])
          end
      | None => (clv_predictor, FORCE_RETRAIN, [])
      end
    else (clv_predictor, FORCE_RETRAIN, []) in
  if negb (CLVModel.is_fitted clv_predictor) || FORCE_RETRAIN then
    match run_full_pipeline with
    | Ok trained =>
        match CLVModel.save_model dump_params trained MODEL_FILE fs with
        | Ok fs' =>
            (trained, fs',
             shown ++ [StSuccess "✅ CLV Model trained and saved successfully!"])
        | Raised e =>
            (trained, fs,
             shown ++ [StError ("❌ Error training model: " ++ exn_str e)])
        end
    | Raised e =>
        (clv_predictor, fs,
         shown ++ [StError ("❌ Error training model: " ++ exn_str e)])
    end
  else (clv_predictor, fs, shown ++ [StSuccess "✅ CLV Model ready!"]).

(** A predictor object of [CLVModel] seen through the interface app.py
    uses: its feature engineer, its feature aligner, its model and its
    segmenter, whose labels reach app.py as strings. *)
Definition model_predictor {params : Type}
    (regress : params -> DataFrame -> list Q)
    (engineer align : DataFrame -> result DataFrame)
    (p : CLVModel.predictor params) : CLVPredictor :=
  {| create_advanced_features := engineer;
     prepare_features_for_prediction := align;
     predict_clv := CLVModel.predict_clv regress p;
     segment_customers := fun raw =>
       match CLVModel.segment_customers p raw with
       | Ok segs => Ok (map CLVModel.segment_label segs)
       | Raised e => Raised e
       end |}.

(* ===================================================================== *)
(** ** The table of a successful run *)
(* ===================================================================== *)

(** The columns the prediction block assigns, in the order it assigns
    them. *)
Definition appended_columns : list string :=
  [ "predicted_clv"; "customer_segment"; "percentile_rank";
    "confidence_lower"; "confidence_upper"; "churn_risk" ].

(** The column assignments of [predict_block] (lines 616-636) in one piece:
    the table built from the input table and from what [predict_clv] and
    [segment_customers] returned. *)
Definition prediction_table (customer_data : DataFrame)
    (raw_predictions : list Q) (segments : list string) : result DataFrame :=
  (predictions_df <-! set_column customer_data "predicted_clv"
                        (float_column raw_predictions);
   predictions_df <-! set_column predictions_df "customer_segment"
                        (map VStr segments);
   predictions_df <-! add_percentile_rank predictions_df;
   predictions_df <-! add_confidence_intervals predictions_df;
   add_churn_risk predictions_df)%result.

(** The cells each group computes from the numbers of a column. *)
Definition scaled (k : Q) (xs : list pyfloat) : column :=
  map (fun x => VFloat (fmul x (Fin k))) xs.

Definition risk_of (xs : list pyfloat) : column :=
  map (fun x => VFloat (fdiv x (fold_left fmax_skipna xs NaN))) xs.

(** The world a successful run of [predict_block] leaves. *)
Definition after_success (w : world) (out : DataFrame) : world :=
  mkWorld
    (mkSession (Some out) (customer_data (session w))
               (manual_customers (session w)) false)
    (ui w ++ [StSuccess "✅ Predictions generated successfully!"])
    (calls w ++ [CallCreateAdvancedFeatures; CallPrepareFeatures;
                 CallPredictCLV; CallSegmentCustomers]).

(** Every step of the block succeeds on [cd], and the table built is
    [out]. *)
Definition all_steps_ok `{CLVPredictor} (cd : DataFrame) (out : DataFrame)
  : Prop :=
  exists processed X raw segs,
    create_advanced_features cd = Ok processed
    /\ prepare_features_for_prediction processed = Ok X
    /\ predict_clv X = Ok raw
    /\ segment_customers raw = Ok segs
    /\ prediction_table cd raw segs = Ok out.

(** The contract of [predict_clv] that the block relies on: one float per
    row, none of them negative. *)
Definition nonneg_predictions `{CLVPredictor} : Prop :=
  forall (X : DataFrame) (raw : list Q),
    predict_clv X = Ok raw -> Forall (fun q => (0 <= q)%Q) raw.

(** The labels of a CustomerRecord table. *)
Definition customer_record_columns : list string :=
  [ "customer_id"; "age"; "total_purchases"; "avg_order_value";
    "days_since_first_purchase"; "days_since_last_purchase";
    "acquisition_channel"; "location"; "subscription_status" ].

(** Every column has as many cells as the table has rows, as in every
    pandas frame. *)
Definition rectangular (df : DataFrame) : bool :=
  forallb (fun nc => Nat.eqb (length (snd nc)) (nrows df)) df.

(** The constraints of a CustomerRecord that a submitted form can violate,
    each with the message that reports it. *)
Inductive violation (manual : DataFrame) (f : manual_form) : string -> Prop :=
| EmptyId :
    strip (customer_id f) = EmptyString ->
    violation manual f msg_empty_id
| DuplicateId (ids : column) :
    strip (customer_id f) <> EmptyString ->
    get_column "customer_id" manual = Some ids ->
    In (VStr (strip (customer_id f))) ids ->
    violation manual f (msg_duplicate_id (customer_id f))
| AgeOutOfRange :
    (age f < 18 \/ age f > 100)%Z ->
    violation manual f msg_age
| NegativePurchases :
    (total_purchases f < 0)%Z ->
    violation manual f msg_total_purchases
| OrderValueNotPositive :
    (avg_order_value f <= 0)%Q ->
    violation manual f msg_avg_order_value
| FirstPurchaseTooRecent :
    (days_since_first f < 1)%Z ->
    violation manual f msg_days_first
| NegativeRecency :
    (days_since_last f < 0)%Z ->
    violation manual f msg_days_last
| LastBeforeFirst :
    (days_since_last f > days_since_first f)%Z ->
    violation manual f msg_days_order.

(** Every label of the table is a CustomerRecord field. *)
Definition customer_record_table (df : DataFrame) : bool :=
  forallb (fun n => existsb (String.eqb n) customer_record_columns)
          (columns df).

(** No label of the input table is one of the assigned labels. *)
Definition fresh_columns (customer_data : DataFrame) : bool :=
  forallb (fun n => negb (has_column n customer_data)) appended_columns.

(** A cell holding a finite number that is not negative. *)
Definition nonneg_number (v : value) : bool :=
  match to_float v with
  | Some (Fin q) => Qle_bool 0 q
  | _ => false
  end.

(** A cell holding the number zero. *)
Definition zero_number (v : value) : bool :=
  match to_float v with
  | Some (Fin q) => Qeq_bool q 0
  | _ => false
  end.

(* ===================================================================== *)
(** ** Concrete predictors and tables *)
(* ===================================================================== *)

(** A small linear model and a few customers, on which the definitions
    above can be run. *)
Module Examples.

(** The number in a cell, 0 when there is none. *)
Definition cell_number (df : DataFrame) (name : string) (i : nat) : Q :=
  match cell df name i with
  | Some v => match to_float v with Some (Fin q) => q | _ => 0 end
  | None => 0
  end.

(** A linear model: one weight per feature column. *)
Definition linear_regress (weights : list (string * Q)) (X : DataFrame)
  : list Q :=
  map (fun i =>
         fold_right (fun (w : string * Q) (acc : Q) =>
                       (snd w * cell_number X (fst w) i + acc)%Q)
                    0%Q weights)
      (seq 0 (nrows X)).

(** Keep the named columns, in that order; KeyError on a missing one. *)
Fixpoint select_columns (names : list string) (df : DataFrame)
  : result DataFrame :=
  match names with
  | [] => Ok []
  | n :: rest =>
      match get_column n df with
      | None => Raised (KeyError n)
      | Some c =>
          match select_columns rest df with
          | Ok out => Ok ((n, c) :: out)
          | Raised e => Raised e
          end
      end
  end.

Definition features : list string := ["total_purchases"; "avg_order_value"].

(** The example predictor: no derived features, the two feature columns,
    the linear model. *)
Definition as_predictor (p : CLVModel.predictor (list (string * Q)))
  : CLVPredictor :=
  model_predictor linear_regress (fun df => Ok df)
                  (select_columns features) p.

Definition linear_artifact : CLVModel.ModelArtifact (list (string * Q)) :=
  CLVModel.mkArtifact
    [("total_purchases", 10%Q); ("avg_order_value", 2%Q)]
    features [] [] (150%Q, 400%Q).



Definition fitted : CLVModel.predictor (list (string * Q)) :=
  CLVModel.mkPredictor (Some linear_artifact) "trained on sample data".

Definition unfitted : CLVModel.predictor (list (string * Q)) :=
  CLVModel.new_predictor.

Definition form (id : string) (purchases : Z) (order_value : Q)
    (first last : Z) : manual_form :=
  mkForm id 35 purchases order_value first last "Online" "Urban" "Active"
         true false.

(** Three customers as the manual-entry form builds them. *)
Definition customers : DataFrame :=
  concat_frames
    (concat_frames (new_customer (form "CUST_0001" 5 50%Q 180 30))
                   (new_customer (form "CUST_0002" 10 50%Q 200 20)))
    (new_customer (form "CUST_0003" 40 75%Q 365 0)).

(** One customer who bought today. *)
Definition bought_today : DataFrame :=
  new_customer (form "CUST_0001" 5 50%Q 180 0).

(** The same customers without the [customer_id] column. *)
Definition anonymous : DataFrame := tail customers.

(** A table that already has a [churn_risk] column. *)
Definition rescored : DataFrame :=
  customers ++ [("churn_risk", [VFloat (Fin 0.9%Q); VFloat (Fin 0.9%Q);
                                VFloat (Fin 0.9%Q)])].

Definition empty_session : session_state :=
  mkSession None None [] false.

Definition start : world := mkWorld empty_session [] [].

(** A form with a blank id, an age of 17, -1 purchases, an order value of
    0, a first purchase 0 days ago and a last purchase 5 days ago. *)
Definition invalid_form : manual_form :=
  mkForm "  " 17 (-1) 0%Q 0 5 "Online" "Urban" "None" true false.

(** A valid form for a fourth customer, submitted with "Add & Predict";
    its id comes with blanks around it. *)
Definition valid_form : manual_form :=
  mkForm " CUST_0004 " 40 3 20%Q 10 5 "Store" "Rural" "Active" false true.

(** A valid form for a fourth customer, submitted with "Add Customer". *)
Definition quiet_form : manual_form :=
  mkForm "CUST_0004" 40 3 20%Q 10 5 "Store" "Rural" "Active" true false.

(** The world after the first customer was entered into [start]. *)
Definition first_entered : world :=
  snd (handle_manual_entry (form "CUST_0001" 5 50%Q 180 30) start).

(** The run of the prediction block on [customers]. *)
Definition scored : world :=
  snd (@predict_block (as_predictor fitted) customers start).

Definition scored_table : DataFrame :=
  default [] (predictions (session scored)).

(** A session that already shows the predictions of that run. *)
Definition earlier : world :=
  mkWorld (mkSession (Some scored_table) (Some customers) customers false)
          [] [].

(** The run on the one customer who bought today. *)
Definition scored_today : world :=
  snd (@predict_block (as_predictor fitted) bought_today start).

Definition scored_today_table : DataFrame :=
  default [] (predictions (session scored_today)).

(** The run on the table that already has a [churn_risk] column. *)
Definition scored_again : world :=
  snd (@predict_block (as_predictor fitted) rescored start).

Definition scored_again_table : DataFrame :=
  default [] (predictions (session scored_again)).

End Examples.

(* ===================================================================== *)
(** ** The list of manual customers: [display_manual_customers]
       (lines 194-237) *)
(* ===================================================================== *)

(** The button of the sidebar list pressed in this run, if any.  Streamlit
    reports at most one pressed button per run. *)
Inductive manual_click : Type :=
| NoClick
| ClickRemove (idx : nat)
| ClickViewAll
| ClickClearAll
| ClickExport.

(** How a piece of the script ends: it goes on, or [st.rerun()] stops the
    run and starts the script again. *)
Inductive flow : Type :=
| Continue
| Rerun.

(** [df.drop(idx).reset_index(drop=True)] on a frame indexed 0, 1, 2, ...:
    row [idx] leaves every column, the rows after it move up. *)
Definition drop_row (idx : nat) (df : DataFrame) : DataFrame :=
  map (fun nc => (fst nc, delete idx (snd nc))) df.

(** The handler of the list.  [show_all_customers] is the session flag of
    that name; the result is how the run goes on, the flag, and the world.
    The text written into the expanders and the CSV offered for download
    are not part of the world and are left out. *)
Definition display_manual_customers (click : manual_click)
    (show_all_customers : bool) (w : world) : flow * bool * world :=
  let s := session w in
  if negb (df_empty (manual_customers s)) then
    match click with
    | ClickRemove idx =>
        if Nat.ltb idx (nrows (manual_customers s)) then
          let manual := drop_row idx (manual_customers s) in
          let data := if negb (df_empty manual) then Some manual else None in
          (Rerun, show_all_customers,
           mkWorld (mkSession (predictions s) data manual
                              (trigger_prediction s))
                   (ui w) (calls w))
        else (Continue, show_all_customers, w)
    | ClickViewAll => (Continue, true, w)
    | ClickClearAll =>
        (Rerun, show_all_customers,
         mkWorld (mkSession None None [] (trigger_prediction s))
                 (ui w ++ [SidebarSuccess "All customers cleared!"])
                 (calls w))
    | ClickExport => (Continue, show_all_customers, w)
    | NoClick => (Continue, show_all_customers, w)
    end
  else (Continue, show_all_customers, w).

(** A table as the manual form builds it: no columns at all
    ([pd.DataFrame()]), or the nine CustomerRecord columns in the order of
    [new_customer], all of one length. *)
Definition manual_table (df : DataFrame) : bool :=
  match df with
  | [] => true
  | _ => bool_decide (columns df = customer_record_columns) && rectangular df
  end.

(** The cells of a column, none when the table has no such column. *)
Definition cells (df : DataFrame) (name : string) : column :=
  match get_column name df with
  | Some c => c
  | None => []
  end.

(** The customer ids of a table. *)
Definition customer_ids (df : DataFrame) : column := cells df "customer_id".

(** The nine CustomerRecord columns, in the order of [new_customer]. *)
Definition customer_frame
    (ids ages purchases values firsts lasts channels locations
       subscriptions : column) : DataFrame :=
  [ ("customer_id", ids); ("age", ages); ("total_purchases", purchases);
    ("avg_order_value", values); ("days_since_first_purchase", firsts);
    ("days_since_last_purchase", lasts); ("acquisition_channel", channels);
    ("location", locations); ("subscription_status", subscriptions) ].

(** The table with one more row: under each label of [new_customer], the
    cells the table has under it, then the cell of the new customer. *)
Definition add_row (df : DataFrame) (f : manual_form) : DataFrame :=
  map (fun nc => (fst nc, cells df (fst nc) ++ snd nc)) (new_customer f).

(** The session as the script initialises it (lines 43-52). *)
Definition initial_session : session_state := mkSession None None [] false.

(** What a session that is fed by the manual form keeps true: the table has
    the shape of [manual_table], no id occurs twice, and [customer_data] is
    a copy of the table as long as it has rows and [None] otherwise. *)
Definition manual_session_ok (s : session_state) : Prop :=
  manual_table (manual_customers s) = true
  /\ NoDup (customer_ids (manual_customers s))
  /\ customer_data s
     = (if df_empty (manual_customers s) then None
        else Some (manual_customers s)).

(** One run of the script in "Manual Entry" mode changes the session through
    the form, through the list, or through the prediction section (run on
    the manual table); [manual_runs] is any number of such changes. *)
Inductive manual_step `{CLVPredictor} : world -> world -> Prop :=
| SubmitForm (f : manual_form) (w w' : world) (r : result bool) :
    handle_manual_entry f w = (r, w') -> manual_step w w'
| UseList (click : manual_click) (show show' : bool) (fl : flow)
    (w w' : world) :
    display_manual_customers click show w = (fl, show', w') ->
    manual_step w w'
| Predict (clicked : bool) (w w' : world) (r : result unit) :
    df_empty (manual_customers (session w)) = false ->
    prediction_section (manual_customers (session w)) clicked w = (r, w') ->
    manual_step w w'.

Inductive manual_runs `{CLVPredictor} : world -> world -> Prop :=
| NoRun (w : world) : manual_runs w w
| OneMoreRun (w w1 w2 : world) :
    manual_runs w w1 -> manual_step w1 w2 -> manual_runs w w2.

(* ===================================================================== *)
(** ** The detailed predictions table of [main] (lines 713-729) *)
(* ===================================================================== *)

(** [x >= y] and [x <= y] on floats; false when either is NaN. *)
Definition fgeb (x y : pyfloat) : bool := fltb y x || feqb x y.
Definition fleb (x y : pyfloat) : bool := fltb x y || feqb x y.

(** [series >= k] and [series <= k] for a float [k]: a boolean mask. *)
Definition series_ge (c : column) (k : Q) : result (list bool) :=
  match series_floats c with
  | Ok xs => Ok (map (fun x => fgeb x (Fin k)) xs)
  | Raised e => Raised e
  end.

Definition series_le (c : column) (k : Q) : result (list bool) :=
  match series_floats c with
  | Ok xs => Ok (map (fun x => fleb x (Fin k)) xs)
  | Raised e => Raised e
  end.

(** Equality of cells as [isin] and [unique] see it: strings by content,
    numbers by value, and NaN equal to NaN. *)
Definition value_eqb (a b : value) : bool :=
  match a, b with
  | VStr s, VStr t => String.eqb s t
  | VStr _, _ | _, VStr _ => false
  | _, _ =>
      match to_float a, to_float b with
      | Some x, Some y => (is_nan x && is_nan y) || feqb x y
      | _, _ => false
      end
  end.

(** [series.isin(values)] *)
Definition isin (c : column) (values : list value) : list bool :=
  map (fun v => existsb (value_eqb v) values) c.

(** [series.unique()]: the distinct cells, in the order they first occur. *)
Fixpoint unique_from (seen : list value) (c : column) : list value :=
  match c with
  | [] => []
  | v :: rest =>
      if existsb (value_eqb v) seen then unique_from seen rest
      else v :: unique_from (v :: seen) rest
  end.

Definition series_unique (c : column) : list value := unique_from [] c.

(** [a & b] on masks of one length. *)
Definition mask_and (a b : list bool) : list bool :=
  map (fun p => fst p && snd p) (combine a b).

(** The cells of a column where the mask is true. *)
Fixpoint select (mask : list bool) (c : column) : column :=
  match mask, c with
  | b :: mask', v :: c' => if b then v :: select mask' c' else select mask' c'
  | _, _ => []
  end.

(** [df[mask]]: the rows where the mask is true, in their order. *)
Definition filter_rows (mask : list bool) (df : DataFrame) : DataFrame :=
  map (fun nc => (fst nc, select mask (snd nc))) df.

(** The mask of the three filter controls. *)
Definition filter_mask (predictions_df : DataFrame)
    (segment_filter : list value) (min_clv max_churn_risk : Q)
  : result (list bool) :=
  (segment <-! read_column predictions_df "customer_segment";
   clv <-! read_column predictions_df "predicted_clv";
   above <-! series_ge clv min_clv;
   churn <-! read_column predictions_df "churn_risk";
   below <-! series_le churn max_churn_risk;
   Ok (mask_and (mask_and (isin segment segment_filter) above) below))%result.

(** [filtered_df = predictions_df[
       (predictions_df['customer_segment'].isin(segment_filter)) &
       (predictions_df['predicted_clv'] >= min_clv) &
       (predictions_df['churn_risk'] <= max_churn_risk)]] *)
Definition filtered_df (predictions_df : DataFrame)
    (segment_filter : list value) (min_clv max_churn_risk : Q)
  : result DataFrame :=
  match filter_mask predictions_df segment_filter min_clv max_churn_risk with
  | Ok mask => Ok (filter_rows mask predictions_df)
  | Raised e => Raised e
  end.

(** What the three controls hold when the user has not touched them: every
    segment of the table, a minimum of 0.0 and a maximum risk of 1.0. *)
Definition default_segment_filter (predictions_df : DataFrame) : list value :=
  series_unique (cells predictions_df "customer_segment").

Definition default_min_clv : Q := 0.
Definition default_max_churn_risk : Q := 1.

(** A cell holding a number between 0 and 1. *)
Definition unit_number (v : value) : bool :=
  match to_float v with
  | Some (Fin q) => Qle_bool 0 q && Qle_bool q 1
  | _ => false
  end.

(** The positions where a mask is true, counted from [k], in increasing
    order. *)
Fixpoint true_indices_from (k : nat) (mask : list bool) : list nat :=
  match mask with
  | [] => []
  | b :: mask' =>
      if b then k :: true_indices_from (S k) mask'
      else true_indices_from (S k) mask'
  end.

Definition true_indices (mask : list bool) : list nat :=
  true_indices_from 0 mask.

(** Row [i] of the table passes the three filter controls. *)
Definition row_passes (df : DataFrame) (segment_filter : list value)
    (min_clv max_churn_risk : Q) (i : nat) : bool :=
  match cell df "customer_segment" i,
        cell df "predicted_clv" i ≫= to_float,
        cell df "churn_risk" i ≫= to_float with
  | Some segment, Some clv, Some churn =>
      existsb (value_eqb segment) segment_filter
      && fgeb clv (Fin min_clv) && fleb churn (Fin max_churn_risk)
  | _, _, _ => false
  end.

(* ===================================================================== *)
(** ** The summary metrics of [main] (lines 653-691) *)
(* ===================================================================== *)

(** [x + y] on floats (IEEE 754: [inf + -inf] is NaN). *)
Definition fadd (x y : pyfloat) : pyfloat :=
  match x, y with
  | NaN, _ | _, NaN => NaN
  | Fin a, Fin b => Fin (a + b)
  | PosInf, NegInf | NegInf, PosInf => NaN
  | PosInf, _ | _, PosInf => PosInf
  | NegInf, _ | _, NegInf => NegInf
  end.

(** The numbers pandas reduces over with [skipna=True]. *)
Definition not_nan (xs : list pyfloat) : list pyfloat :=
  List.filter (fun x => negb (is_nan x)) xs.

Definition fsum (xs : list pyfloat) : pyfloat := fold_left fadd xs (Fin 0).

(** [series.sum()]: NaN cells are skipped; the sum of none is 0. *)
Definition series_sum (c : column) : result pyfloat :=
  match series_floats c with
  | Ok xs => Ok (fsum (not_nan xs))
  | Raised e => Raised e
  end.

(** [series.mean()]: the sum of the cells that are not NaN over their
    count; NaN when there is none. *)
Definition series_mean (c : column) : result pyfloat :=
  match series_floats c with
  | Ok xs =>
      match not_nan xs with
      | [] => Ok NaN
      | valid => Ok (fdiv (fsum valid) (of_Z (Z.of_nat (length valid))))
      end
  | Raised e => Raised e
  end.

(** The four numbers of the metric cards. *)
Record summary : Type := mkSummary {
  avg_clv : pyfloat;
  total_clv : pyfloat;
  high_value_customers : nat;
  avg_churn_risk : pyfloat
}.

(** [avg_clv = predictions_df['predicted_clv'].mean()]
    [total_clv = predictions_df['predicted_clv'].sum()]
    [high_value_customers =
       len(predictions_df[predictions_df['customer_segment'] == 'High Value'])]
    [avg_churn_risk = predictions_df['churn_risk'].mean()] *)
Definition summary_metrics (predictions_df : DataFrame) : result summary :=
  (clv <-! read_column predictions_df "predicted_clv";
   avg_clv <-! series_mean clv;
   clv <-! read_column predictions_df "predicted_clv";
   total_clv <-! series_sum clv;
   segment <-! read_column predictions_df "customer_segment";
   let high_value_customers :=
     length (List.filter (str_eq_value "High Value") segment) in
   churn <-! read_column predictions_df "churn_risk";
   avg_churn_risk <-! series_mean churn;
   Ok (mkSummary avg_clv total_clv high_value_customers avg_churn_risk))%result.

(* ===================================================================== *)
(** ** The data source of [main] (lines 473-524) *)
(* ===================================================================== *)

(** The radio button with what its branch reads: the uploaded file as
    [pd.read_csv] parses it (none when no file is chosen), the table
    [generate_sample_data()] returns when "Generate Sample Data" is
    pressed, or the form and the buttons of the manual entry. *)
Inductive data_source : Type :=
| UploadCSVFile (uploaded_file : option (result DataFrame))
| UseSampleData (generated : option DataFrame)
| ManualEntry (f : manual_form) (click : manual_click) (close_view : bool).

(** [st.session_state.customer_data = df] *)
Definition set_customer_data (df : DataFrame) : M unit :=
  modify_session (fun s =>
    mkSession (predictions s) (Some df) (manual_customers s)
              (trigger_prediction s)).

(** The branch of the chosen source: how the run goes on, the local
    [customer_data] the rest of [main] works with, and the flag
    [show_all_customers]. *)
Definition data_source_section (source : data_source)
    (show_all_customers : bool)
  : M (flow * option DataFrame * bool) :=
  match source with
  | UploadCSVFile None => ret (Continue, None, show_all_customers)
  | UploadCSVFile (Some (Ok customer_data)) =>
      (emit (SidebarSuccess
               ("✅ File uploaded successfully! ("
                  ++ str_of_nat (nrows customer_data) ++ " customers)"));;
       ret (Continue, Some customer_data, show_all_customers))%stmt
  | UploadCSVFile (Some (Raised e)) =>
      (emit (SidebarError ("❌ Error reading file: " ++ exn_str e));;
       ret (Continue, None, show_all_customers))%stmt
  | UseSampleData generated =>
      (match generated with
       | Some customer_data =>
           (set_customer_data customer_data;;
            emit (SidebarSuccess
                    ("✅ Sample data generated! ("
                       ++ str_of_nat (nrows customer_data)
                       ++ " customers)")))%stmt
       | None => ret tt
       end;;
       fun w => (Ok (Continue, customer_data (session w), show_all_customers),
                 w))%stmt
  | ManualEntry f click close_view =>
      (has_manual_data <~ handle_manual_entry f;
       fun w1 =>
         match display_manual_customers click show_all_customers w1 with
         | (Rerun, show, w2) => (Ok (Rerun, None, show), w2)
         | (Continue, show, w2) =>
             let customer_data :=
               if has_manual_data : bool
               then Some (manual_customers (session w2))
               else None in
             if show && close_view then (Ok (Rerun, None, false), w2)
             else (Ok (Continue, customer_data, show), w2)
         end)%stmt
  end.

(* ===================================================================== *)
(** ** Reruns with a pending prediction (lines 601-644) *)
(* ===================================================================== *)

(** Runs of the script in a row that reach the prediction section with the
    same table, the predict button not pressed in any of them.  Each run
    has its own predictor: the one the start of that run loaded or trained
    (lines 64-110). *)
Fixpoint reruns (predictors : list CLVPredictor) (customer_data : DataFrame)
    (w : world) : world :=
  match predictors with
  | [] => w
  | P :: rest =>
      reruns rest customer_data
             (snd (@prediction_section P customer_data false w))
  end.

(** The error a run shows when its block raises [e]. *)
Definition prediction_failed (e : exn) : ui_event :=
  StError ("❌ Prediction failed: " ++ exn_str e).

(* ===================================================================== *)
(** ** Pages: the admin controls and the page flags of [main]
       (lines 430-470, 805-808, 822-840) *)
(* ===================================================================== *)

(** The four page flags of [st.session_state]. *)
Record page_flags : Type := mkFlags {
  show_feedback_dashboard : bool;
  show_feature_requests : bool;
  show_feedback_form : bool;
  show_feature_request_form : bool
}.

(** What the initialisation at the top of the script sets (lines 51-58). *)
Definition initial_flags : page_flags := mkFlags false false false false.

(** The options of the "Admin Actions" select box. *)
Inductive admin_choice : Type :=
| MainInterface
| ViewFeedbackDashboard
| ViewFeatureRequests.

(** The admin widgets of the sidebar: the check box, the password field and
    the select box.  The password field exists only while the box is
    checked, the select box only while the password is right. *)
Record admin_controls : Type := mkAdmin {
  admin_access : bool;
  admin_password : string;
  admin_action : admin_choice
}.

(** [if admin_access: ...] (lines 431-451) *)
Definition admin_navigation (a : admin_controls) (fl : page_flags)
  : page_flags * list ui_event :=
  if admin_access a then
    if String.eqb (admin_password a) "clv_admin_2024" then
      (match admin_action a with
       | ViewFeedbackDashboard =>
           mkFlags true (show_feature_requests fl) (show_feedback_form fl)
                   (show_feature_request_form fl)
       | ViewFeatureRequests =>
           mkFlags (show_feedback_dashboard fl) true (show_feedback_form fl)
                   (show_feature_request_form fl)
       | MainInterface =>
           mkFlags false false (show_feedback_form fl)
                   (show_feature_request_form fl)
       end,
       [SidebarSuccess "✅ Admin access granted"])
    else
      (fl,
       if String.eqb (admin_password a) EmptyString then []
       else [SidebarError "❌ Invalid admin password"])
  else (fl, []).

(** What a run of [main] displays below the header. *)
Inductive page : Type :=
| FeedbackDashboard
| FeatureRequestsDashboard
| FeedbackForm
| MainPage.

(** The chain of [if st.session_state.show_...: ...; return]
    (lines 454-468). *)
Definition page_of (fl : page_flags) : page :=
  if show_feedback_dashboard fl then FeedbackDashboard
  else if show_feature_requests fl then FeatureRequestsDashboard
  else if show_feedback_form fl then FeedbackForm
  else MainPage.

(** The button that started the run, as far as the page flags go. *)
Inductive page_click : Type :=
| NoPageClick
| ClickBackFromFeedback
| ClickRequestFeature
| ClickProvideFeedback
| ClickBackFromFeatureForm.

(** The page flags through one run of [main]: the page displayed, the flags
    the run leaves, and the sidebar messages of the admin controls.  A
    button counts only where the run creates it: "Back" on the feedback
    page, "Request Feature" under displayed results ([results_shown]),
    "Provide Feedback" in the footer, and the second "Back" under the
    feature request form.  The four flags are assigned in [main] only; the
    methods of [feedback_manager] and [doc_handler] that the pages call are
    taken to leave them alone. *)
Definition main_pages (a : admin_controls) (click : page_click)
    (results_shown : bool) (fl : page_flags)
  : page * page_flags * list ui_event :=
  let '(fl1, messages) := admin_navigation a fl in
  let fl2 :=
    match page_of fl1 with
    | FeedbackDashboard | FeatureRequestsDashboard => fl1
    | FeedbackForm =>
        match click with
        | ClickBackFromFeedback =>
            mkFlags (show_feedback_dashboard fl1) (show_feature_requests fl1)
                    false (show_feature_request_form fl1)
        | _ => fl1
        end
    | MainPage =>
        match click with
        | ClickRequestFeature =>
            if results_shown then
              mkFlags (show_feedback_dashboard fl1) false
                      (show_feedback_form fl1) true
            else fl1
        | ClickProvideFeedback =>
            mkFlags (show_feedback_dashboard fl1) (show_feature_requests fl1)
                    true (show_feature_request_form fl1)
        | ClickBackFromFeatureForm =>
            if show_feature_request_form fl1 then
              mkFlags (show_feedback_dashboard fl1)
                      (show_feature_requests fl1)
                      (show_feedback_form fl1) false
            else fl1
        | _ => fl1
        end
    end in
  (page_of fl1, fl2, messages).

(** The input of one run: the admin widgets, the button pressed, and
    whether results are on display. *)
Definition page_input : Type := (admin_controls * page_click * bool)%type.

(** The pages a sequence of runs displays, one per run. *)
Fixpoint pages_trace (inputs : list page_input) (fl : page_flags)
  : list page :=
  match inputs with
  | [] => []
  | (a, click, results_shown) :: rest =>
      let '(p, fl', _) := main_pages a click results_shown fl in
      p :: pages_trace rest fl'
  end.

(** The admin widgets of a run do not carry the password. *)
Definition without_password (i : page_input) : bool :=
  let '(a, _, _) := i in
  negb (admin_access a && String.eqb (admin_password a) "clv_admin_2024").

(* ===================================================================== *)
(** ** Feature requests: [display_feature_request_form] (lines 239-292) and
       [display_feature_requests_admin] (lines 326-390) *)
(* ===================================================================== *)

(** A request as the code handles it: a dict from field names to text. *)
Abbreviation feature_request := (gmap string string).

(** The options of the "Priority" and "Category" select boxes. *)
Inductive priority_option : Type :=
| PriorityLow
| PriorityMedium
| PriorityHigh.

Definition priority_label (p : priority_option) : string :=
  match p with
  | PriorityLow => "Low"
  | PriorityMedium => "Medium"
  | PriorityHigh => "High"
  end.

Inductive category_option : Type :=
| CategoryUI
| CategoryAnalysis
| CategoryExport
| CategoryPerformance
| CategoryIntegration
| CategoryOther.

Definition category_label (c : category_option) : string :=
  match c with
  | CategoryUI => "UI/UX Improvement"
  | CategoryAnalysis => "New Analysis Feature"
  | CategoryExport => "Data Export"
  | CategoryPerformance => "Performance"
  | CategoryIntegration => "Integration"
  | CategoryOther => "Other"
  end.

(** The widgets of the form and its submit button. *)
Record feature_form : Type := mkFeatureForm {
  feature_title : string;
  priority : priority_option;
  category : category_option;
  user_email : string;
  feature_description : string;
  use_case : string;
  additional_notes : string;
  submitted : bool
}.

(** [s.strip() if s.strip() else placeholder] *)
Definition strip_or (s placeholder : string) : string :=
  if String.eqb (strip s) EmptyString then placeholder else strip s.

(** The dict literal [request_data] (lines 277-286). *)
Definition request_fields (f : feature_form) : list (string * string) :=
  [ ("feature_title", strip (feature_title f));
    ("feature_description", strip (feature_description f));
    ("use_case", strip_or (use_case f) "Not provided");
    ("additional_notes", strip_or (additional_notes f) "None");
    ("priority", priority_label (priority f));
    ("category", category_label (category f));
    ("user_email", strip_or (user_email f) "Anonymous");
    ("status", "Pending") ].

Definition request_data (f : feature_form) : feature_request :=
  list_to_map (request_fields f).

(** What the form shows: messages as in [ui_event], and [st.info]. *)
Inductive notice : Type :=
| Shown (e : ui_event)
| StInfo (msg : string).

(** The body of the form (lines 271-292).  [save_feature_request], of the
    module [utils], reports whether it stored the request; the result
    lists the requests handed to it and the messages displayed. *)
Definition display_feature_request_form
    (save_feature_request : feature_request -> bool) (f : feature_form)
  : list feature_request * list notice :=
  if submitted f then
    if String.eqb (strip (feature_title f)) EmptyString then
      ([], [Shown (StError "Please provide a feature title!")])
    else if String.eqb (strip (feature_description f)) EmptyString then
      ([], [Shown (StError "Please provide a feature description!")])
    else
      let request_data := request_data f in
      ([request_data],
       if save_feature_request request_data then
         [ Shown (StSuccess
             "🎉 Thank you! Your feature request has been submitted successfully.");
           StInfo
             "💡 Our development team will review your request and prioritize it accordingly." ]
       else
         [ Shown (StError
             "❌ Sorry, there was an error submitting your request. Please try again.") ])
  else ([], []).

(** A value of a request as storage hands it back, read from JSON: text,
    an integer, or null. *)
Inductive stored_value : Type :=
| JText (s : string)
| JInt (z : Z)
| JNull.

(** A stored request: the dict of one request in the list that
    [load_feature_requests] returns. *)
Abbreviation stored_request := (gmap string stored_value).

(** [str(z)] *)
Definition str_of_Z (z : Z) : string :=
  match z with
  | Z0 => "0"
  | Zpos p => str_of_nat (Pos.to_nat p)
  | Zneg p => "-" ++ str_of_nat (Pos.to_nat p)
  end.

(** A value inside an f-string. *)
Definition shown_value (v : stored_value) : string :=
  match v with
  | JText s => s
  | JInt z => str_of_Z z
  | JNull => "None"
  end.

(** The truth value of a value in [x and ...]. *)
Definition truthy (v : stored_value) : bool :=
  match v with
  | JText s => negb (String.eqb s EmptyString)
  | JInt z => negb (Z.eqb z 0)
  | JNull => false
  end.

(** [v == text] *)
Definition is_text (text : string) (v : stored_value) : bool :=
  match v with
  | JText s => String.eqb s text
  | _ => false
  end.

(** [request.get(key, default)] *)
Definition get_or (request : stored_request) (key default : string)
  : stored_value :=
  match request !! key with
  | Some v => v
  | None => JText default
  end.

(** [request.get(key) and request.get(key) != placeholder] *)
Definition provided (request : stored_request) (key placeholder : string)
  : bool :=
  match request !! key with
  | Some v => truthy v && negb (is_text placeholder v)
  | None => false
  end.

(** [len([r for r in feature_requests if r.get(key) == text])] *)
Definition count_where (key text : string)
    (feature_requests : list stored_request) : nat :=
  length (List.filter
            (fun r => match r !! key with
                      | Some v => is_text text v
                      | None => false
                      end)
            feature_requests).

(** The three metrics of the dashboard (lines 338-349): total, pending and
    high priority. *)
Definition request_metrics (feature_requests : list stored_request)
  : nat * nat * nat :=
  (length feature_requests,
   count_where "status" "Pending" feature_requests,
   count_where "priority" "High" feature_requests).

(** Whether [pd.DataFrame(feature_requests)] has a column: some request has
    the key. *)
Definition has_key (key : string) (feature_requests : list stored_request)
  : bool :=
  existsb (fun r => match r !! key with Some _ => true | None => false end)
          feature_requests.

(** The columns of the table besides the date, in the order of line 362. *)
Definition table_columns : list string :=
  ["feature_title"; "priority"; "category"; "status"; "user_email"].

(** A row of the table: the formatted date, then the five cells; a request
    without the key leaves its cell empty. *)
Definition table_row : Type :=
  (option string * list (option stored_value))%type.

(** The table of all requests (lines 355-366).  [format_timestamps] is
    [pd.to_datetime(...).dt.strftime('%Y-%m-%d %H:%M')] on the column of
    timestamps, which pandas parses as a whole.  A missing column raises
    KeyError, with a message of pandas's that is not reproduced here. *)
Definition requests_table
    (format_timestamps : list (option stored_value)
                         -> result (list (option string)))
    (feature_requests : list stored_request) : result (list table_row) :=
  if negb (has_key "timestamp" feature_requests) then
    Raised (KeyError "timestamp")
  else
    (dates <-! format_timestamps
                 (map (fun r => r !! "timestamp") feature_requests);
     match List.filter (fun key => negb (has_key key feature_requests))
                       table_columns with
     | [] =>
         Ok (combine dates
               (map (fun r : stored_request =>
                       map (fun key => r !! key) table_columns)
                    feature_requests))
     | _ :: _ => Raised (KeyError "not in index")
     end)%result.

(** The two colour dicts of lines 371-372, read with [.get(..., "⚪")]. *)
Definition priority_color (v : stored_value) : string :=
  if is_text "Low" v then "🟢"
  else if is_text "Medium" v then "🟡"
  else if is_text "High" v then "🔴"
  else "⚪".

Definition status_color (v : stored_value) : string :=
  if is_text "Pending" v then "🟡"
  else if is_text "Approved" v then "🟢"
  else if is_text "Rejected" v then "🔴"
  else if is_text "In Progress" v then "🔵"
  else if is_text "Completed" v then "🟣"
  else "⚪".

(** [request.get('timestamp', 'Unknown')[:19]]: only text can be sliced. *)
Definition date_text (v : stored_value) : result string :=
  match v with
  | JText s => Ok (substring 0 19 s)
  | JInt _ => Raised (TypeError "'int' object is not subscriptable")
  | JNull => Raised (TypeError "'NoneType' object is not subscriptable")
  end.

(** One request of the loop of lines 370-390: the label of its expander,
    the lines of the left column and the lines of the right column.
    [request['id']] raises KeyError on a request without an id. *)
Definition request_expander (request : stored_request)
  : result (string * list string * list string) :=
  let priority_color := priority_color (get_or request "priority" "Medium") in
  let status_color := status_color (get_or request "status" "Pending") in
  match request !! "id" with
  | None => Raised (KeyError "id")
  | Some id =>
      let label :=
        (priority_color ++ " " ++ status_color ++ " Request #"
           ++ shown_value id ++ " - "
           ++ shown_value (get_or request "feature_title" "Untitled"))%string in
      let left :=
        [("**Description:** "
            ++ shown_value (get_or request "feature_description"
                                   "No description"))%string]
        ++ (if provided request "use_case" "Not provided"
            then [("**Use Case:** "
                     ++ shown_value (get_or request "use_case" "None"))%string]
            else [])
        ++ (if provided request "additional_notes" "None"
            then [("**Additional Notes:** "
                     ++ shown_value (get_or request "additional_notes"
                                            "None"))%string]
            else []) in
      (date <-! date_text (get_or request "timestamp" "Unknown");
       Ok (label, left,
           [ ("**Priority:** "
                ++ shown_value (get_or request "priority" "Medium"))%string;
             ("**Category:** "
                ++ shown_value (get_or request "category" "Other"))%string;
             ("**Status:** "
                ++ shown_value (get_or request "status" "Pending"))%string;
             ("**Date:** " ++ date)%string ]
           ++ (if provided request "user_email" "Anonymous"
               then [("**Email:** "
                        ++ shown_value (get_or request "user_email"
                                               "None"))%string]
               else [])))%result
  end.

(** The expanders of a list of requests, in the order of the list; the
    first request that raises ends the run. *)
Fixpoint request_expanders (requests : list stored_request)
  : result (list (string * list string * list string)) :=
  match requests with
  | [] => Ok []
  | request :: rest =>
      (expander <-! request_expander request;
       expanders <-! request_expanders rest;
       Ok (expander :: expanders))%result
  end.

(** What the dashboard displays. *)
Inductive requests_dashboard : Type :=
| NoRequestsYet
| RequestsShown (metrics : nat * nat * nat) (table : list table_row)
    (expanders : list (string * list string * list string)).

(** [display_feature_requests_admin], given what [load_feature_requests]
    returned: the note that there is no request yet, or the metrics, the
    table and one expander per request, newest first.  An exception ends
    the run; what was displayed before it is not part of the result. *)
Definition display_feature_requests_admin
    (format_timestamps : list (option stored_value)
                         -> result (list (option string)))
    (feature_requests : list stored_request) : result requests_dashboard :=
  match feature_requests with
  | [] => Ok NoRequestsYet
  | _ :: _ =>
      let metrics := request_metrics feature_requests in
      (table <-! requests_table format_timestamps feature_requests;
       expanders <-! request_expanders (rev feature_requests);
       Ok (RequestsShown metrics table expanders))%result
  end.

(** What the user typed into an optional field of the form, when it is
    neither blank nor the placeholder stored for a blank field. *)
Definition typed (s placeholder : string) : bool :=
  negb (String.eqb (strip s) EmptyString || String.eqb (strip s) placeholder).

(** A form as storage keeps it: every field of [request_data] as text, an
    id, a timestamp as text, and whatever else storage adds. *)
Definition stored_as (f : feature_form) (id : stored_value) (stamp : string)
    (request : stored_request) : Prop :=
  (forall key text, request_data f !! key = Some text ->
                    request !! key = Some (JText text))
  /\ request !! "id" = Some id
  /\ request !! "timestamp" = Some (JText stamp).

(** The expander the dashboard is to show for a form stored under [id] at
    [stamp]. *)
Definition form_expander (f : feature_form) (id : stored_value)
    (stamp : string) : string * list string * list string :=
  ((match priority f with
    | PriorityLow => "🟢"
    | PriorityMedium => "🟡"
    | PriorityHigh => "🔴"
    end ++ " 🟡 Request #" ++ shown_value id ++ " - "
      ++ strip (feature_title f))%string,
   [("**Description:** " ++ strip (feature_description f))%string]
   ++ (if typed (use_case f) "Not provided"
       then [("**Use Case:** " ++ strip (use_case f))%string] else [])
   ++ (if typed (additional_notes f) "None"
       then [("**Additional Notes:** " ++ strip (additional_notes f))%string]
       else []),
   [ ("**Priority:** " ++ priority_label (priority f))%string;
     ("**Category:** " ++ category_label (category f))%string;
     "**Status:** Pending";
     ("**Date:** " ++ substring 0 19 stamp)%string ]
   ++ (if typed (user_email f) "Anonymous"
       then [("**Email:** " ++ strip (user_email f))%string] else [])).

Module FilterExamples.

(** The detailed table of [Examples.scored_table] with the segment filter
    set to the medium and high segments, a minimum CLV of 0 and a maximum
    churn risk of 1. *)
Definition upper_segments : list value :=
  [VStr "High Value"; VStr "Medium Value"].

Definition upper_rows : DataFrame :=
  match filtered_df Examples.scored_table upper_segments 0 1 with
  | Ok shown => shown
  | Raised _ => []
  end.

End FilterExamples.

Module FurtherExamples.

(** A session in which "Add & Predict" has just set the trigger. *)
Definition pending : world :=
  mkWorld (mkSession None (Some Examples.customers) Examples.customers true)
          [] [].

(** Two runs whose predictor is not fitted (the model file could be
    neither loaded nor trained), each with the exception its block
    raises. *)
Definition failing_runs : list (CLVPredictor * exn) :=
  [ (Examples.as_predictor Examples.unfitted,
     Exception "NotFittedError: model is not fitted");
    (Examples.as_predictor Examples.unfitted,
     Exception "NotFittedError: model is not fitted") ].

(** An administrator who ticked the box, typed the password and picked an
    action; a visitor who did not touch the admin controls. *)
Definition administrator (action : admin_choice) : admin_controls :=
  mkAdmin true "clv_admin_2024" action.

Definition visitor : admin_controls := mkAdmin false "" MainInterface.

(** A visitor who ticks the box and guesses a password. *)
Definition guesser : admin_controls := mkAdmin true "admin" ViewFeatureRequests.

(** Three runs of visitors: a guess, a press on "Provide Feedback", and a
    press on "Request Feature". *)
Definition visits : list page_input :=
  [ (guesser, NoPageClick, false);
    (visitor, ClickProvideFeedback, false);
    (visitor, ClickRequestFeature, true) ].

(** The flags while the feedback dashboard is displayed. *)
Definition on_feedback_dashboard : page_flags :=
  mkFlags true false false false.

(** A request with a title and a description, the other fields left
    blank. *)
Definition short_request : feature_form :=
  mkFeatureForm " Dark mode " PriorityHigh CategoryUI "" "A dark theme."
                "  " "" true.

(** The same request as the dashboard gets it back, with the id and the
    time of its submission. *)
Definition stored_request : gmap string stored_value :=
  <["id" := JInt 1]>
    (<["timestamp" := JText "2024-07-01T10:30:00.123456"]>
       (JText <$> request_data short_request)).

(** A formatter of timestamps that cuts text to the minute. *)
Definition to_the_minute (stamps : list (option stored_value))
  : result (list (option string)) :=
  Ok (map (fun stamp => match stamp with
                        | Some (JText s) => Some (substring 0 16 s)
                        | _ => None
                        end) stamps).

End FurtherExamples.

(* ===================================================================== *)
(** * Properties *)
(* ===================================================================== *)

(** ** Tables: reading and assigning columns *)

Lemma has_column_cons (name n : string) (c : column) (df : DataFrame) :
  has_column name ((n, c) :: df) = String.eqb name n || has_column name df.
Proof. reflexivity. Qed.

Lemma has_column_get (name : string) (df : DataFrame) :
  has_column name df = true <-> is_Some (get_column name df).
Proof.
  induction df as [|[n c] df IH]; simpl.
  - split; [discriminate | intros [? ?]; discriminate].
  - rewrite has_column_cons, (String.eqb_sym name n).
    destruct (String.eqb n name); simpl; [split; eauto | exact IH].
Qed.

Lemma has_column_false_get (name : string) (df : DataFrame) :
  has_column name df = false -> get_column name df = None.
Proof.
  intros H. destruct (get_column name df) eqn:E; [|reflexivity].
  assert (has_column name df = true) by (apply has_column_get; eauto).
  congruence.
Qed.

Lemma get_column_put_eq (name : string) (c : column) (df : DataFrame) :
  get_column name (put_column name c df) = Some c.
Proof.
  induction df as [|[n c0] df IH]; simpl.
  - now rewrite String.eqb_refl.
  - destruct (String.eqb n name) eqn:E; simpl.
    + now rewrite String.eqb_refl.
    + now rewrite E.
Qed.

Lemma get_column_put_ne (name other : string) (c : column) (df : DataFrame) :
  name <> other ->
  get_column other (put_column name c df) = get_column other df.
Proof.
  intros Hne. induction df as [|[n c0] df IH]; simpl.
  - destruct (String.eqb name other) eqn:E; [|reflexivity].
    apply String.eqb_eq in E. contradiction.
  - destruct (String.eqb n name) eqn:E; simpl.
    + apply String.eqb_eq in E. subst n.
      destruct (String.eqb name other) eqn:E'; [|reflexivity].
      apply String.eqb_eq in E'. contradiction.
    + now rewrite IH.
Qed.

Lemma has_column_put (name other : string) (c : column) (df : DataFrame) :
  has_column other (put_column name c df)
  = String.eqb other name || has_column other df.
Proof.
  induction df as [|[n c0] df IH]; simpl.
  - rewrite has_column_cons. reflexivity.
  - destruct (String.eqb n name) eqn:E.
    + apply String.eqb_eq in E. subst n. rewrite !has_column_cons.
      now destruct (String.eqb other name).
    + rewrite !has_column_cons, IH.
      destruct (String.eqb other n), (String.eqb other name); reflexivity.
Qed.

(** Assigning a label the table does not have appends a column. *)
Lemma put_column_fresh (name : string) (c : column) (df : DataFrame) :
  has_column name df = false -> put_column name c df = df ++ [(name, c)].
Proof.
  induction df as [|[n c0] df IH]; simpl; [reflexivity|].
  rewrite has_column_cons, (String.eqb_sym name n).
  destruct (String.eqb n name); simpl; [discriminate|].
  intros H. now rewrite IH.
Qed.

Lemma nrows_put_column (name : string) (c : column) (df : DataFrame) :
  df <> [] -> length c = nrows df -> nrows (put_column name c df) = nrows df.
Proof.
  destruct df as [|[n c0] df]; [congruence|]. simpl. intros _ Hlen.
  destruct (String.eqb n name); simpl; congruence.
Qed.

Lemma nrows_put_same (name : string) (c : column) (df : DataFrame) (n : nat) :
  df <> [] -> nrows df = n -> length c = n -> nrows (put_column name c df) = n.
Proof. intros Hne <- Hlen. now apply nrows_put_column. Qed.

Lemma put_column_nonempty (name : string) (c : column) (df : DataFrame) :
  put_column name c df <> [].
Proof.
  destruct df as [|[n c0] df]; simpl; [discriminate|].
  destruct (String.eqb n name); discriminate.
Qed.

Lemma set_column_ok (df : DataFrame) (name : string) (c : column)
    (out : DataFrame) :
  set_column df name c = Ok out ->
  out = put_column name c df /\ (df = [] \/ length c = nrows df).
Proof.
  unfold set_column. destruct df as [|[n c0] df].
  - intros [= <-]. auto.
  - destruct (Nat.eqb (length c) _) eqn:E; [|discriminate].
    intros [= <-]. apply Nat.eqb_eq in E. auto.
Qed.

Lemma read_column_ok (df : DataFrame) (name : string) (c : column) :
  read_column df name = Ok c <-> get_column name df = Some c.
Proof.
  unfold read_column. destruct (get_column name df); split; congruence.
Qed.

(** ** Series arithmetic *)

Lemma series_floats_lookup (c : column) (xs : list pyfloat) (i : nat) :
  series_floats c = Ok xs -> xs !! i = (c !! i) ≫= to_float.
Proof.
  revert xs i. induction c as [|v c IH]; simpl; intros xs i.
  - intros [= <-]. now destruct i.
  - destruct (to_float v) eqn:Ev; [|discriminate].
    destruct (series_floats c); [|discriminate].
    intros [= <-]. destruct i; simpl; [now rewrite Ev | now apply IH].
Qed.

Lemma series_floats_float_column (raw : list Q) :
  series_floats (float_column raw) = Ok (map Fin raw).
Proof.
  unfold float_column.
  induction raw as [|q raw IH]; simpl; [reflexivity | now rewrite IH].
Qed.

Lemma series_floats_VFloat (xs : list pyfloat) :
  series_floats (map VFloat xs) = Ok xs.
Proof.
  induction xs as [|x xs IH]; simpl; [reflexivity | now rewrite IH].
Qed.

(** ** The column assignments, one commented group of [main] at a time *)

Ltac names_differ := let H := fresh in intros H; discriminate H.

Lemma add_percentile_rank_ok (df out : DataFrame) :
  add_percentile_rank df = Ok out ->
  exists clv xs,
    get_column "predicted_clv" df = Some clv
    /\ series_floats clv = Ok xs
    /\ out = put_column "percentile_rank" (scaled 100 (rank_pct xs)) df.
Proof.
  unfold add_percentile_rank, rbind.
  destruct (read_column df "predicted_clv") as [clv|] eqn:Hread; [|discriminate].
  apply read_column_ok in Hread.
  unfold series_rank_pct.
  destruct (series_floats clv) as [xs|] eqn:Hxs; [|discriminate].
  unfold series_mul. rewrite series_floats_VFloat.
  intros Hset. apply set_column_ok in Hset as [-> _].
  exists clv, xs. auto.
Qed.

Lemma add_confidence_intervals_ok (df out : DataFrame) :
  add_confidence_intervals df = Ok out ->
  exists clv xs,
    get_column "predicted_clv" df = Some clv
    /\ series_floats clv = Ok xs
    /\ out = put_column "confidence_upper" (scaled 1.2 xs)
               (put_column "confidence_lower" (scaled 0.8 xs) df).
Proof.
  unfold add_confidence_intervals, rbind.
  destruct (read_column df "predicted_clv") as [clv|] eqn:Hread; [|discriminate].
  apply read_column_ok in Hread.
  unfold series_mul at 1.
  destruct (series_floats clv) as [xs|] eqn:Hxs; [|discriminate].
  destruct (set_column df "confidence_lower" _) as [df1|] eqn:Hset1;
    [|discriminate].
  apply set_column_ok in Hset1 as [-> _].
  unfold read_column. rewrite get_column_put_ne by names_differ.
  rewrite Hread. unfold series_mul. rewrite Hxs.
  intros Hset. apply set_column_ok in Hset as [-> _].
  exists clv, xs. auto.
Qed.

Lemma add_churn_risk_ok (df out : DataFrame) :
  add_churn_risk df = Ok out ->
  exists risk,
    out = put_column "churn_risk" risk df
    /\ match get_column "days_since_last_purchase" df with
       | Some days => exists xs, series_floats days = Ok xs /\ risk = risk_of xs
       | None => risk = repeat (VFloat (Fin 0.5)) (nrows df)
       end.
Proof.
  unfold add_churn_risk.
  destruct (has_column "days_since_last_purchase" df) eqn:Hhas.
  - apply has_column_get in Hhas as [days Hdays].
    unfold rbind, read_column. rewrite Hdays.
    unfold series_max, series_div.
    destruct (series_floats days) as [xs|] eqn:Hxs; [|discriminate].
    intros Hset. apply set_column_ok in Hset as [-> _].
    eexists. split; [reflexivity|]. exists xs. auto.
  - apply has_column_false_get in Hhas. rewrite Hhas.
    intros [= <-]. eexists. split; reflexivity.
Qed.

(** The shape of the table of a successful run: six assignments on top of
    the input table. *)
Lemma prediction_table_ok (cd : DataFrame) (raw : list Q) (segs : list string)
    (out : DataFrame) :
  prediction_table cd raw segs = Ok out ->
  exists risk,
    out = put_column "churn_risk" risk
            (put_column "confidence_upper" (scaled 1.2 (map Fin raw))
              (put_column "confidence_lower" (scaled 0.8 (map Fin raw))
                (put_column "percentile_rank"
                   (scaled 100 (rank_pct (map Fin raw)))
                  (put_column "customer_segment" (map VStr segs)
                    (put_column "predicted_clv" (float_column raw) cd)))))
    /\ match get_column "days_since_last_purchase" cd with
       | Some days => exists xs, series_floats days = Ok xs /\ risk = risk_of xs
       | None => risk = repeat (VFloat (Fin 0.5)) (length raw)
       end
    /\ (cd = [] \/ length raw = nrows cd)
    /\ length segs = length raw.
Proof.
  unfold prediction_table, rbind.
  destruct (set_column cd "predicted_clv" _) as [df1|] eqn:H1; [|discriminate].
  apply set_column_ok in H1 as [-> Hlen1].
  destruct (set_column _ "customer_segment" _) as [df2|] eqn:H2; [|discriminate].
  apply set_column_ok in H2 as [-> Hlen2].
  destruct Hlen2 as [Hnil|Hlen2]; [now apply put_column_nonempty in Hnil|].
  destruct (add_percentile_rank _) as [df3|] eqn:H3; [|discriminate].
  apply add_percentile_rank_ok in H3 as (clv & xs & Hclv & Hxs & ->).
  rewrite get_column_put_ne, get_column_put_eq in Hclv by names_differ.
  injection Hclv as <-. rewrite series_floats_float_column in Hxs.
  injection Hxs as <-.
  destruct (add_confidence_intervals _) as [df4|] eqn:H4; [|discriminate].
  apply add_confidence_intervals_ok in H4 as (clv & xs & Hclv & Hxs & ->).
  rewrite !get_column_put_ne, get_column_put_eq in Hclv by names_differ.
  injection Hclv as <-. rewrite series_floats_float_column in Hxs.
  injection Hxs as <-.
  intros H5. apply add_churn_risk_ok in H5 as (risk & -> & Hrisk).
  assert (Hraw : length (float_column raw) = length raw)
    by (unfold float_column; apply length_map).
  assert (Hrows : nrows (put_column "predicted_clv" (float_column raw) cd)
                  = length raw).
  { destruct Hlen1 as [->|Hlen1]; [exact Hraw|].
    destruct cd as [|col cd]; [exact Hraw|].
    rewrite nrows_put_column; [congruence | discriminate | exact Hlen1]. }
  rewrite Hrows in Hlen2. rewrite length_map in Hlen2.
  rewrite !get_column_put_ne in Hrisk by names_differ.
  match type of Hrisk with
  | context [nrows ?df] => assert (Hn : nrows df = length raw)
  end.
  { do 4 (apply nrows_put_same; [apply put_column_nonempty | |
            unfold scaled, rank_pct; rewrite ?length_map; auto]).
    exact Hrows. }
  rewrite Hn in Hrisk. rewrite Hraw in Hlen1.
  exists risk. auto.
Qed.

(** ** Runs of the prediction block *)

Section Runs.

Context `{P : CLVPredictor}.

Lemma predict_block_run (cd : DataFrame) (w : world) :
  match predict_block cd w with
  | (Ok _, w') => exists out, all_steps_ok cd out /\ w' = after_success w out
  | (Raised _, w') =>
      session w' = session w /\ ui w' = ui w
      /\ forall out, ~ all_steps_ok cd out
  end.
Proof.
  unfold predict_block, all_steps_ok, bind, call, lift, prediction_table, rbind,
    set_predictions, set_trigger_prediction, modify_session, emit.
  cbn [session ui calls].
  destruct (create_advanced_features cd) as [processed|] eqn:E1;
    [|repeat split; auto; intros out (? & ? & ? & ? & ? & _); congruence].
  destruct (prepare_features_for_prediction processed) as [X|] eqn:E2;
    [|repeat split; auto; intros out (? & ? & ? & ? & ? & ? & _); congruence].
  destruct (predict_clv X) as [raw|] eqn:E3;
    [|repeat split; auto;
      intros out (? & ? & ? & ? & ? & ? & ? & _); congruence].
  destruct (set_column cd "predicted_clv" (float_column raw)) as [df1|] eqn:E4;
    [|repeat split; auto;
      intros out (? & ? & r & ? & ? & ? & ? & ? & Ht);
      assert (r = raw) by congruence; subst r; rewrite E4 in Ht;
      discriminate].
  destruct (segment_customers raw) as [segs|] eqn:E5;
    [|repeat split; auto;
      intros out (? & ? & r & ? & ? & ? & ? & ? & _);
      assert (r = raw) by congruence; subst r; congruence].
  destruct (set_column df1 "customer_segment" (map VStr segs)) as [df2|] eqn:E6;
    [destruct (add_percentile_rank df2) as [df3|] eqn:E7;
     [destruct (add_confidence_intervals df3) as [df4|] eqn:E8;
      [destruct (add_churn_risk df4) as [df5|] eqn:E9|]|]|].
  - exists df5. split.
    + exists processed, X, raw, segs. rewrite E4, E6, E7, E8. auto.
    + unfold after_success. cbn. now rewrite <- !app_assoc.
  - repeat split; auto. intros out (? & ? & r & s & ? & ? & ? & ? & Ht).
    assert (r = raw) by congruence; subst r.
    assert (s = segs) by congruence; subst s.
    rewrite E4, E6, E7, E8, E9 in Ht. discriminate.
  - repeat split; auto. intros out (? & ? & r & s & ? & ? & ? & ? & Ht).
    assert (r = raw) by congruence; subst r.
    assert (s = segs) by congruence; subst s.
    rewrite E4, E6, E7, E8 in Ht. discriminate.
  - repeat split; auto. intros out (? & ? & r & s & ? & ? & ? & ? & Ht).
    assert (r = raw) by congruence; subst r.
    assert (s = segs) by congruence; subst s.
    rewrite E4, E6, E7 in Ht. discriminate.
  - repeat split; auto. intros out (? & ? & r & s & ? & ? & ? & ? & Ht).
    assert (r = raw) by congruence; subst r.
    assert (s = segs) by congruence; subst s.
    rewrite E4, E6 in Ht. discriminate.
Qed.

Lemma predict_block_ok (cd : DataFrame) (w w' : world) (u : unit) :
  predict_block cd w = (Ok u, w') ->
  exists out, all_steps_ok cd out /\ w' = after_success w out.
Proof.
  intros Hrun. pose proof (predict_block_run cd w) as H.
  rewrite Hrun in H. exact H.
Qed.

(** A run whose steps all succeed stores the table. *)
Lemma predict_block_complete (cd : DataFrame) (w : world) (out : DataFrame) :
  all_steps_ok cd out ->
  predict_block cd w = (Ok tt, after_success w out).
Proof.
  intros Hok. pose proof (predict_block_run cd w) as H.
  destruct (predict_block cd w) as [[[]|e] w'].
  - destruct H as (out' & Hok' & ->).
    destruct Hok as (p1 & X1 & r1 & s1 & A1 & A2 & A3 & A4 & A5).
    destruct Hok' as (p2 & X2 & r2 & s2 & B1 & B2 & B3 & B4 & B5).
    assert (p1 = p2) by congruence; subst p2.
    assert (X1 = X2) by congruence; subst X2.
    assert (r1 = r2) by congruence; subst r2.
    assert (s1 = s2) by congruence; subst s2.
    assert (out = out') by congruence; subst out'. reflexivity.
  - destruct H as (_ & _ & H). exfalso. exact (H out Hok).
Qed.

End Runs.

(** ** The columns of the stored table *)

Lemma lookup_map {A B} (f : A -> B) (l : list A) (i : nat) :
  map f l !! i = f <$> (l !! i).
Proof.
  revert i. induction l as [|a l IH]; intros [|i]; simpl; auto.
Qed.

Section StoredTable.

Context `{P : CLVPredictor}.

(** What a successful run stores, column by column. *)
Lemma stored_table (cd : DataFrame) (w w' : world) (out : DataFrame) :
  predict_block cd w = (Ok tt, w') ->
  predictions (session w') = Some out ->
  exists raw segs risk,
    prediction_table cd raw segs = Ok out
    /\ get_column "predicted_clv" out = Some (float_column raw)
    /\ get_column "customer_segment" out = Some (map VStr segs)
    /\ get_column "percentile_rank" out
       = Some (scaled 100 (rank_pct (map Fin raw)))
    /\ get_column "confidence_lower" out = Some (scaled 0.8 (map Fin raw))
    /\ get_column "confidence_upper" out = Some (scaled 1.2 (map Fin raw))
    /\ get_column "churn_risk" out = Some risk
    /\ match get_column "days_since_last_purchase" cd with
       | Some days =>
           exists xs, series_floats days = Ok xs /\ risk = risk_of xs
       | None => risk = repeat (VFloat (Fin 0.5)) (length raw)
       end.
Proof.
  intros Hrun Hout.
  apply predict_block_ok in Hrun as (out' & Hok & ->).
  cbn in Hout. injection Hout as ->.
  destruct Hok as (processed & X & raw & segs & _ & _ & _ & _ & Htable).
  pose proof Htable as Hshape.
  apply prediction_table_ok in Hshape as (risk & -> & Hrisk & _ & _).
  exists raw, segs, risk. split; [exact Htable|].
  repeat split;
    rewrite ?get_column_put_ne by names_differ;
    rewrite ?get_column_put_eq; auto.
Qed.

(** Columns the block does not assign keep their cells. *)
Lemma input_columns_kept (cd : DataFrame) (w w' : world) (out : DataFrame)
    (name : string) :
  predict_block cd w = (Ok tt, w') ->
  predictions (session w') = Some out ->
  ~ In name appended_columns ->
  get_column name out = get_column name cd.
Proof.
  intros Hrun Hout Hname.
  destruct (stored_table _ _ _ _ Hrun Hout) as (raw & segs & _ & Ht & _).
  apply prediction_table_ok in Ht as (risk & -> & _).
  rewrite !get_column_put_ne; [reflexivity|..];
    intros <-; apply Hname; cbn; tauto.
Qed.

End StoredTable.

(** ** C1: the confidence band *)

Lemma band_of_nonneg (p : Q) : (0 <= p -> p * 0.8 <= p <= p * 1.2)%Q.
Proof. intros Hp. split; lra. Qed.

(** The predictions of a stored table are what [predict_clv] returned in
    that run, and the two bounds are computed from them. *)
Lemma stored_band `{P : CLVPredictor}
    (cd : DataFrame) (w w' : world) (out : DataFrame) :
  predict_block cd w = (Ok tt, w') ->
  predictions (session w') = Some out ->
  exists X raw,
    predict_clv X = Ok raw
    /\ get_column "predicted_clv" out = Some (float_column raw)
    /\ get_column "confidence_lower" out = Some (scaled 0.8 (map Fin raw))
    /\ get_column "confidence_upper" out = Some (scaled 1.2 (map Fin raw)).
Proof.
  intros Hrun Hout.
  apply predict_block_ok in Hrun as (out' & Hok & ->).
  cbn in Hout. injection Hout as ->.
  destruct Hok as (processed & X & raw & segs & _ & _ & Hraw & _ & Htable).
  apply prediction_table_ok in Htable as (risk & -> & _).
  exists X, raw. split; [exact Hraw|].
  repeat split;
    rewrite ?get_column_put_ne by names_differ;
    rewrite ?get_column_put_eq; auto.
Qed.

(** The predictor of the design document keeps the contract. *)
Lemma model_predictor_nonneg {params : Type}
    (regress : params -> DataFrame -> list Q)
    (engineer align : DataFrame -> result DataFrame)
    (p : CLVModel.predictor params) :
  @nonneg_predictions (model_predictor regress engineer align p).
Proof.
  intros X raw. cbn. unfold CLVModel.predict_clv.
  destruct (CLVModel.artifact p) as [a|]; [|discriminate].
  intros [= <-]. apply List.Forall_forall. intros q Hq.
  apply in_map_iff in Hq as (v & <- & _).
  unfold CLVModel.floor_at_zero.
  destruct (Qle_bool 0 v) eqn:Hv; [now apply Qle_bool_iff | lra].
Qed.

(** C1.  With a predictor that keeps its contract (no prediction below
    zero), every row of the table a successful run stores holds a number
    [p] as [predicted_clv], [p * 0.8] as [confidence_lower] and [p * 1.2]
    as [confidence_upper], and
    [confidence_lower <= predicted_clv <= confidence_upper]. *)
Theorem confidence_band `{P : CLVPredictor}
    (cd : DataFrame) (w w' : world) (out : DataFrame) (i : nat) (v : value) :
  nonneg_predictions ->
  predict_block cd w = (Ok tt, w') ->
  predictions (session w') = Some out ->
  cell out "predicted_clv" i = Some v ->
  exists p : Q,
    v = VFloat (Fin p)
    /\ cell out "confidence_lower" i = Some (VFloat (Fin (p * 0.8)))
    /\ cell out "confidence_upper" i = Some (VFloat (Fin (p * 1.2)))
    /\ (p * 0.8 <= p <= p * 1.2)%Q.
Proof.
  intros Hcontract Hrun Hout Hcell.
  destruct (stored_band _ _ _ _ Hrun Hout)
    as (X & raw & Hraw & Hclv & Hlo & Hhi).
  unfold cell in *. rewrite Hclv in Hcell. rewrite Hlo, Hhi. cbn in *.
  unfold float_column in Hcell. rewrite lookup_map in Hcell.
  destruct (raw !! i) as [q|] eqn:Hq; [|discriminate].
  injection Hcell as <-. exists q.
  unfold scaled. rewrite !lookup_map, Hq. cbn.
  repeat split; try reflexivity;
    apply band_of_nonneg;
    pose proof (Hcontract X raw Hraw) as Hall;
    rewrite List.Forall_forall in Hall; apply Hall;
    apply list_elem_of_In; eapply list_elem_of_lookup_2; exact Hq.
Qed.

Lemma confidence_band_witness :
  (@nonneg_predictions (Examples.as_predictor Examples.fitted)
   /\ @predict_block (Examples.as_predictor Examples.fitted)
        Examples.customers Examples.start = (Ok tt, Examples.scored)
   /\ predictions (session Examples.scored) = Some Examples.scored_table
   /\ cell Examples.scored_table "predicted_clv" 2 = Some (VFloat (Fin 550)))
  /\ exists p : Q,
       VFloat (Fin 550) = VFloat (Fin p)
       /\ cell Examples.scored_table "confidence_lower" 2
          = Some (VFloat (Fin (p * 0.8)))
       /\ cell Examples.scored_table "confidence_upper" 2
          = Some (VFloat (Fin (p * 1.2)))
       /\ (p * 0.8 <= p <= p * 1.2)%Q.
Proof.
  assert (Hcontract : @nonneg_predictions
                        (Examples.as_predictor Examples.fitted))
    by apply model_predictor_nonneg.
  assert (Hrun : @predict_block (Examples.as_predictor Examples.fitted)
                   Examples.customers Examples.start
                 = (Ok tt, Examples.scored)) by (vm_compute; reflexivity).
  assert (Hout : predictions (session Examples.scored)
                 = Some Examples.scored_table) by (vm_compute; reflexivity).
  assert (Hcell : cell Examples.scored_table "predicted_clv" 2
                  = Some (VFloat (Fin 550))) by (vm_compute; reflexivity).
  split; [auto|].
  exact (confidence_band _ _ _ _ 2 _ Hcontract Hrun Hout Hcell).
Defined.

(** ** C2, C3: churn risk *)

Lemma nonneg_number_spec (v : value) :
  nonneg_number v = true -> exists q, to_float v = Some (Fin q) /\ (0 <= q)%Q.
Proof.
  unfold nonneg_number. destruct (to_float v) as [[q| | |]|]; try discriminate.
  intros H. apply Qle_bool_iff in H. eauto.
Qed.

Lemma zero_number_spec (v : value) :
  zero_number v = true -> exists q, to_float v = Some (Fin q) /\ (q == 0)%Q.
Proof.
  unfold zero_number. destruct (to_float v) as [[q| | |]|]; try discriminate.
  intros H. apply Qeq_bool_iff in H. eauto.
Qed.

(** The numbers of a column whose cells all satisfy [ok]. *)
Lemma series_floats_Forall (ok : value -> bool) (R : Q -> Prop) (c : column) :
  (forall v, ok v = true -> exists q, to_float v = Some (Fin q) /\ R q) ->
  forallb ok c = true ->
  exists qs, series_floats c = Ok (map Fin qs) /\ Forall R qs
             /\ length qs = length c.
Proof.
  intros Hok. induction c as [|v c IH]; simpl.
  - exists []. auto.
  - intros H. apply andb_true_iff in H as [Hv Hc].
    destruct (Hok v Hv) as (q & -> & Hq).
    destruct (IH Hc) as (qs & -> & Hqs & Hlen).
    exists (q :: qs). simpl. auto.
Qed.

(** The running maximum of finite numbers is one of them, and none is
    above it. *)
Lemma fold_max_finite (qs : list Q) (a : Q) :
  exists m, fold_left fmax_skipna (map Fin qs) (Fin a) = Fin m
            /\ (a <= m)%Q /\ Forall (fun q => (q <= m)%Q) qs
            /\ (m = a \/ In m qs).
Proof.
  revert a. induction qs as [|q qs IH]; intros a.
  - exists a. simpl. repeat split; auto. lra.
  - cbn [map fold_left fmax_skipna fltb].
    destruct (a ?= q)%Q eqn:Hc.
    + apply Qeq_alt in Hc. destruct (IH a) as (m & Hfold & Ha & Hqs & Hm).
      exists m. split; [exact Hfold|]. split; [exact Ha|].
      split; [constructor; [lra | exact Hqs]|].
      destruct Hm; [now left | right; now right].
    + apply Qlt_alt in Hc. destruct (IH q) as (m & Hfold & Ha & Hqs & Hm).
      exists m. split; [exact Hfold|]. split; [lra|].
      split; [constructor; [exact Ha | exact Hqs]|].
      right. destruct Hm as [->|Hm]; [now left | now right].
    + apply Qgt_alt in Hc. destruct (IH a) as (m & Hfold & Ha & Hqs & Hm).
      exists m. split; [exact Hfold|]. split; [exact Ha|].
      split; [constructor; [lra | exact Hqs]|].
      destruct Hm; [now left | right; now right].
Qed.

Lemma series_max_finite (qs : list Q) :
  qs <> [] ->
  exists m, fold_left fmax_skipna (map Fin qs) NaN = Fin m
            /\ Forall (fun q => (q <= m)%Q) qs /\ In m qs.
Proof.
  destruct qs as [|q qs]; [congruence|]. intros _. simpl.
  destruct (fold_max_finite qs q) as (m & -> & Hq & Hqs & Hm).
  exists m. repeat split; auto. destruct Hm as [->|Hm]; auto.
Qed.

Lemma unit_fraction (d m : Q) :
  (0 <= d -> d <= m -> 0 < m -> 0 <= d / m <= 1)%Q.
Proof.
  intros Hd Hdm Hm. split.
  - apply Qle_shift_div_l; [exact Hm | lra].
  - apply Qle_shift_div_r; [exact Hm | lra].
Qed.

(** C3.  When the input table has the column [days_since_last_purchase],
    its cells are numbers that are not negative and the batch maximum [m]
    is positive, every row of the stored table has
    [churn_risk = days_since_last_purchase / m], a number between 0 and 1. *)
Theorem churn_risk_bounds `{P : CLVPredictor}
    (cd : DataFrame) (w w' : world) (out : DataFrame)
    (days : column) (m : Q) (i : nat) (v : value) :
  predict_block cd w = (Ok tt, w') ->
  predictions (session w') = Some out ->
  get_column "days_since_last_purchase" cd = Some days ->
  forallb nonneg_number days = true ->
  series_max days = Ok (Fin m) ->
  (0 < m)%Q ->
  days !! i = Some v ->
  exists d,
    to_float v = Some (Fin d)
    /\ cell out "churn_risk" i = Some (VFloat (Fin (d / m)))
    /\ (0 <= d / m <= 1)%Q.
Proof.
  intros Hrun Hout Hdays Hnonneg Hmax Hm Hv.
  destruct (stored_table _ _ _ _ Hrun Hout)
    as (raw & segs & risk & _ & _ & _ & _ & _ & _ & Hrisk & Hspec).
  rewrite Hdays in Hspec. destruct Hspec as (xs & Hxs & ->).
  destruct (series_floats_Forall _ (fun q => (0 <= q)%Q) days
              nonneg_number_spec Hnonneg) as (qs & Hqs & Hpos & Hlen).
  rewrite Hqs in Hxs. injection Hxs as <-.
  unfold series_max in Hmax. rewrite Hqs in Hmax. injection Hmax as Hmax.
  pose proof (series_floats_lookup _ _ i Hqs) as Hi. rewrite Hv in Hi.
  rewrite lookup_map in Hi. cbn in Hi.
  assert (Hlt : (i < length qs)%nat)
    by (rewrite Hlen; eapply lookup_lt_Some; exact Hv).
  apply lookup_lt_is_Some in Hlt as [d Hd]. rewrite Hd in Hi. cbn in Hi.
  exists d. split; [congruence|].
  assert (Hle : (d <= m)%Q).
  { assert (Hne : qs <> []) by (intros ->; discriminate).
    destruct (series_max_finite qs Hne) as (m' & Hm' & Hall & _).
    rewrite Hmax in Hm'. injection Hm' as <-.
    rewrite Forall_forall in Hall. apply Hall.
    eapply list_elem_of_lookup_2. exact Hd. }
  assert (H0 : (0 <= d)%Q).
  { rewrite Forall_forall in Hpos. apply Hpos.
    eapply list_elem_of_lookup_2. exact Hd. }
  split; [|now apply unit_fraction].
  unfold cell. rewrite Hrisk. cbn. unfold risk_of.
  rewrite lookup_map, lookup_map, Hd. cbn. rewrite Hmax.
  assert (Hc : (m ?= 0)%Q = Gt) by (apply Qgt_alt; exact Hm).
  cbn. now rewrite Hc.
Qed.

Lemma churn_risk_bounds_witness :
  (@predict_block (Examples.as_predictor Examples.fitted)
     Examples.customers Examples.start = (Ok tt, Examples.scored)
   /\ predictions (session Examples.scored) = Some Examples.scored_table
   /\ get_column "days_since_last_purchase" Examples.customers
      = Some [VInt 30; VInt 20; VInt 0]
   /\ forallb nonneg_number [VInt 30; VInt 20; VInt 0] = true
   /\ series_max [VInt 30; VInt 20; VInt 0] = Ok (Fin 30)
   /\ (0 < 30)%Q
   /\ [VInt 30; VInt 20; VInt 0] !! 1 = Some (VInt 20))
  /\ exists d,
       to_float (VInt 20) = Some (Fin d)
       /\ cell Examples.scored_table "churn_risk" 1
          = Some (VFloat (Fin (d / 30)))
       /\ (0 <= d / 30 <= 1)%Q.
Proof.
  assert (Hrun : @predict_block (Examples.as_predictor Examples.fitted)
                   Examples.customers Examples.start
                 = (Ok tt, Examples.scored)) by (vm_compute; reflexivity).
  assert (Hout : predictions (session Examples.scored)
                 = Some Examples.scored_table) by (vm_compute; reflexivity).
  assert (Hdays : get_column "days_since_last_purchase" Examples.customers
                  = Some [VInt 30; VInt 20; VInt 0]) by reflexivity.
  assert (Hnonneg : forallb nonneg_number [VInt 30; VInt 20; VInt 0] = true)
    by reflexivity.
  assert (Hmax : series_max [VInt 30; VInt 20; VInt 0] = Ok (Fin 30))
    by reflexivity.
  assert (Hm : (0 < 30)%Q) by reflexivity.
  assert (Hv : [VInt 30; VInt 20; VInt 0] !! 1 = Some (VInt 20))
    by reflexivity.
  split; [auto 10|].
  exact (churn_risk_bounds _ _ _ _ _ 30 1 _ Hrun Hout Hdays Hnonneg Hmax Hm Hv).
Defined.

(** C2 (what the code does).  When the input table has the column
    [days_since_last_purchase] and every cell of it is zero, the batch
    maximum is 0 and a successful run stores [churn_risk = NaN] in every
    row: the division is not guarded and no default takes its place. *)
Theorem zero_recency_gives_nan `{P : CLVPredictor}
    (cd : DataFrame) (w w' : world) (out : DataFrame)
    (days : column) (i : nat) :
  predict_block cd w = (Ok tt, w') ->
  predictions (session w') = Some out ->
  get_column "days_since_last_purchase" cd = Some days ->
  forallb zero_number days = true ->
  (i < length days)%nat ->
  (exists m, series_max days = Ok (Fin m) /\ (m == 0)%Q)
  /\ cell out "churn_risk" i = Some (VFloat NaN).
Proof.
  intros Hrun Hout Hdays Hzero Hi.
  destruct (stored_table _ _ _ _ Hrun Hout)
    as (raw & segs & risk & _ & _ & _ & _ & _ & _ & Hrisk & Hspec).
  rewrite Hdays in Hspec. destruct Hspec as (xs & Hxs & ->).
  destruct (series_floats_Forall _ (fun q => (q == 0)%Q) days
              zero_number_spec Hzero) as (qs & Hqs & Hall & Hlen).
  rewrite Hqs in Hxs. injection Hxs as <-.
  rewrite <- Hlen in Hi. apply lookup_lt_is_Some in Hi as [d Hd].
  assert (Hne : qs <> []) by (intros ->; discriminate).
  destruct (series_max_finite qs Hne) as (m & Hm & _ & Hin).
  rewrite Forall_forall in Hall.
  assert (Hm0 : (m ?= 0)%Q = Eq)
    by (apply Qeq_alt, Hall, list_elem_of_In, Hin).
  assert (Hd0 : (d ?= 0)%Q = Eq)
    by (apply Qeq_alt, Hall; eapply list_elem_of_lookup_2; exact Hd).
  split.
  - exists m. unfold series_max. rewrite Hqs, Hm.
    split; [reflexivity | now apply Qeq_alt].
  - unfold cell. rewrite Hrisk. cbn. unfold risk_of.
    rewrite lookup_map, lookup_map, Hd, Hm. cbn. now rewrite Hm0, Hd0.
Qed.

(** The failing input: one customer, entered through the form, who bought
    today. *)
Lemma zero_recency_gives_nan_witness :
  (@predict_block (Examples.as_predictor Examples.fitted)
     Examples.bought_today Examples.start = (Ok tt, Examples.scored_today)
   /\ predictions (session Examples.scored_today)
      = Some Examples.scored_today_table
   /\ get_column "days_since_last_purchase" Examples.bought_today
      = Some [VInt 0]
   /\ forallb zero_number [VInt 0] = true
   /\ (0 < length [VInt 0])%nat)
  /\ (exists m, series_max [VInt 0] = Ok (Fin m) /\ (m == 0)%Q)
  /\ cell Examples.scored_today_table "churn_risk" 0 = Some (VFloat NaN).
Proof.
  assert (Hrun : @predict_block (Examples.as_predictor Examples.fitted)
                   Examples.bought_today Examples.start
                 = (Ok tt, Examples.scored_today))
    by (vm_compute; reflexivity).
  assert (Hout : predictions (session Examples.scored_today)
                 = Some Examples.scored_today_table)
    by (vm_compute; reflexivity).
  assert (Hdays : get_column "days_since_last_purchase" Examples.bought_today
                  = Some [VInt 0]) by reflexivity.
  assert (Hzero : forallb zero_number [VInt 0] = true) by reflexivity.
  assert (Hi : (0 < length [VInt 0])%nat) by (simpl; lia).
  split; [auto 10|].
  exact (zero_recency_gives_nan _ _ _ _ _ 0 Hrun Hout Hdays Hzero Hi).
Defined.

(** ** C4: percentile rank *)

Lemma filter_disjoint_length {A} (f g : A -> bool) (l : list A) :
  (forall a, f a = true -> g a = true -> False) ->
  (length (List.filter f l) + length (List.filter g l) <= length l)%nat.
Proof.
  intros Hfg. induction l as [|a l IH]; simpl; [lia|].
  destruct (f a) eqn:Hf, (g a) eqn:Hg; simpl; try lia.
  exfalso. eauto.
Qed.

Lemma fltb_feqb_disjoint (x y : pyfloat) :
  fltb y x = true -> feqb y x = true -> False.
Proof.
  destruct x as [a| | |], y as [b| | |]; simpl; try discriminate.
  destruct (b ?= a)%Q eqn:Hc; try discriminate.
  intros _ H. apply Qeq_bool_iff in H. apply Qeq_alt in H. congruence.
Qed.

Lemma count_lt_eq_le (xs : list pyfloat) (x : pyfloat) :
  (count_lt xs x + count_eq xs x <= length xs)%nat.
Proof.
  unfold count_lt, count_eq. apply filter_disjoint_length.
  intros y. apply fltb_feqb_disjoint.
Qed.

Lemma count_eq_pos (qs : list Q) (q : Q) :
  In q qs -> (1 <= count_eq (map Fin qs) (Fin q))%nat.
Proof.
  unfold count_eq. induction qs as [|a qs IH]; simpl; [tauto|].
  intros [->|Hin].
  - rewrite Qeq_bool_refl. simpl. lia.
  - destruct (Qeq_bool a q); simpl; [lia | auto].
Qed.

Lemma count_valid_finite (qs : list Q) :
  count_valid (map Fin qs) = length qs.
Proof.
  unfold count_valid. induction qs as [|a qs IH]; simpl; congruence.
Qed.

(** A rank between 1 and [n], as a percentage of [n]. *)
Lemma percentage_bounds (k n : nat) :
  (0 < n)%nat -> (k <= 2 * n)%nat ->
  (0 <= (Z.of_nat k # 2) / inject_Z (Z.of_nat n) * 100 <= 100)%Q.
Proof.
  intros Hn Hk.
  assert (Hpos : (0 < inject_Z (Z.of_nat n))%Q).
  { change 0%Q with (inject_Z 0). rewrite <- Zlt_Qlt. lia. }
  assert (Hk0 : (0 <= Z.of_nat k # 2)%Q).
  { unfold Qle. simpl. lia. }
  assert (Hkn : (Z.of_nat k # 2 <= inject_Z (Z.of_nat n))%Q).
  { unfold Qle. simpl. lia. }
  assert (H : (0 <= (Z.of_nat k # 2) / inject_Z (Z.of_nat n) <= 1)%Q)
    by (apply unit_fraction; assumption).
  split; lra.
Qed.

(** The percentile of the value in row [i] of an all-finite batch. *)
Lemma rank_pct_finite (raw : list Q) (i : nat) (p : Q) :
  raw !! i = Some p ->
  exists r, scaled 100 (rank_pct (map Fin raw)) !! i = Some (VFloat (Fin r))
            /\ (0 <= r <= 100)%Q.
Proof.
  intros Hp.
  assert (Hin : In p raw)
    by (apply list_elem_of_In; eapply list_elem_of_lookup_2; exact Hp).
  assert (Hn : (0 < length raw)%nat) by (destruct raw; simpl in *; [tauto|lia]).
  pose proof (count_eq_pos raw p Hin) as Heq.
  pose proof (count_lt_eq_le (map Fin raw) (Fin p)) as Hle.
  rewrite length_map in Hle.
  set (k := (2 * count_lt (map Fin raw) (Fin p)
             + count_eq (map Fin raw) (Fin p) + 1)%nat) in *.
  exists ((Z.of_nat k # 2) / inject_Z (Z.of_nat (length raw)) * 100)%Q.
  split; [|apply percentage_bounds; [exact Hn | subst k; lia]].
  unfold scaled, rank_pct. rewrite !lookup_map, Hp. cbn [fmap option_fmap option_map].
  rewrite count_valid_finite. unfold rank_average, of_Z. cbn [is_nan fdiv].
  assert (Hc : (inject_Z (Z.of_nat (length raw)) ?= 0)%Q = Gt).
  { apply Qgt_alt. change 0%Q with (inject_Z 0). rewrite <- Zlt_Qlt. lia. }
  fold k. rewrite Hc. reflexivity.
Qed.

(** C4.  In the table a successful run stores, every prediction row has a
    [percentile_rank] (pandas' [rank(pct=True) * 100] of its predicted
    value within the batch), a number between 0 and 100. *)
Theorem percentile_rank_bounds `{P : CLVPredictor}
    (cd : DataFrame) (w w' : world) (out : DataFrame) (i : nat) (p : Q) :
  predict_block cd w = (Ok tt, w') ->
  predictions (session w') = Some out ->
  cell out "predicted_clv" i = Some (VFloat (Fin p)) ->
  exists r,
    cell out "percentile_rank" i = Some (VFloat (Fin r))
    /\ (exists raw, get_column "predicted_clv" out = Some (float_column raw)
                    /\ scaled 100 (rank_pct (map Fin raw)) !! i
                       = Some (VFloat (Fin r)))
    /\ (0 <= r <= 100)%Q.
Proof.
  intros Hrun Hout Hcell.
  destruct (stored_table _ _ _ _ Hrun Hout)
    as (raw & segs & risk & _ & Hclv & _ & Hpr & _).
  unfold cell in *. rewrite Hclv in Hcell. rewrite Hpr. cbn in *.
  unfold float_column in Hcell. rewrite lookup_map in Hcell.
  destruct (raw !! i) as [q|] eqn:Hq; [|discriminate].
  destruct (rank_pct_finite raw i q Hq) as (r & Hr & Hbounds).
  exists r. split; [exact Hr|]. split; [|exact Hbounds].
  exists raw. rewrite Hclv. auto.
Qed.

Lemma percentile_rank_bounds_witness :
  (@predict_block (Examples.as_predictor Examples.fitted)
     Examples.customers Examples.start = (Ok tt, Examples.scored)
   /\ predictions (session Examples.scored) = Some Examples.scored_table
   /\ cell Examples.scored_table "predicted_clv" 0 = Some (VFloat (Fin 150)))
  /\ exists r,
       cell Examples.scored_table "percentile_rank" 0 = Some (VFloat (Fin r))
       /\ (exists raw,
             get_column "predicted_clv" Examples.scored_table
             = Some (float_column raw)
             /\ scaled 100 (rank_pct (map Fin raw)) !! 0%nat
                = Some (VFloat (Fin r)))
       /\ (0 <= r <= 100)%Q.
Proof.
  assert (Hrun : @predict_block (Examples.as_predictor Examples.fitted)
                   Examples.customers Examples.start
                 = (Ok tt, Examples.scored)) by (vm_compute; reflexivity).
  assert (Hout : predictions (session Examples.scored)
                 = Some Examples.scored_table) by (vm_compute; reflexivity).
  assert (Hcell : cell Examples.scored_table "predicted_clv" 0
                  = Some (VFloat (Fin 150))) by (vm_compute; reflexivity).
  split; [auto|].
  exact (percentile_rank_bounds _ _ _ _ 0 150 Hrun Hout Hcell).
Defined.

(** ** C7: the schema of the stored table *)

Lemma has_column_In (name : string) (df : DataFrame) :
  has_column name df = true <-> In name (columns df).
Proof.
  unfold has_column. rewrite existsb_exists. split.
  - intros (n & Hin & Heq). apply String.eqb_eq in Heq. now subst.
  - intros Hin. exists name. split; [exact Hin | apply String.eqb_refl].
Qed.

(** A table of CustomerRecord columns has none of the labels the block
    assigns. *)
Lemma customer_record_fresh (cd : DataFrame) :
  customer_record_table cd = true -> fresh_columns cd = true.
Proof.
  unfold customer_record_table, fresh_columns.
  rewrite !forallb_forall. intros Hrecord n Hn.
  apply negb_true_iff. destruct (has_column n cd) eqn:Hhas; [|reflexivity].
  apply has_column_In, Hrecord in Hhas.
  cbn in Hn.
  repeat (destruct Hn as [<-|Hn]; [discriminate Hhas|]). contradiction.
Qed.

(** On input tables that have none of the six assigned labels, the six
    assignments append six columns. *)
Lemma fresh_labels_are_appended `{P : CLVPredictor}
    (cd : DataFrame) (w w' : world) (out : DataFrame) :
  predict_block cd w = (Ok tt, w') ->
  predictions (session w') = Some out ->
  fresh_columns cd = true ->
  exists clv seg rank lower upper risk,
    out = cd ++ [ ("predicted_clv", clv); ("customer_segment", seg);
                  ("percentile_rank", rank); ("confidence_lower", lower);
                  ("confidence_upper", upper); ("churn_risk", risk) ].
Proof.
  intros Hrun Hout Hfresh.
  destruct (stored_table _ _ _ _ Hrun Hout) as (raw & segs & _ & Ht & _).
  apply prediction_table_ok in Ht as (risk & -> & _).
  unfold fresh_columns in Hfresh. cbn [forallb appended_columns] in Hfresh.
  repeat (apply andb_true_iff in Hfresh as [?%negb_true_iff Hfresh]).
  repeat (rewrite put_column_fresh;
          [|rewrite ?has_column_put; cbn; assumption]).
  rewrite <- !app_assoc. cbn [app].
  do 6 eexists. reflexivity.
Qed.

(** C7.  For an input table of CustomerRecord columns, the table a
    successful run stores is the input table, its columns unchanged (labels,
    cells, order of columns and of rows), followed by exactly the columns
    [predicted_clv], [customer_segment], [percentile_rank],
    [confidence_lower], [confidence_upper] and [churn_risk], in this
    order. *)
Theorem output_schema `{P : CLVPredictor}
    (cd : DataFrame) (w w' : world) (out : DataFrame) :
  predict_block cd w = (Ok tt, w') ->
  predictions (session w') = Some out ->
  customer_record_table cd = true ->
  (exists clv seg rank lower upper risk,
     out = cd ++ [ ("predicted_clv", clv); ("customer_segment", seg);
                   ("percentile_rank", rank); ("confidence_lower", lower);
                   ("confidence_upper", upper); ("churn_risk", risk) ])
  /\ columns out = columns cd ++ appended_columns
  /\ (forall name, In name (columns cd) ->
        get_column name out = get_column name cd).
Proof.
  intros Hrun Hout Hrecord.
  pose proof (customer_record_fresh cd Hrecord) as Hfresh.
  destruct (fresh_labels_are_appended cd w w' out Hrun Hout Hfresh)
    as (clv & seg & rank & lower & upper & risk & Hshape).
  split; [eauto 10|]. split.
  - rewrite Hshape. unfold columns. now rewrite map_app.
  - intros name Hname. apply (input_columns_kept cd w w'); auto.
    intros Happended.
    unfold fresh_columns in Hfresh. rewrite forallb_forall in Hfresh.
    apply Hfresh in Happended. apply negb_true_iff in Happended.
    apply has_column_In in Hname. congruence.
Qed.

Lemma output_schema_witness :
  (@predict_block (Examples.as_predictor Examples.fitted)
     Examples.customers Examples.start = (Ok tt, Examples.scored)
   /\ predictions (session Examples.scored) = Some Examples.scored_table
   /\ customer_record_table Examples.customers = true)
  /\ (exists clv seg rank lower upper risk,
        Examples.scored_table
        = Examples.customers
            ++ [ ("predicted_clv", clv); ("customer_segment", seg);
                 ("percentile_rank", rank); ("confidence_lower", lower);
                 ("confidence_upper", upper); ("churn_risk", risk) ])
  /\ columns Examples.scored_table
     = columns Examples.customers ++ appended_columns
  /\ (forall name, In name (columns Examples.customers) ->
        get_column name Examples.scored_table
        = get_column name Examples.customers).
Proof.
  assert (Hrun : @predict_block (Examples.as_predictor Examples.fitted)
                   Examples.customers Examples.start
                 = (Ok tt, Examples.scored)) by (vm_compute; reflexivity).
  assert (Hout : predictions (session Examples.scored)
                 = Some Examples.scored_table) by (vm_compute; reflexivity).
  assert (Hrecord : customer_record_table Examples.customers = true)
    by (vm_compute; reflexivity).
  split; [auto|].
  exact (output_schema _ _ _ _ Hrun Hout Hrecord).
Defined.

(** A label the input table already has is assigned in place: a table that
    comes with a [churn_risk] column keeps its ten labels and gets five
    more, and the old cells of [churn_risk] are replaced. *)
Lemma existing_label_is_overwritten :
  fresh_columns Examples.rescored = false
  /\ exists w' out,
       @predict_block (Examples.as_predictor Examples.fitted)
         Examples.rescored Examples.start = (Ok tt, w')
       /\ predictions (session w') = Some out
       /\ length (columns out) = 15%nat
       /\ get_column "churn_risk" Examples.rescored
          <> get_column "churn_risk" out.
Proof.
  split; [reflexivity|].
  eexists. eexists.
  split; [vm_compute; reflexivity|].
  split; [reflexivity|].
  split; [reflexivity|].
  vm_compute. discriminate.
Qed.

(** ** C5, C10: what a run does to the stored predictions *)

(** C5.  For a table without a [customer_id] column the section calls no
    method of the predictor and leaves the session, stored predictions
    included, as it was; when a prediction is requested (button or pending
    trigger), all it does is show the "Invalid customer data format"
    error. *)
Theorem missing_customer_id_is_rejected `{P : CLVPredictor}
    (cd : DataFrame) (clicked : bool) (w : world) :
  has_column "customer_id" cd = false ->
  session (snd (prediction_section cd clicked w)) = session w
  /\ calls (snd (prediction_section cd clicked w)) = calls w
  /\ (clicked || trigger_prediction (session w) = true ->
      prediction_section cd clicked w
      = (Ok tt,
         mkWorld (session w)
           (ui w ++ [StError
              "❌ Invalid customer data format. Please check your input data."])
           (calls w))).
Proof.
  intros Hcol. unfold prediction_section, try_except. rewrite Hcol.
  destruct (clicked || trigger_prediction (session w)); cbn.
  - auto.
  - repeat split; auto. discriminate.
Qed.

Lemma missing_customer_id_is_rejected_witness :
  has_column "customer_id" Examples.anonymous = false
  /\ true || trigger_prediction (session Examples.earlier) = true
  /\ predictions
       (session (snd (@prediction_section
                        (Examples.as_predictor Examples.fitted)
                        Examples.anonymous true Examples.earlier)))
     = Some Examples.scored_table
  /\ @prediction_section (Examples.as_predictor Examples.fitted)
       Examples.anonymous true Examples.earlier
     = (Ok tt,
        mkWorld (session Examples.earlier)
          (ui Examples.earlier ++ [StError
             "❌ Invalid customer data format. Please check your input data."])
          (calls Examples.earlier)).
Proof.
  assert (Hcol : has_column "customer_id" Examples.anonymous = false)
    by reflexivity.
  assert (Hreq : true || trigger_prediction (session Examples.earlier) = true)
    by reflexivity.
  destruct (missing_customer_id_is_rejected
              (P := Examples.as_predictor Examples.fitted)
              Examples.anonymous true Examples.earlier Hcol)
    as (Hsession & _ & Hshown).
  split; [exact Hcol|]. split; [exact Hreq|].
  split; [now rewrite Hsession | exact (Hshown Hreq)].
Defined.

(** What the whole section does, by the outcome of the block. *)
Lemma prediction_section_run `{P : CLVPredictor}
    (cd : DataFrame) (clicked : bool) (w : world) :
  let w' := snd (prediction_section cd clicked w) in
  (exists out, all_steps_ok cd out /\ predictions (session w') = Some out)
  \/ session w' = session w.
Proof.
  unfold prediction_section, try_except.
  destruct (clicked || trigger_prediction (session w)); [|now right].
  destruct (has_column "customer_id" cd); [|now right].
  pose proof (predict_block_run cd w) as Hrun.
  destruct (predict_block cd w) as [[u|e] w1]; cbn.
  - destruct Hrun as (out & Hok & ->). left. exists out. auto.
  - destruct Hrun as (Hs & _ & _). right. exact Hs.
Qed.

(** C10.  The stored predictions change only in a run in which every step
    succeeds: if the block raises an exception, whatever the step, the
    section leaves the whole session, stored predictions included, as it
    was; and if the stored predictions differ after the section, then all
    of feature creation, alignment, prediction, segmentation and
    enrichment succeeded and the stored table is the one they built. *)
Theorem stored_predictions_atomic `{P : CLVPredictor}
    (cd : DataFrame) (clicked : bool) (w : world) :
  let w' := snd (prediction_section cd clicked w) in
  (forall e w1, predict_block cd w = (Raised e, w1) ->
     session w' = session w
     /\ predictions (session w') = predictions (session w))
  /\ (predictions (session w') <> predictions (session w) ->
      exists out, all_steps_ok cd out /\ predictions (session w') = Some out).
Proof.
  cbn zeta. split.
  - intros e w1 Hraise.
    assert (Hs : session (snd (prediction_section cd clicked w)) = session w).
    { unfold prediction_section, try_except.
      destruct (clicked || trigger_prediction (session w)); [|reflexivity].
      destruct (has_column "customer_id" cd); [|reflexivity].
      pose proof (predict_block_run cd w) as Hrun.
      rewrite Hraise in *. cbn. tauto. }
    split; [exact Hs | now rewrite Hs].
  - intros Hchanged.
    destruct (prediction_section_run cd clicked w) as [Hok|Hsame];
      [exact Hok|].
    exfalso. apply Hchanged. now rewrite Hsame.
Qed.

Lemma stored_predictions_atomic_witness :
  @predict_block (Examples.as_predictor Examples.unfitted)
     Examples.customers Examples.earlier
  = (Raised (Exception "NotFittedError: model is not fitted"),
     mkWorld (session Examples.earlier) []
             [CallCreateAdvancedFeatures; CallPrepareFeatures; CallPredictCLV])
  /\ predictions
       (session (snd (@prediction_section
                        (Examples.as_predictor Examples.unfitted)
                        Examples.customers true Examples.earlier)))
     = Some Examples.scored_table.
Proof.
  assert (Hraise :
    @predict_block (Examples.as_predictor Examples.unfitted)
       Examples.customers Examples.earlier
    = (Raised (Exception "NotFittedError: model is not fitted"),
       mkWorld (session Examples.earlier) []
               [CallCreateAdvancedFeatures; CallPrepareFeatures;
                CallPredictCLV])) by (vm_compute; reflexivity).
  split; [exact Hraise|].
  destruct (stored_predictions_atomic
              (P := Examples.as_predictor Examples.unfitted)
              Examples.customers true Examples.earlier) as [Hatomic _].
  destruct (Hatomic _ _ Hraise) as [_ Hpred].
  rewrite Hpred. reflexivity.
Defined.

(** ** C6: validation of a manual entry *)

Lemma In_append_if (cond : bool) (m msg : string) (errors : list string) :
  In msg (append_if cond m errors)
  <-> In msg errors \/ (cond = true /\ msg = m).
Proof.
  unfold append_if. destruct cond.
  - rewrite in_app_iff. simpl. intuition.
  - intuition discriminate.
Qed.

Lemma existsb_str_eq_value (s : string) (c : column) :
  existsb (str_eq_value s) c = true <-> In (VStr s) c.
Proof.
  rewrite existsb_exists. split.
  - intros (v & Hin & Heq). destruct v; try discriminate.
    apply String.eqb_eq in Heq. now subst.
  - intros Hin. exists (VStr s). split; [exact Hin | apply String.eqb_refl].
Qed.

Lemma get_column_In (name : string) (df : DataFrame) (c : column) :
  get_column name df = Some c -> In (name, c) df.
Proof.
  induction df as [|[n c0] df IH]; simpl; [discriminate|].
  destruct (String.eqb n name) eqn:E.
  - apply String.eqb_eq in E. intros [= ->]. left. now subst.
  - intros H. right. auto.
Qed.

(** A rectangular table with a cell is not empty. *)
Lemma rectangular_not_empty (df : DataFrame) (name : string) (c : column)
    (v : value) :
  rectangular df = true -> get_column name df = Some c -> In v c ->
  df_empty df = false.
Proof.
  intros Hrect Hget Hin. apply get_column_In in Hget.
  unfold rectangular in Hrect. rewrite forallb_forall in Hrect.
  pose proof (Hrect _ Hget) as Hlen. cbn in Hlen. apply Nat.eqb_eq in Hlen.
  destruct df as [|col df]; [contradiction|].
  unfold df_empty. apply Nat.eqb_neq. rewrite <- Hlen.
  destruct c; simpl in *; [contradiction | lia].
Qed.

Lemma In_check_customer_id (manual : DataFrame) (f : manual_form)
    (msg : string) :
  rectangular manual = true ->
  In msg (check_customer_id manual f []) <->
  (strip (customer_id f) = EmptyString /\ msg = msg_empty_id)
  \/ (strip (customer_id f) <> EmptyString
      /\ (exists ids, get_column "customer_id" manual = Some ids
                      /\ In (VStr (strip (customer_id f))) ids)
      /\ msg = msg_duplicate_id (customer_id f)).
Proof.
  intros Hrect. unfold check_customer_id.
  destruct (String.eqb (strip (customer_id f)) EmptyString) eqn:Hempty.
  - apply String.eqb_eq in Hempty. simpl. split.
    + intros [<-|[]]. now left.
    + intros [[_ ->]|[Hne _]]; [now left | contradiction].
  - apply String.eqb_neq in Hempty.
    destruct (get_column "customer_id" manual) as [ids|] eqn:Hget.
    + assert (Hhas : has_column "customer_id" manual = true)
        by (apply has_column_get; rewrite Hget; eauto).
      rewrite Hhas, andb_true_r. cbn beta iota zeta.
      destruct (existsb (str_eq_value (strip (customer_id f))) ids) eqn:Hex.
      * apply existsb_str_eq_value in Hex.
        rewrite (rectangular_not_empty _ _ _ _ Hrect Hget Hex). simpl. split.
        -- intros [<-|[]]. right. eauto.
        -- intros [[He _]|(_ & _ & ->)]; [contradiction | now left].
      * assert (Hnot : ~ In (VStr (strip (customer_id f))) ids).
        { intros Hin. apply existsb_str_eq_value in Hin. congruence. }
        assert (Hnone : In msg [] <-> False) by (simpl; tauto).
        destruct (negb (df_empty manual)); cbn [andb]; rewrite Hnone;
          (split; [tauto|]);
          intros [[He _]|(_ & (ids' & Hids & Hin) & _)];
          try contradiction; injection Hids as <-; contradiction.
    + assert (Hhas : has_column "customer_id" manual = false).
      { destruct (has_column "customer_id" manual) eqn:E; [|reflexivity].
        apply has_column_get in E as [? E]. congruence. }
      rewrite Hhas, andb_false_r. simpl. split; [tauto|].
      intros [[He _]|(_ & (ids' & Hids & _) & _)];
        [contradiction | discriminate].
Qed.

(** The messages produced are exactly those of the violated constraints. *)
Lemma validation_errors_spec (manual : DataFrame) (f : manual_form)
    (msg : string) :
  rectangular manual = true ->
  In msg (validation_errors manual f) <-> violation manual f msg.
Proof.
  intros Hrect. unfold validation_errors.
  rewrite !In_append_if, (In_check_customer_id _ _ _ Hrect).
  rewrite orb_true_iff, !Z.ltb_lt, !Z.gtb_gt, Qle_bool_iff.
  split.
  - intros H.
    repeat match type of H with _ \/ _ => destruct H as [H|H] end.
    + destruct H as [He ->]. now constructor.
    + destruct H as (Hne & (ids & Hget & Hin) & ->).
      now apply DuplicateId with ids.
    + destruct H as [Hc ->]. now constructor.
    + destruct H as [Hc ->]. now constructor.
    + destruct H as [Hc ->]. now constructor.
    + destruct H as [Hc ->]. now constructor.
    + destruct H as [Hc ->]. now constructor.
    + destruct H as [Hc ->]. now constructor.
  - intros Hv. destruct Hv; eauto 12.
Qed.

(** C6.  A submitted form that violates at least one CustomerRecord
    constraint is not added: the handler leaves the session (customer table
    included) as it was and shows one sidebar error per violated constraint;
    the messages shown are exactly those of the violated constraints, so
    none is dropped after the first. *)
Theorem invalid_entry_is_reported_in_full (f : manual_form) (w : world) :
  rectangular (manual_customers (session w)) = true ->
  add_customer f || add_and_predict f = true ->
  (exists msg, violation (manual_customers (session w)) f msg) ->
  exists errors,
    handle_manual_entry f w
    = (Ok (negb (df_empty (manual_customers (session w)))),
       mkWorld (session w) (ui w ++ map SidebarError errors) (calls w))
    /\ (forall msg,
          violation (manual_customers (session w)) f msg <-> In msg errors).
Proof.
  intros Hrect Hsubmit (msg0 & Hv).
  exists (validation_errors (manual_customers (session w)) f).
  split; [|intros msg; symmetry; now apply validation_errors_spec].
  apply (validation_errors_spec _ _ _ Hrect) in Hv.
  unfold handle_manual_entry, bind. rewrite Hsubmit.
  destruct (validation_errors (manual_customers (session w)) f) as [|e errors];
    [contradiction|].
  reflexivity.
Qed.

Lemma invalid_entry_is_reported_in_full_witness :
  (rectangular (manual_customers (session Examples.earlier)) = true
   /\ add_customer Examples.invalid_form
      || add_and_predict Examples.invalid_form = true
   /\ exists msg,
        violation (manual_customers (session Examples.earlier))
                  Examples.invalid_form msg)
  /\ exists errors,
       handle_manual_entry Examples.invalid_form Examples.earlier
       = (Ok (negb (df_empty (manual_customers (session Examples.earlier)))),
          mkWorld (session Examples.earlier)
                  (ui Examples.earlier ++ map SidebarError errors)
                  (calls Examples.earlier))
       /\ (forall msg,
             violation (manual_customers (session Examples.earlier))
                       Examples.invalid_form msg
             <-> In msg errors).
Proof.
  assert (Hrect : rectangular (manual_customers (session Examples.earlier))
                  = true) by reflexivity.
  assert (Hsubmit : add_customer Examples.invalid_form
                    || add_and_predict Examples.invalid_form = true)
    by reflexivity.
  assert (Hv : exists msg,
                 violation (manual_customers (session Examples.earlier))
                           Examples.invalid_form msg)
    by (exists msg_empty_id; apply EmptyId; reflexivity).
  split; [auto|].
  exact (invalid_entry_is_reported_in_full _ _ Hrect Hsubmit Hv).
Defined.

(** The six messages of that form, in the order of the checks. *)
Example six_violations_six_messages :
  validation_errors Examples.customers Examples.invalid_form
  = [msg_empty_id; msg_age; msg_total_purchases; msg_avg_order_value;
     msg_days_first; msg_days_order].
Proof. reflexivity. Qed.

(** An id already in the table, padded with blanks, and an age of 200. *)
Example duplicate_id_and_age :
  validation_errors Examples.customers
    (mkForm " CUST_0002 " 200 3 20 10 5 "Store" "Rural" "Active" false true)
  = [msg_duplicate_id " CUST_0002 "; msg_age].
Proof. reflexivity. Qed.

(** A valid form is added as a new last row. *)
Example valid_entry_is_added :
  let f := mkForm "CUST_0004" 40 3 20 10 5 "Store" "Rural" "Active" false true in
  exists w',
    handle_manual_entry f Examples.earlier = (Ok true, w')
    /\ nrows (manual_customers (session w')) = 4%nat
    /\ cell (manual_customers (session w')) "customer_id" 3
       = Some (VStr "CUST_0004")
    /\ customer_data (session w') = Some (manual_customers (session w'))
    /\ trigger_prediction (session w') = true
    /\ ui w' = [SidebarSuccess "✅ Customer CUST_0004 added! Total: 4"].
Proof.
  eexists. split; [vm_compute; reflexivity|].
  repeat split; reflexivity.
Qed.

(** ** C8: segmentation is monotone *)

Section Segmenter.

Context {params : Type}.
Import CLVModel.

Lemma segment_of_monotone (a : ModelArtifact params) (x y : Q) :
  (x <= y)%Q -> segment_le (segment_of a x) (segment_of a y).
Proof.
  intros Hxy. unfold segment_of, segment_le.
  destruct (segment_thresholds a) as [low_cut high_cut].
  destruct (Qle_bool x low_cut) eqn:Hx1; [simpl; lia|].
  destruct (Qle_bool y low_cut) eqn:Hy1.
  { apply Qle_bool_iff in Hy1.
    assert (Hx : Qle_bool x low_cut = true) by (apply Qle_bool_iff; lra).
    congruence. }
  destruct (Qle_bool x high_cut) eqn:Hx2.
  { destruct (Qle_bool y high_cut); simpl; lia. }
  destruct (Qle_bool y high_cut) eqn:Hy2; [|simpl; lia].
  apply Qle_bool_iff in Hy2.
  assert (Hx : Qle_bool x high_cut = true) by (apply Qle_bool_iff; lra).
  congruence.
Qed.

(** A fitted predictor labels every value of a batch. *)
Lemma segment_customers_fitted (p : predictor params) (batch : list Q) :
  is_fitted p = true ->
  exists a, artifact p = Some a
            /\ segment_customers p batch = Ok (map (segment_of a) batch).
Proof.
  unfold is_fitted, segment_customers.
  destruct (artifact p) as [a|]; [eauto | discriminate].
Qed.

(** C8.  With the segmenter of the design document (two fixed boundaries
    kept in the fitted artifact): for two predictions [a <= b] of one
    batch, the label of [a] is at most the label of [b] in the order
    "Low Value" < "Medium Value" < "High Value". *)
Theorem segmentation_monotone (p : predictor params) (batch : list Q)
    (labels : list segment) (i j : nat) (a b : Q) (sa sb : segment) :
  segment_customers p batch = Ok labels ->
  batch !! i = Some a ->
  batch !! j = Some b ->
  (a <= b)%Q ->
  labels !! i = Some sa ->
  labels !! j = Some sb ->
  segment_le sa sb.
Proof.
  unfold segment_customers.
  destruct (artifact p) as [art|]; [|discriminate].
  intros [= <-] Hi Hj Hab Hsa Hsb.
  rewrite lookup_map, Hi in Hsa. rewrite lookup_map, Hj in Hsb.
  cbn in Hsa, Hsb. injection Hsa as <-. injection Hsb as <-.
  now apply segment_of_monotone.
Qed.

(** The same on the table app.py stores, when its predictor is such a
    model: rows with predicted values [a <= b] carry segment labels in
    that order. *)
Lemma stored_segments_monotone
    (regress : params -> DataFrame -> list Q)
    (engineer align : DataFrame -> result DataFrame)
    (p : predictor params)
    (cd : DataFrame) (w w' : world) (out : DataFrame)
    (i j : nat) (a b : Q) :
  @predict_block (model_predictor regress engineer align p) cd w
  = (Ok tt, w') ->
  predictions (session w') = Some out ->
  cell out "predicted_clv" i = Some (VFloat (Fin a)) ->
  cell out "predicted_clv" j = Some (VFloat (Fin b)) ->
  (a <= b)%Q ->
  exists sa sb,
    cell out "customer_segment" i = Some (VStr (segment_label sa))
    /\ cell out "customer_segment" j = Some (VStr (segment_label sb))
    /\ segment_le sa sb.
Proof.
  intros Hrun Hout Hi Hj Hab.
  pose proof Hrun as Hsteps.
  apply predict_block_ok in Hsteps as (out' & Hok & ->).
  cbn in Hout. injection Hout as ->.
  destruct Hok as (processed & X & raw & segs & _ & _ & _ & Hseg & Htable).
  cbn in Hseg. unfold segment_customers in Hseg.
  destruct (artifact p) as [art|]; [|discriminate].
  injection Hseg as <-.
  apply prediction_table_ok in Htable as (risk & -> & _).
  unfold cell in *.
  rewrite !get_column_put_ne, get_column_put_eq in Hi, Hj by names_differ.
  rewrite !get_column_put_ne, get_column_put_eq by names_differ.
  cbn in *. unfold float_column in Hi, Hj.
  rewrite lookup_map in Hi, Hj. rewrite !lookup_map.
  destruct (raw !! i) as [a'|]; [|discriminate].
  destruct (raw !! j) as [b'|]; [|discriminate].
  injection Hi as ->. injection Hj as ->. cbn.
  exists (segment_of art a), (segment_of art b).
  auto using segment_of_monotone.
Qed.

End Segmenter.

Lemma segmentation_monotone_witness :
  (CLVModel.segment_customers Examples.fitted [500%Q; 100%Q]
   = Ok [CLVModel.HighValue; CLVModel.LowValue]
   /\ [500%Q; 100%Q] !! 1%nat = Some 100%Q
   /\ [500%Q; 100%Q] !! 0%nat = Some 500%Q
   /\ (100 <= 500)%Q
   /\ [CLVModel.HighValue; CLVModel.LowValue] !! 1%nat = Some CLVModel.LowValue
   /\ [CLVModel.HighValue; CLVModel.LowValue] !! 0%nat
      = Some CLVModel.HighValue)
  /\ CLVModel.segment_le CLVModel.LowValue CLVModel.HighValue.
Proof.
  assert (H1 : CLVModel.segment_customers Examples.fitted [500%Q; 100%Q]
               = Ok [CLVModel.HighValue; CLVModel.LowValue]) by reflexivity.
  assert (H2 : [500%Q; 100%Q] !! 1%nat = Some 100%Q) by reflexivity.
  assert (H3 : [500%Q; 100%Q] !! 0%nat = Some 500%Q) by reflexivity.
  assert (H4 : (100 <= 500)%Q) by (vm_compute; discriminate).
  assert (H5 : [CLVModel.HighValue; CLVModel.LowValue] !! 1%nat
               = Some CLVModel.LowValue) by reflexivity.
  assert (H6 : [CLVModel.HighValue; CLVModel.LowValue] !! 0%nat
               = Some CLVModel.HighValue) by reflexivity.
  split; [auto 10|].
  exact (segmentation_monotone _ _ _ _ _ _ _ _ _ H1 H2 H3 H4 H5 H6).
Defined.

(** ** C9: saving and loading the model *)

Section Persistor.

Context {params : Type}.
Variable regress : params -> DataFrame -> list Q.
Variable dump_params : params -> CLVModel.blob.
Variable load_params : CLVModel.blob -> option params.
Variable engineer_schema : list string.
Import CLVModel.

(** Reading back what was written, item by item. *)
Lemma decode_items_written {A : Type} (encode : A -> blob)
    (decode : blob -> option A) (l : list A) :
  (forall a, decode (encode a) = Some a) ->
  decode_items decode (map encode l) = Some l.
Proof.
  intros Hcodec. induction l as [|a l IH]; [reflexivity|].
  cbn. now rewrite Hcodec, IH.
Qed.

Lemma decode_fields_written {A : Type} (encode : A -> blob)
    (decode : blob -> option A) (l : list (string * A)) :
  (forall a, decode (encode a) = Some a) ->
  decode_fields decode (map (fun kv => (fst kv, encode (snd kv))) l)
  = Some l.
Proof.
  intros Hcodec. induction l as [|[k a] l IH]; [reflexivity|].
  cbn. now rewrite Hcodec, IH.
Qed.

(** Looking up a field behind fields of other names. *)
Lemma field_found (before : list (string * blob)) (name : string) (v : blob)
    (rest : list (string * blob)) :
  Forall (fun kv => fst kv <> name) before ->
  field name (before ++ (name, v) :: rest) = Some v.
Proof.
  unfold field. induction 1 as [|[k b] before Hk _ IH]; cbn.
  - now rewrite String.eqb_refl.
  - apply String.eqb_neq in Hk. cbn in Hk. rewrite Hk. exact IH.
Qed.

Lemma field_skipped (before : list (string * blob)) (name k : string)
    (v : blob) (rest : list (string * blob)) :
  k <> name ->
  field name (before ++ (k, v) :: rest) = field name (before ++ rest).
Proof.
  intros Hk. unfold field. induction before as [|[k' b] before IH]; cbn.
  - apply String.eqb_neq in Hk. now rewrite Hk.
  - destruct (String.eqb k' name); [reflexivity | exact IH].
Qed.

(** The fields of an artifact are read back as the artifact, once the
    parameters of its model are. *)
Lemma decode_artifact_written (a : ModelArtifact params)
    (before after : list (string * blob)) :
  load_params (dump_params (model_parameters a)) = Some (model_parameters a) ->
  Forall (fun kv => In (fst kv) ["format_version"; "fit_metadata"])
         (before ++ after) ->
  decode_artifact load_params
    (before ++ encode_artifact dump_params a ++ after)
  = Some a.
Proof.
  intros Hparams Hother.
  apply Forall_app in Hother as [Hbefore _].
  pose proof (field_found before) as Hfield.
  pose proof (field_skipped before) as Hskip.
  destruct a as [parameters schema categories fills [low_cut high_cut]].
  unfold decode_artifact, encode_artifact.
  cbn [feature_schema encoders imputation_defaults model_parameters
       segment_thresholds fst snd app] in *.
  assert (Hnames : forall name,
            ~ In name ["format_version"; "fit_metadata"] ->
            Forall (fun kv => fst kv <> name) before).
  { intros name Hname. eapply List.Forall_impl; [|exact Hbefore].
    intros kv Hkv Heq. apply Hname. now rewrite <- Heq. }
  rewrite Hfield by (apply Hnames; cbn; intuition discriminate).
  do 1 (rewrite Hskip by discriminate).
  rewrite Hfield by (apply Hnames; cbn; intuition discriminate).
  do 2 (rewrite Hskip by discriminate).
  rewrite Hfield by (apply Hnames; cbn; intuition discriminate).
  do 3 (rewrite Hskip by discriminate).
  rewrite Hfield by (apply Hnames; cbn; intuition discriminate).
  cbn [mbind option_bind decode_list decode_dict field List.find fst snd
       String.eqb Ascii.eqb Bool.eqb].
  rewrite (decode_items_written BStr decode_str) by reflexivity.
  cbn [mbind option_bind decode_dict decode_list decode_items decode_float].
  rewrite (decode_fields_written
             (fun m => BDict (map (fun c => (fst c, BInt (snd c))) m))
             (decode_dict decode_int)).
  2:{ intros m. cbn. apply (decode_fields_written BInt decode_int).
      reflexivity. }
  rewrite (decode_fields_written BFloat decode_float) by reflexivity.
  now rewrite Hparams.
Qed.

(** What [save_model] leaves at the target path. *)
Lemma save_model_writes (p : predictor params) (a : ModelArtifact params)
    (path : string) (fs : gmap string blob) :
  artifact p = Some a ->
  exists fs',
    save_model dump_params p path fs = Ok fs'
    /\ fs' !! path
       = Some (encode_file dump_params (mkFile FORMAT_VERSION a (metadata p))).
Proof.
  intros Ha. unfold save_model, rename_file. rewrite Ha.
  rewrite lookup_insert_eq. eexists. split; [reflexivity|].
  apply lookup_insert_eq.
Qed.

(** Loading the blob of an artifact of the current schema. *)
Lemma load_model_reads (a : ModelArtifact params) (note path : string)
    (fs : gmap string blob) :
  fs !! path = Some (encode_file dump_params (mkFile FORMAT_VERSION a note)) ->
  load_params (dump_params (model_parameters a)) = Some (model_parameters a) ->
  feature_schema a = engineer_schema ->
  load_model load_params engineer_schema path fs
  = Ok (mkPredictor (Some a) note).
Proof.
  intros Hfile Hparams Hschema. unfold load_model.
  rewrite Hfile. unfold encode_file.
  cbn [format_version payload fit_metadata].
  change (field "format_version"
            (("format_version", BInt (Z.of_nat FORMAT_VERSION))
               :: encode_artifact dump_params a
               ++ [("fit_metadata", BStr note)]))
    with (Some (BInt (Z.of_nat FORMAT_VERSION))).
  cbn [mbind option_bind decode_int]. rewrite Z.eqb_refl. cbn [negb].
  pose proof (decode_artifact_written a
                [("format_version", BInt (Z.of_nat FORMAT_VERSION))]
                [("fit_metadata", BStr note)] Hparams) as Hread.
  cbn [app] in Hread. rewrite Hread by (repeat constructor; cbn; auto).
  assert (Hnote : field "fit_metadata"
                    (("format_version", BInt (Z.of_nat FORMAT_VERSION))
                       :: encode_artifact dump_params a
                       ++ [("fit_metadata", BStr note)])
                  = Some (BStr note)) by reflexivity.
  rewrite Hnote. cbn [mbind option_bind decode_str].
  now rewrite bool_decide_eq_true_2 by exact Hschema.
Qed.


(** The first start, without a model file: the trained model is the one in
    use and its blob is at [MODEL_FILE]. *)
Lemma startup_trains_and_saves (trained : predictor params)
    (a : ModelArtifact params) (fs : gmap string blob) :
  fs !! MODEL_FILE = None ->
  artifact trained = Some a ->
  exists fs',
    startup dump_params load_params engineer_schema (Ok trained) fs
    = (trained, fs',
       [StSuccess "✅ CLV Model trained and saved successfully!"])
    /\ fs' !! MODEL_FILE
       = Some (encode_file dump_params
                 (mkFile FORMAT_VERSION a (metadata trained))).
Proof.
  intros Hnone Ha.
  destruct (save_model_writes trained a MODEL_FILE fs Ha)
    as (fs' & Hsave & Hfile).
  exists fs'. split; [|exact Hfile].
  unfold startup. cbn [is_fitted artifact negb andb orb].
  rewrite Hnone. cbn [is_fitted artifact negb andb orb].
  now rewrite Hsave.
Qed.

(** A later start, with the blob of a model of the current schema at
    [MODEL_FILE]: the model is loaded, nothing is trained or written. *)
Lemma startup_loads_saved (a : ModelArtifact params) (note : string)
    (retrain : result (predictor params)) (fs : gmap string blob) :
  fs !! MODEL_FILE
  = Some (encode_file dump_params (mkFile FORMAT_VERSION a note)) ->
  load_params (dump_params (model_parameters a)) = Some (model_parameters a) ->
  feature_schema a = engineer_schema ->
  startup dump_params load_params engineer_schema retrain fs
  = (mkPredictor (Some a) note, fs,
     [StSuccess "✅ CLV Model loaded from saved file!";
      StSuccess "✅ CLV Model ready!"]).
Proof.
  intros Hfile Hparams Hschema. unfold startup.
  cbn [is_fitted new_predictor artifact negb andb orb].
  rewrite (load_model_reads a note MODEL_FILE fs Hfile Hparams Hschema).
  rewrite Hfile. reflexivity.
Qed.

(** Across two runs of the script: the model trained and saved by the first
    run is the one the second run loads, and it predicts the same. *)
Lemma restart_keeps_predictions (trained : predictor params)
    (a : ModelArtifact params) (retrain : result (predictor params))
    (fs : gmap string blob) (X : DataFrame) :
  fs !! MODEL_FILE = None ->
  artifact trained = Some a ->
  feature_schema a = engineer_schema ->
  load_params (dump_params (model_parameters a)) = Some (model_parameters a) ->
  exists fs' shown1 loaded shown2,
    startup dump_params load_params engineer_schema (Ok trained) fs
    = (trained, fs', shown1)
    /\ startup dump_params load_params engineer_schema retrain fs'
       = (loaded, fs', shown2)
    /\ predict_clv regress loaded X = predict_clv regress trained X.
Proof.
  intros Hnone Ha Hschema Hparams.
  destruct (startup_trains_and_saves trained a fs Hnone Ha)
    as (fs' & Hfirst & Hfile).
  do 4 eexists. split; [exact Hfirst|].
  split; [exact (startup_loads_saved a _ retrain fs' Hfile Hparams Hschema)|].
  unfold predict_clv. cbn. now rewrite Ha.
Qed.

End Persistor.


(* ===================================================================== *)
(** * Further properties of app.py *)
(* ===================================================================== *)

(** ** The manual customer table *)

Lemma manual_table_frame (df : DataFrame) :
  manual_table df = true ->
  df = []
  \/ exists ids ages purchases values firsts lasts channels locations subs,
       df = customer_frame ids ages purchases values firsts lasts channels
                           locations subs
       /\ Forall (fun c : column => length c = length ids)
                 [ages; purchases; values; firsts; lasts; channels;
                  locations; subs].
Proof.
  unfold manual_table. destruct df as [|col0 df0]; [now left|].
  intros H. apply andb_true_iff in H as [Hcols Hrect]. right.
  apply bool_decide_eq_true in Hcols.
  remember (col0 :: df0) as df eqn:Hdf. clear Hdf col0 df0.
  unfold columns, customer_record_columns in Hcols.
  repeat (destruct df as [|[? ?] df]; [discriminate Hcols|]).
  destruct df; [|discriminate Hcols].
  cbn in Hcols. injection Hcols as -> -> -> -> -> -> -> -> ->.
  do 9 eexists. split; [reflexivity|].
  unfold rectangular in Hrect. cbn in Hrect.
  repeat match type of Hrect with
         | _ && _ = true =>
             apply andb_true_iff in Hrect as [?%Nat.eqb_eq Hrect]
         end.
  repeat constructor; assumption.
Qed.

Lemma append_if_nil (cond : bool) (msg : string) (errors : list string) :
  append_if cond msg errors = [] -> errors = [] /\ cond = false.
Proof.
  unfold append_if. destruct cond; [|auto].
  intros H. apply app_eq_nil in H as [_ H]. discriminate.
Qed.

(** What a form without a validation error satisfies. *)
Lemma validation_errors_nil (manual : DataFrame) (f : manual_form) :
  validation_errors manual f = [] ->
  strip (customer_id f) <> EmptyString
  /\ (df_empty manual = false ->
      ~ In (VStr (strip (customer_id f))) (customer_ids manual))
  /\ (18 <= age f <= 100)%Z
  /\ (0 <= total_purchases f)%Z
  /\ (0 < avg_order_value f)%Q
  /\ (1 <= days_since_first f)%Z
  /\ (0 <= days_since_last f <= days_since_first f)%Z.
Proof.
  unfold validation_errors. intros H.
  repeat match type of H with
         | append_if _ _ _ = [] =>
             apply append_if_nil in H as [H ?]
         end.
  repeat match goal with
         | Hc : _ || _ = false |- _ => apply orb_false_iff in Hc as [? ?]
         | Hc : (_ <? _)%Z = false |- _ => apply Z.ltb_ge in Hc
         | Hc : (_ >? _)%Z = false |- _ => rewrite Z.gtb_ltb in Hc
         end.
  assert (Haov : (0 < avg_order_value f)%Q).
  { apply Qnot_le_lt. intros Hle. apply Qle_bool_iff in Hle. congruence. }
  unfold check_customer_id in H.
  destruct (String.eqb (strip (customer_id f)) EmptyString) eqn:Hid.
  { apply app_eq_nil in H as [_ H]. discriminate. }
  apply String.eqb_neq in Hid.
  split; [exact Hid|]. split; [|repeat split; auto; lia].
  intros Hne Hin. rewrite Hne in H. cbn [negb andb] in H.
  unfold customer_ids, cells in Hin.
  destruct (get_column "customer_id" manual) as [ids|] eqn:Hget;
    [|contradiction].
  assert (Hhas : has_column "customer_id" manual = true)
    by (apply has_column_get; rewrite Hget; eauto).
  rewrite Hhas in H.
  apply existsb_str_eq_value in Hin. rewrite Hin in H.
  apply app_eq_nil in H as [_ H]. discriminate.
Qed.

Lemma df_empty_customer_frame
    (ids ages purchases values firsts lasts channels locations subs : column) :
  df_empty (customer_frame ids ages purchases values firsts lasts channels
                           locations subs)
  = Nat.eqb (length ids) 0.
Proof. reflexivity. Qed.

Lemma nil_of_length (c ids : column) :
  length c = length ids -> ids = [] -> c = [].
Proof. intros H ->. now destruct c. Qed.

(** On a table of the manual shape, what the handler builds for a valid
    form is [add_row]. *)
Lemma extended_table (manual : DataFrame) (f : manual_form) :
  manual_table manual = true ->
  (if df_empty manual then new_customer f
   else concat_frames manual (new_customer f))
  = add_row manual f.
Proof.
  intros Hshape.
  destruct (manual_table_frame manual Hshape)
    as [->|(ids & c1 & c2 & c3 & c4 & c5 & c6 & c7 & c8 & -> & Hlen)];
    [reflexivity|].
  rewrite df_empty_customer_frame.
  destruct ids as [|id0 ids]; [|reflexivity].
  repeat match goal with
         | H : Forall _ (_ :: _) |- _ =>
             let Hc := fresh in
             apply Forall_cons in H as [Hc H];
             apply length_zero_iff_nil in Hc; subst
         end.
  reflexivity.
Qed.

Lemma nrows_manual_table (manual : DataFrame) :
  manual_table manual = true -> nrows manual = length (customer_ids manual).
Proof.
  intros Hshape.
  destruct (manual_table_frame manual Hshape)
    as [->|(ids & c1 & c2 & c3 & c4 & c5 & c6 & c7 & c8 & -> & _)];
    reflexivity.
Qed.

Lemma add_row_shape (manual : DataFrame) (f : manual_form) :
  manual_table manual = true ->
  manual_table (add_row manual f) = true
  /\ nrows (add_row manual f) = S (nrows manual)
  /\ customer_ids (add_row manual f)
     = customer_ids manual ++ [VStr (strip (customer_id f))].
Proof.
  intros Hshape.
  destruct (manual_table_frame manual Hshape)
    as [->|(ids & c1 & c2 & c3 & c4 & c5 & c6 & c7 & c8 & -> & Hlen)].
  - repeat split; reflexivity.
  - repeat match goal with
           | H : Forall _ (_ :: _) |- _ =>
               let Hc := fresh "Hc" in apply Forall_cons in H as [Hc H]
           end.
    split; [|split; [cbn; rewrite length_app; cbn; lia | reflexivity]].
    unfold manual_table, add_row. cbn.
    rewrite bool_decide_eq_true_2 by reflexivity.
    unfold rectangular. cbn. rewrite !length_app. cbn.
    rewrite Hc, Hc0, Hc1, Hc2, Hc3, Hc4, Hc5, Hc6.
    now rewrite !Nat.eqb_refl.
Qed.

(** The run of a submission that passes validation. *)
Lemma handle_manual_entry_valid (f : manual_form) (w : world) :
  manual_table (manual_customers (session w)) = true ->
  add_customer f || add_and_predict f = true ->
  validation_errors (manual_customers (session w)) f = [] ->
  handle_manual_entry f w
  = (Ok true,
     mkWorld
       (mkSession (predictions (session w))
          (Some (add_row (manual_customers (session w)) f))
          (add_row (manual_customers (session w)) f)
          (if add_and_predict f then true
           else trigger_prediction (session w)))
       (ui w ++ [SidebarSuccess
          ("✅ Customer " ++ customer_id f ++ " added! Total: "
             ++ str_of_nat (S (nrows (manual_customers (session w)))))])
       (calls w)).
Proof.
  intros Hshape Hsubmit Hvalid.
  destruct (add_row_shape _ f Hshape) as (Hshape' & Hrows & Hids).
  assert (Hne : df_empty (add_row (manual_customers (session w)) f) = false).
  { unfold add_row. cbn. rewrite length_app. cbn.
    apply Nat.eqb_neq. lia. }
  unfold handle_manual_entry, bind. rewrite Hsubmit, Hvalid.
  rewrite (extended_table _ f Hshape). rewrite Hrows.
  remember (add_row (manual_customers (session w)) f) as table eqn:Htable.
  unfold modify_session, emit, set_trigger_prediction, modify_session, ret.
  destruct (add_and_predict f); cbn; now rewrite Hne.
Qed.

(** X1.  A submitted form without a validation error adds its customer as
    the last row of the table (the id stripped), copies the table to
    [customer_data], shows the count, and sets the prediction trigger when
    "Add & Predict" was pressed; stored predictions are not touched. *)
Theorem valid_entry_appends_row (f : manual_form) (w : world) :
  manual_table (manual_customers (session w)) = true ->
  add_customer f || add_and_predict f = true ->
  validation_errors (manual_customers (session w)) f = [] ->
  handle_manual_entry f w
  = (Ok true,
     mkWorld
       (mkSession (predictions (session w))
          (Some (add_row (manual_customers (session w)) f))
          (add_row (manual_customers (session w)) f)
          (if add_and_predict f then true
           else trigger_prediction (session w)))
       (ui w ++ [SidebarSuccess
          ("✅ Customer " ++ customer_id f ++ " added! Total: "
             ++ str_of_nat (S (nrows (manual_customers (session w)))))])
       (calls w))
  /\ nrows (add_row (manual_customers (session w)) f)
     = S (nrows (manual_customers (session w)))
  /\ customer_ids (add_row (manual_customers (session w)) f)
     = customer_ids (manual_customers (session w))
         ++ [VStr (strip (customer_id f))].
Proof.
  intros Hshape Hsubmit Hvalid.
  destruct (add_row_shape _ f Hshape) as (_ & Hrows & Hids).
  split; [now apply handle_manual_entry_valid | auto].
Qed.

Lemma valid_entry_appends_row_witness :
  (manual_table (manual_customers (session Examples.earlier)) = true
   /\ add_customer Examples.valid_form
      || add_and_predict Examples.valid_form = true
   /\ validation_errors (manual_customers (session Examples.earlier))
        Examples.valid_form = [])
  /\ handle_manual_entry Examples.valid_form Examples.earlier
     = (Ok true,
        mkWorld
          (mkSession (predictions (session Examples.earlier))
             (Some (add_row (manual_customers (session Examples.earlier))
                            Examples.valid_form))
             (add_row (manual_customers (session Examples.earlier))
                      Examples.valid_form)
             true)
          [SidebarSuccess "✅ Customer  CUST_0004  added! Total: 4"]
          [])
  /\ nrows (add_row (manual_customers (session Examples.earlier))
                    Examples.valid_form) = 4%nat
  /\ customer_ids (add_row (manual_customers (session Examples.earlier))
                           Examples.valid_form)
     = [VStr "CUST_0001"; VStr "CUST_0002"; VStr "CUST_0003";
        VStr "CUST_0004"].
Proof.
  assert (H1 : manual_table (manual_customers (session Examples.earlier))
               = true) by reflexivity.
  assert (H2 : add_customer Examples.valid_form
               || add_and_predict Examples.valid_form = true) by reflexivity.
  assert (H3 : validation_errors (manual_customers (session Examples.earlier))
                 Examples.valid_form = []) by reflexivity.
  split; [auto|].
  exact (valid_entry_appends_row Examples.valid_form Examples.earlier
           H1 H2 H3).
Defined.

(** The two outcomes of a submission on a table of the manual shape. *)
Lemma handle_manual_entry_session (f : manual_form) (w : world) :
  manual_table (manual_customers (session w)) = true ->
  session (snd (handle_manual_entry f w)) = session w
  \/ (validation_errors (manual_customers (session w)) f = []
      /\ session (snd (handle_manual_entry f w))
         = mkSession (predictions (session w))
             (Some (add_row (manual_customers (session w)) f))
             (add_row (manual_customers (session w)) f)
             (if add_and_predict f then true
              else trigger_prediction (session w))).
Proof.
  intros Hshape.
  destruct (add_customer f || add_and_predict f) eqn:Hsubmit.
  - destruct (validation_errors (manual_customers (session w)) f)
      as [|e errors] eqn:Hvalid.
    + right. split; [reflexivity|].
      rewrite (handle_manual_entry_valid f w Hshape Hsubmit Hvalid).
      reflexivity.
    + left. unfold handle_manual_entry, bind. rewrite Hsubmit, Hvalid.
      reflexivity.
  - left. unfold handle_manual_entry, bind. rewrite Hsubmit. reflexivity.
Qed.

Lemma get_column_drop_row (idx : nat) (name : string) (df : DataFrame) :
  get_column name (drop_row idx df) = delete idx <$> get_column name df.
Proof.
  induction df as [|[n c] df IH]; [reflexivity|]. cbn.
  destruct (String.eqb n name); [reflexivity | exact IH].
Qed.

Lemma columns_drop_row (idx : nat) (df : DataFrame) :
  columns (drop_row idx df) = columns df.
Proof.
  unfold columns, drop_row. rewrite map_map. reflexivity.
Qed.

Lemma length_delete_lt {A} (l : list A) (i : nat) :
  (i < length l)%nat -> length (delete i l) = pred (length l).
Proof.
  revert i. induction l as [|a l IH]; intros [|i]; cbn; try lia.
  intros Hi. rewrite IH by lia. destruct l; cbn in *; lia.
Qed.

Lemma drop_row_shape (idx : nat) (df : DataFrame) :
  manual_table df = true -> (idx < nrows df)%nat ->
  manual_table (drop_row idx df) = true
  /\ nrows (drop_row idx df) = pred (nrows df)
  /\ customer_ids (drop_row idx df) = delete idx (customer_ids df).
Proof.
  intros Hshape Hidx.
  destruct (manual_table_frame df Hshape)
    as [->|(ids & c1 & c2 & c3 & c4 & c5 & c6 & c7 & c8 & -> & Hlen)];
    [cbn in Hidx; lia|].
  cbn in Hidx.
  repeat match goal with
         | H : Forall _ (_ :: _) |- _ =>
             let Hc := fresh "Hc" in apply Forall_cons in H as [Hc H]
         end.
  split; [|split; [cbn; now apply length_delete_lt | reflexivity]].
  unfold manual_table, drop_row. cbn.
  rewrite bool_decide_eq_true_2 by reflexivity.
  unfold rectangular. cbn.
  rewrite !length_delete_lt by lia.
  rewrite Hc, Hc0, Hc1, Hc2, Hc3, Hc4, Hc5, Hc6.
  now rewrite !Nat.eqb_refl.
Qed.

Lemma customer_ids_empty (df : DataFrame) :
  manual_table df = true -> df_empty df = true -> customer_ids df = [].
Proof.
  intros Hshape Hempty.
  destruct (manual_table_frame df Hshape)
    as [->|(ids & c1 & c2 & c3 & c4 & c5 & c6 & c7 & c8 & -> & _)];
    [reflexivity|].
  rewrite df_empty_customer_frame in Hempty. apply Nat.eqb_eq in Hempty.
  cbn. now apply length_zero_iff_nil.
Qed.

Section ManualSession.

Context `{P : CLVPredictor}.

(** The prediction section reads the session's tables and writes only
    [predictions] and [trigger_prediction]. *)
Lemma prediction_section_keeps_tables (cd : DataFrame) (clicked : bool)
    (w : world) :
  customer_data (session (snd (prediction_section cd clicked w)))
  = customer_data (session w)
  /\ manual_customers (session (snd (prediction_section cd clicked w)))
     = manual_customers (session w).
Proof.
  unfold prediction_section, try_except.
  destruct (clicked || trigger_prediction (session w)); [|auto].
  destruct (has_column "customer_id" cd); [|auto].
  pose proof (predict_block_run cd w) as Hrun.
  destruct (predict_block cd w) as [[u|e] w1]; cbn.
  - destruct Hrun as (out & _ & ->). auto.
  - destruct Hrun as (-> & _). auto.
Qed.

Lemma manual_step_keeps_ok (w w' : world) :
  manual_step w w' ->
  manual_session_ok (session w) -> manual_session_ok (session w').
Proof.
  intros Hstep (Hshape & Hnodup & Hdata).
  destruct Hstep as [f w w' r Hrun|click show show' fl w w' Hrun
                    |clicked w w' r Hne Hrun].
  - pose proof (handle_manual_entry_session f w Hshape) as Hcases.
    rewrite Hrun in Hcases. cbn [snd] in Hcases.
    destruct Hcases as [->|[Hvalid ->]]; [repeat split; assumption|].
    destruct (add_row_shape _ f Hshape) as (Hshape' & Hrows & Hids).
    unfold manual_session_ok.
    cbn [manual_customers customer_data predictions trigger_prediction].
    split; [exact Hshape'|]. split.
    + rewrite Hids. apply NoDup_app. split; [exact Hnodup|].
      split; [|apply NoDup_singleton].
      intros v Hv Hv'. apply list_elem_of_singleton in Hv'. subst v.
      destruct (df_empty (manual_customers (session w))) eqn:Hempty.
      * rewrite (customer_ids_empty _ Hshape Hempty) in Hv.
        now apply not_elem_of_nil in Hv.
      * destruct (validation_errors_nil _ _ Hvalid) as (_ & Hfresh & _).
        apply (Hfresh Hempty). now apply list_elem_of_In.
    + assert (Hne : df_empty (add_row (manual_customers (session w)) f)
                    = false).
      { unfold add_row. cbn. rewrite length_app. cbn.
        apply Nat.eqb_neq. lia. }
      now rewrite Hne.
  - unfold display_manual_customers in Hrun.
    assert (Hsame : manual_session_ok (session w)) by (repeat split; auto).
    destruct (df_empty (manual_customers (session w))) eqn:Hempty;
      cbn [negb] in Hrun.
    { injection Hrun as _ _ <-. exact Hsame. }
    destruct click as [|idx| | |];
      try (injection Hrun as _ _ <-; exact Hsame).
    + destruct (Nat.ltb idx (nrows (manual_customers (session w)))) eqn:Hidx.
      2:{ injection Hrun as _ _ <-. exact Hsame. }
      apply Nat.ltb_lt in Hidx. injection Hrun as _ _ <-.
      destruct (drop_row_shape idx _ Hshape Hidx) as (Hshape' & _ & Hids).
      unfold manual_session_ok.
      cbn [session manual_customers customer_data predictions
           trigger_prediction].
      split; [exact Hshape'|]. split.
      * rewrite Hids. eapply sublist_NoDup; [exact Hnodup|].
        apply sublist_delete.
      * now destruct (df_empty (drop_row idx _)).
    + injection Hrun as _ _ <-. unfold manual_session_ok.
      cbn [session manual_customers customer_data predictions
           trigger_prediction].
      repeat split. constructor.
  - destruct (prediction_section_keeps_tables
                (manual_customers (session w)) clicked w) as [Hcd Hmc].
    rewrite Hrun in Hcd, Hmc. cbn [snd] in Hcd, Hmc.
    unfold manual_session_ok. rewrite Hcd, Hmc. auto.
Qed.

Lemma manual_runs_keep_ok (w0 w : world) :
  manual_runs w0 w ->
  manual_session_ok (session w0) -> manual_session_ok (session w).
Proof.
  induction 1 as [w|w w1 w2 _ IH Hstep]; [auto|].
  intros Hok. eapply manual_step_keeps_ok; eauto.
Qed.

Lemma initial_session_ok : manual_session_ok initial_session.
Proof. repeat split. constructor. Qed.

(** X2.  Starting from the initial session, whatever forms are submitted
    and whatever buttons of the customer list and of the prediction section
    are pressed, the manual table keeps the nine CustomerRecord columns with
    one cell per customer, and no customer id occurs twice in it. *)
Theorem customer_ids_stay_unique (w0 w : world) :
  session w0 = initial_session ->
  manual_runs w0 w ->
  manual_table (manual_customers (session w)) = true
  /\ NoDup (customer_ids (manual_customers (session w))).
Proof.
  intros Hinit Hruns.
  destruct (manual_runs_keep_ok w0 w Hruns) as (Hshape & Hnodup & _).
  - rewrite Hinit. exact initial_session_ok.
  - auto.
Qed.

(** X3.  Under the same runs, [customer_data] always mirrors the manual
    table: it is a copy of the table while the table has rows and [None]
    while it has none. *)
Theorem customer_data_mirrors_manual_table (w0 w : world) :
  session w0 = initial_session ->
  manual_runs w0 w ->
  customer_data (session w)
  = (if df_empty (manual_customers (session w)) then None
     else Some (manual_customers (session w))).
Proof.
  intros Hinit Hruns.
  destruct (manual_runs_keep_ok w0 w Hruns) as (_ & _ & Hdata).
  - rewrite Hinit. exact initial_session_ok.
  - exact Hdata.
Qed.

End ManualSession.

Lemma first_entered_run :
  @manual_runs (Examples.as_predictor Examples.fitted)
     Examples.start Examples.first_entered.
Proof.
  eapply OneMoreRun; [apply NoRun|].
  eapply (SubmitForm (Examples.form "CUST_0001" 5 50%Q 180 30)
            Examples.start Examples.first_entered (Ok true)).
  vm_compute. reflexivity.
Defined.

Lemma customer_ids_stay_unique_witness :
  (session Examples.start = initial_session
   /\ @manual_runs (Examples.as_predictor Examples.fitted)
        Examples.start Examples.first_entered)
  /\ manual_table (manual_customers (session Examples.first_entered)) = true
  /\ NoDup (customer_ids (manual_customers (session Examples.first_entered))).
Proof.
  assert (Hinit : session Examples.start = initial_session) by reflexivity.
  split; [split; [exact Hinit | exact first_entered_run]|].
  exact (customer_ids_stay_unique
           (P := Examples.as_predictor Examples.fitted)
           Examples.start Examples.first_entered Hinit first_entered_run).
Defined.

Lemma customer_data_mirrors_manual_table_witness :
  (session Examples.start = initial_session
   /\ @manual_runs (Examples.as_predictor Examples.fitted)
        Examples.start Examples.first_entered)
  /\ customer_data (session Examples.first_entered)
     = (if df_empty (manual_customers (session Examples.first_entered))
        then None
        else Some (manual_customers (session Examples.first_entered))).
Proof.
  assert (Hinit : session Examples.start = initial_session) by reflexivity.
  split; [split; [exact Hinit | exact first_entered_run]|].
  exact (customer_data_mirrors_manual_table
           (P := Examples.as_predictor Examples.fitted)
           Examples.start Examples.first_entered Hinit first_entered_run).
Defined.

(** ** Removing customers *)

Lemma delete_last {A} (l : list A) (x : A) :
  delete (length l) (l ++ [x]) = l.
Proof.
  induction l as [|a l IH]; [reflexivity|]. cbn. f_equal. exact IH.
Qed.

Lemma delete_last_of (c ids : column) (x : value) :
  length c = length ids -> delete (length ids) (c ++ [x]) = c.
Proof. intros <-. apply delete_last. Qed.

Lemma df_empty_nrows (df : DataFrame) :
  df <> [] -> df_empty df = Nat.eqb (nrows df) 0.
Proof. destruct df; [congruence | reflexivity]. Qed.

(** The run of a press on "Remove" next to a listed customer. *)
Lemma display_manual_customers_remove (idx : nat) (show : bool) (w : world) :
  manual_table (manual_customers (session w)) = true ->
  (idx < nrows (manual_customers (session w)))%nat ->
  display_manual_customers (ClickRemove idx) show w
  = (Rerun, show,
     mkWorld
       (mkSession (predictions (session w))
          (if Nat.eqb (nrows (manual_customers (session w))) 1 then None
           else Some (drop_row idx (manual_customers (session w))))
          (drop_row idx (manual_customers (session w)))
          (trigger_prediction (session w)))
       (ui w) (calls w)).
Proof.
  intros Hshape Hidx.
  destruct (drop_row_shape idx _ Hshape Hidx) as (Hshape' & Hrows & Hids).
  unfold display_manual_customers.
  assert (Hne : df_empty (manual_customers (session w)) = false).
  { unfold df_empty. destruct (manual_customers (session w)); [cbn in Hidx; lia|].
    apply Nat.eqb_neq. lia. }
  rewrite Hne. cbn [negb].
  apply Nat.ltb_lt in Hidx as Hlt. rewrite Hlt.
  assert (Hempty' : df_empty (drop_row idx (manual_customers (session w)))
                    = Nat.eqb (nrows (manual_customers (session w))) 1).
  { rewrite df_empty_nrows, Hrows.
    - destruct (nrows (manual_customers (session w))) as [|[|n]];
        [lia | reflexivity | reflexivity].
    - destruct (manual_customers (session w)); [cbn in Hidx; lia|].
      discriminate. }
  rewrite Hempty'.
  now destruct (Nat.eqb (nrows (manual_customers (session w))) 1).
Qed.

(** X4.  Pressing "Remove" on customer [idx] of a manual table takes exactly
    that row out (the other customers keep their order), lowers the count by
    one and restarts the script; [customer_data] becomes the new table, or
    [None] when the last customer went.  Stored predictions are left as they
    were, so they may still list the removed customer. *)
Theorem remove_one_row (idx : nat) (show : bool) (w : world) :
  manual_table (manual_customers (session w)) = true ->
  (idx < nrows (manual_customers (session w)))%nat ->
  display_manual_customers (ClickRemove idx) show w
  = (Rerun, show,
     mkWorld
       (mkSession (predictions (session w))
          (if Nat.eqb (nrows (manual_customers (session w))) 1 then None
           else Some (drop_row idx (manual_customers (session w))))
          (drop_row idx (manual_customers (session w)))
          (trigger_prediction (session w)))
       (ui w) (calls w))
  /\ customer_ids (drop_row idx (manual_customers (session w)))
     = delete idx (customer_ids (manual_customers (session w)))
  /\ nrows (drop_row idx (manual_customers (session w)))
     = pred (nrows (manual_customers (session w)))
  /\ columns (drop_row idx (manual_customers (session w)))
     = columns (manual_customers (session w)).
Proof.
  intros Hshape Hidx.
  destruct (drop_row_shape idx _ Hshape Hidx) as (_ & Hrows & Hids).
  split; [now apply display_manual_customers_remove|].
  auto using columns_drop_row.
Qed.

Lemma remove_one_row_witness :
  (manual_table (manual_customers (session Examples.earlier)) = true
   /\ (1 < nrows (manual_customers (session Examples.earlier)))%nat)
  /\ display_manual_customers (ClickRemove 1) false Examples.earlier
     = (Rerun, false,
        mkWorld
          (mkSession (predictions (session Examples.earlier))
             (if Nat.eqb (nrows (manual_customers (session Examples.earlier)))
                         1
              then None
              else Some (drop_row 1
                           (manual_customers (session Examples.earlier))))
             (drop_row 1 (manual_customers (session Examples.earlier)))
             (trigger_prediction (session Examples.earlier)))
          (ui Examples.earlier) (calls Examples.earlier))
  /\ customer_ids (drop_row 1 (manual_customers (session Examples.earlier)))
     = delete 1%nat
         (customer_ids (manual_customers (session Examples.earlier)))
  /\ nrows (drop_row 1 (manual_customers (session Examples.earlier)))
     = pred (nrows (manual_customers (session Examples.earlier)))
  /\ columns (drop_row 1 (manual_customers (session Examples.earlier)))
     = columns (manual_customers (session Examples.earlier)).
Proof.
  assert (H1 : manual_table (manual_customers (session Examples.earlier))
               = true) by reflexivity.
  assert (H2 : (1 < nrows (manual_customers (session Examples.earlier)))%nat)
    by (vm_compute; lia).
  split; [auto|].
  exact (remove_one_row 1 false Examples.earlier H1 H2).
Defined.

(** Taking the last row out of an extended table gives the table back. *)
Lemma drop_last_added_row (f : manual_form) (manual : DataFrame) :
  manual_table manual = true ->
  manual <> [] ->
  drop_row (nrows manual) (add_row manual f) = manual.
Proof.
  intros Hshape Hne.
  destruct (manual_table_frame manual Hshape)
    as [->|(ids & c1 & c2 & c3 & c4 & c5 & c6 & c7 & c8 & -> & Hlen)];
    [contradiction|].
  repeat match goal with
         | H : Forall _ (_ :: _) |- _ =>
             let Hc := fresh "Hc" in apply Forall_cons in H as [Hc H]
         end.
  unfold add_row, drop_row, customer_frame. cbn.
  rewrite delete_last.
  rewrite !delete_last_of by assumption. reflexivity.
Qed.

(** X5.  Round trip of the manual table: on a session whose [customer_data]
    mirrors a manual table that has its columns, "Add Customer" with a valid
    form followed by "Remove" on the new last row restores the whole
    session: the table cell for cell, [customer_data], the stored
    predictions and the trigger. *)
Theorem add_then_remove_restores (f : manual_form) (show : bool) (w : world) :
  manual_table (manual_customers (session w)) = true ->
  manual_customers (session w) <> [] ->
  customer_data (session w)
  = (if df_empty (manual_customers (session w)) then None
     else Some (manual_customers (session w))) ->
  add_customer f = true ->
  add_and_predict f = false ->
  validation_errors (manual_customers (session w)) f = [] ->
  session
    (snd (display_manual_customers
            (ClickRemove (nrows (manual_customers (session w)))) show
            (snd (handle_manual_entry f w))))
  = session w.
Proof.
  intros Hshape Hne Hdata Hadd Hpredict Hvalid.
  assert (Hsubmit : add_customer f || add_and_predict f = true)
    by (rewrite Hadd; reflexivity).
  pose proof (handle_manual_entry_valid f w Hshape Hsubmit Hvalid) as Hrun.
  destruct (add_row_shape _ f Hshape) as (Hshape' & Hrows & _).
  rewrite Hrun. cbn [snd].
  match goal with
  | |- context [display_manual_customers ?c ?sh ?w1] =>
      pose proof (display_manual_customers_remove
                    (nrows (manual_customers (session w))) sh w1) as Hremove
  end.
  rewrite Hremove.
  - cbn [snd session manual_customers predictions
             customer_data trigger_prediction].
    rewrite Hrows, Hpredict, (drop_last_added_row f _ Hshape Hne).
    rewrite (df_empty_nrows _ Hne) in Hdata.
    destruct (session w) as [p c m t].
    cbn [manual_customers customer_data predictions trigger_prediction] in *.
    subst c. destruct (nrows m); reflexivity.
  - exact Hshape'.
  - cbn [session manual_customers]. rewrite Hrows. lia.
Qed.

Lemma add_then_remove_restores_witness :
  (manual_table (manual_customers (session Examples.earlier)) = true
   /\ manual_customers (session Examples.earlier) <> []
   /\ customer_data (session Examples.earlier)
      = (if df_empty (manual_customers (session Examples.earlier)) then None
         else Some (manual_customers (session Examples.earlier)))
   /\ add_customer Examples.quiet_form = true
   /\ add_and_predict Examples.quiet_form = false
   /\ validation_errors (manual_customers (session Examples.earlier))
        Examples.quiet_form = [])
  /\ session
       (snd (display_manual_customers
               (ClickRemove
                  (nrows (manual_customers (session Examples.earlier))))
               false
               (snd (handle_manual_entry Examples.quiet_form
                       Examples.earlier))))
     = session Examples.earlier.
Proof.
  assert (H1 : manual_table (manual_customers (session Examples.earlier))
               = true) by reflexivity.
  assert (H2 : manual_customers (session Examples.earlier) <> [])
    by (vm_compute; discriminate).
  assert (H3 : customer_data (session Examples.earlier)
               = (if df_empty (manual_customers (session Examples.earlier))
                  then None
                  else Some (manual_customers (session Examples.earlier))))
    by reflexivity.
  assert (H4 : add_customer Examples.quiet_form = true) by reflexivity.
  assert (H5 : add_and_predict Examples.quiet_form = false) by reflexivity.
  assert (H6 : validation_errors (manual_customers (session Examples.earlier))
                 Examples.quiet_form = []) by reflexivity.
  split; [auto 10|].
  exact (add_then_remove_restores Examples.quiet_form false Examples.earlier
           H1 H2 H3 H4 H5 H6).
Defined.

(** ** The shape of the stored table, for any input *)

Lemma columns_put_column (name : string) (c : column) (df : DataFrame) :
  columns (put_column name c df)
  = if has_column name df then columns df else columns df ++ [name].
Proof.
  induction df as [|[n c0] df IH]; [reflexivity|].
  cbn [put_column]. rewrite has_column_cons, (String.eqb_sym name n).
  destruct (String.eqb n name) eqn:E; cbn [orb].
  - apply String.eqb_eq in E. now subst.
  - unfold columns in *. cbn [map fst]. rewrite IH.
    now destruct (has_column name df).
Qed.

Lemma forallb_put_column (ok : string * column -> bool) (name : string)
    (c : column) (df : DataFrame) :
  forallb ok df = true -> ok (name, c) = true ->
  forallb ok (put_column name c df) = true.
Proof.
  intros Hdf Hc. induction df as [|[n c0] df IH]; cbn.
  - now rewrite Hc.
  - cbn in Hdf. apply andb_true_iff in Hdf as [H0 Hdf].
    destruct (String.eqb n name); cbn.
    + now rewrite Hc, Hdf.
    + now rewrite H0, IH.
Qed.

(** Assigning a column of the right length keeps a table rectangular. *)
Lemma rectangular_put_column (name : string) (c : column) (df : DataFrame) :
  rectangular df = true -> df <> [] -> length c = nrows df ->
  rectangular (put_column name c df) = true.
Proof.
  intros Hrect Hne Hlen. unfold rectangular.
  rewrite (nrows_put_column name c df Hne Hlen).
  apply forallb_put_column; [exact Hrect|].
  cbn. now apply Nat.eqb_eq.
Qed.

Lemma length_risk_of (xs : list pyfloat) : length (risk_of xs) = length xs.
Proof. unfold risk_of. apply length_map. Qed.

Lemma length_scaled (k : Q) (xs : list pyfloat) :
  length (scaled k xs) = length xs.
Proof. unfold scaled. apply length_map. Qed.

Lemma series_floats_same_length (c : column) (xs : list pyfloat) :
  series_floats c = Ok xs -> length xs = length c.
Proof.
  revert xs. induction c as [|v c IH]; cbn; intros xs.
  - now intros [= <-].
  - destruct (to_float v); [|discriminate].
    destruct (series_floats c); [|discriminate].
    intros [= <-]. cbn. now rewrite (IH _ eq_refl).
Qed.

Lemma rectangular_column_length (df : DataFrame) (name : string) (c : column) :
  rectangular df = true -> get_column name df = Some c ->
  length c = nrows df.
Proof.
  intros Hrect Hget. apply get_column_In in Hget.
  unfold rectangular in Hrect. rewrite forallb_forall in Hrect.
  apply Hrect in Hget. now apply Nat.eqb_eq in Hget.
Qed.

Section StoredShape.

Context `{P : CLVPredictor}.

(** X6.  The table a successful run stores has one cell per customer in
    every column: when the input table is rectangular, so is the stored
    table, and it has the rows of the input. *)
Theorem stored_table_rectangular (cd : DataFrame) (w w' : world)
    (out : DataFrame) :
  predict_block cd w = (Ok tt, w') ->
  predictions (session w') = Some out ->
  rectangular cd = true ->
  cd <> [] ->
  rectangular out = true /\ nrows out = nrows cd.
Proof.
  intros Hrun Hout Hrect Hne.
  destruct (stored_table _ _ _ _ Hrun Hout) as (raw & segs & _ & Ht & _).
  apply prediction_table_ok in Ht as (risk & -> & Hrisk & Hraw & Hsegs).
  destruct Hraw as [->|Hraw]; [contradiction|].
  assert (Hrisk_len : length risk = nrows cd).
  { destruct (get_column "days_since_last_purchase" cd) as [days|] eqn:Hdays.
    - destruct Hrisk as (xs & Hxs & ->).
      rewrite length_risk_of, (series_floats_same_length _ _ Hxs).
      now apply (rectangular_column_length cd "days_since_last_purchase").
    - rewrite Hrisk, repeat_length. exact Hraw. }
  assert (Hstep : forall (df : DataFrame) (name : string) (c : column),
            (rectangular df = true /\ df <> [] /\ nrows df = nrows cd) ->
            length c = nrows cd ->
            rectangular (put_column name c df) = true
            /\ put_column name c df <> []
            /\ nrows (put_column name c df) = nrows cd).
  { intros df name c (Hr & Hn & Hrows) Hlen.
    rewrite <- Hrows in Hlen.
    split; [now apply rectangular_put_column|].
    split; [apply put_column_nonempty|].
    rewrite nrows_put_column; auto. }
  match goal with
  | |- rectangular ?t = true /\ _ =>
      enough (Hgoal : rectangular t = true /\ t <> [] /\ nrows t = nrows cd)
        by tauto
  end.
  repeat (apply Hstep;
          [|unfold float_column, rank_pct;
            rewrite ?length_scaled, ?length_map; congruence]).
  auto.
Qed.

(** X7.  For any input table, the labels of the stored table are the labels
    of the input, in their order, followed by those of the six assigned
    labels that the input did not have; a label the input already had keeps
    its position. *)
Theorem stored_table_labels (cd : DataFrame) (w w' : world)
    (out : DataFrame) :
  predict_block cd w = (Ok tt, w') ->
  predictions (session w') = Some out ->
  columns out
  = columns cd
      ++ List.filter (fun n => negb (has_column n cd)) appended_columns.
Proof.
  intros Hrun Hout.
  destruct (stored_table _ _ _ _ Hrun Hout) as (raw & segs & _ & Ht & _).
  apply prediction_table_ok in Ht as (risk & -> & _).
  rewrite !columns_put_column, !has_column_put. cbn.
  destruct (has_column "predicted_clv" cd),
           (has_column "customer_segment" cd),
           (has_column "percentile_rank" cd),
           (has_column "confidence_lower" cd),
           (has_column "confidence_upper" cd),
           (has_column "churn_risk" cd);
    cbn; rewrite <- ?app_assoc, ?app_nil_r; reflexivity.
Qed.

End StoredShape.

Lemma stored_table_rectangular_witness :
  (@predict_block (Examples.as_predictor Examples.fitted)
     Examples.customers Examples.start = (Ok tt, Examples.scored)
   /\ predictions (session Examples.scored) = Some Examples.scored_table
   /\ rectangular Examples.customers = true
   /\ Examples.customers <> [])
  /\ rectangular Examples.scored_table = true
  /\ nrows Examples.scored_table = nrows Examples.customers.
Proof.
  assert (Hrun : @predict_block (Examples.as_predictor Examples.fitted)
                   Examples.customers Examples.start
                 = (Ok tt, Examples.scored)) by (vm_compute; reflexivity).
  assert (Hout : predictions (session Examples.scored)
                 = Some Examples.scored_table) by (vm_compute; reflexivity).
  assert (Hrect : rectangular Examples.customers = true)
    by (vm_compute; reflexivity).
  assert (Hne : Examples.customers <> []) by (vm_compute; discriminate).
  split; [auto|].
  exact (@stored_table_rectangular (Examples.as_predictor Examples.fitted)
           _ _ _ _ Hrun Hout Hrect Hne).
Defined.

Lemma stored_table_labels_witness :
  (@predict_block (Examples.as_predictor Examples.fitted)
     Examples.rescored Examples.start = (Ok tt, Examples.scored_again)
   /\ predictions (session Examples.scored_again)
      = Some Examples.scored_again_table)
  /\ columns Examples.scored_again_table
     = columns Examples.rescored
         ++ List.filter (fun n => negb (has_column n Examples.rescored))
                        appended_columns.
Proof.
  assert (Hrun : @predict_block (Examples.as_predictor Examples.fitted)
                   Examples.rescored Examples.start
                 = (Ok tt, Examples.scored_again))
    by (vm_compute; reflexivity).
  assert (Hout : predictions (session Examples.scored_again)
                 = Some Examples.scored_again_table)
    by (vm_compute; reflexivity).
  split; [auto|].
  exact (@stored_table_labels (Examples.as_predictor Examples.fitted)
           _ _ _ _ Hrun Hout).
Defined.

(** ** The detailed predictions table *)

Lemma true_indices_from_ge (k : nat) (mask : list bool) (j i : nat) :
  true_indices_from k mask !! j = Some i -> (k <= i)%nat.
Proof.
  revert k j. induction mask as [|b mask IH]; intros k j Hi; [discriminate|].
  cbn [true_indices_from] in Hi. destruct b.
  - destruct j as [|j].
    + injection Hi as <-. lia.
    + change (true_indices_from (S k) mask !! j = Some i) in Hi.
      apply IH in Hi. lia.
  - apply IH in Hi. lia.
Qed.

Lemma select_lookup_from (k : nat) (mask : list bool) (c : column) (j : nat) :
  length mask = length c ->
  select mask c !! j
  = true_indices_from k mask !! j ≫= (fun i => c !! (i - k)%nat).
Proof.
  revert k c j. induction mask as [|b mask IH]; intros k c j Hlen.
  - reflexivity.
  - destruct c as [|v c]; [discriminate|]. cbn in Hlen.
    injection Hlen as Hlen. cbn [select true_indices_from].
    assert (Hshift : forall j',
              select mask c !! j'
              = true_indices_from (S k) mask !! j'
                  ≫= (fun i => (v :: c) !! (i - k)%nat)).
    { intros j'. rewrite (IH (S k) c j' Hlen).
      destruct (true_indices_from (S k) mask !! j') as [i|] eqn:Hi;
        [|reflexivity].
      apply true_indices_from_ge in Hi. cbn [mbind option_bind].
      replace (i - k)%nat with (S (i - S k)) by lia. reflexivity. }
    destruct b; [|apply Hshift].
    destruct j as [|j].
    + cbn. now rewrite Nat.sub_diag.
    + change (select mask c !! j
              = true_indices_from (S k) mask !! j
                  ≫= (fun i => (v :: c) !! (i - k)%nat)).
      apply Hshift.
Qed.

(** The cell in row [j] of the selection is the cell at the [j]-th true
    position of the mask. *)
Lemma select_lookup (mask : list bool) (c : column) (j : nat) :
  length mask = length c ->
  select mask c !! j = true_indices mask !! j ≫= (fun i => c !! i).
Proof.
  intros Hlen. unfold true_indices.
  rewrite (select_lookup_from 0 mask c j Hlen).
  destruct (true_indices_from 0 mask !! j); [|reflexivity].
  cbn. now rewrite Nat.sub_0_r.
Qed.

Lemma true_indices_from_spec (k : nat) (mask : list bool) (i : nat) :
  In i (true_indices_from k mask)
  <-> (k <= i)%nat /\ mask !! (i - k)%nat = Some true.
Proof.
  revert k. induction mask as [|b mask IH]; intros k; cbn.
  - split; [tauto | intros [_ H]; discriminate].
  - assert (Hstep : (S k <= i)%nat /\ mask !! (i - S k)%nat = Some true
                    <-> (k < i)%nat /\ (b :: mask) !! (i - k)%nat = Some true).
    { split; intros [Hle H]; (split; [lia|]).
      - replace (i - k)%nat with (S (i - S k)) by lia. exact H.
      - replace (i - k)%nat with (S (i - S k)) in H by lia. exact H. }
    destruct b; cbn; rewrite IH, Hstep.
    + split.
      * intros [<-|[Hlt H]]; [rewrite Nat.sub_diag; auto | split; [lia|auto]].
      * intros [Hle H]. destruct (Nat.eq_dec k i) as [->|Hne]; [now left|].
        right. split; [lia | exact H].
    + split.
      * intros [Hlt H]. split; [lia | exact H].
      * intros [Hle H]. split; [|exact H].
        destruct (Nat.eq_dec k i) as [->|Hne]; [|lia].
        rewrite Nat.sub_diag in H. discriminate.
Qed.

(** The positions listed are those where the mask is true. *)
Lemma true_indices_spec (mask : list bool) (i : nat) :
  In i (true_indices mask) <-> mask !! i = Some true.
Proof.
  unfold true_indices. rewrite true_indices_from_spec, Nat.sub_0_r.
  split; [tauto | split; [lia | auto]].
Qed.

Lemma true_indices_from_sorted (k : nat) (mask : list bool) :
  StronglySorted lt (true_indices_from k mask).
Proof.
  revert k. induction mask as [|b mask IH]; intros k; cbn; [constructor|].
  destruct b; [|apply IH].
  constructor; [apply IH|].
  apply Forall_forall. intros i Hi. apply list_elem_of_In in Hi.
  apply true_indices_from_spec in Hi. lia.
Qed.

(** They are listed in increasing order: a selection keeps the order of the
    rows. *)
Lemma true_indices_sorted (mask : list bool) :
  StronglySorted lt (true_indices mask).
Proof. apply true_indices_from_sorted. Qed.

Lemma get_column_filter_rows (mask : list bool) (name : string)
    (df : DataFrame) :
  get_column name (filter_rows mask df) = select mask <$> get_column name df.
Proof.
  induction df as [|[n c] df IH]; [reflexivity|]. cbn.
  destruct (String.eqb n name); [reflexivity | exact IH].
Qed.

Lemma columns_filter_rows (mask : list bool) (df : DataFrame) :
  columns (filter_rows mask df) = columns df.
Proof. unfold columns, filter_rows. rewrite map_map. reflexivity. Qed.

Lemma lookup_mask_and (a b : list bool) (i : nat) :
  mask_and a b !! i
  = match a !! i, b !! i with
    | Some x, Some y => Some (x && y)
    | _, _ => None
    end.
Proof.
  unfold mask_and. revert b i.
  induction a as [|x a IH]; intros [|y b] [|i]; cbn; try reflexivity.
  - now destruct (a !! i).
  - apply IH.
Qed.

Lemma length_mask_and (a b : list bool) :
  length a = length b -> length (mask_and a b) = length a.
Proof.
  intros H. unfold mask_and. rewrite length_map, length_combine. lia.
Qed.

Lemma filter_mask_ok (df : DataFrame) (segment_filter : list value)
    (min_clv max_churn_risk : Q) (mask : list bool) :
  filter_mask df segment_filter min_clv max_churn_risk = Ok mask ->
  exists segment clv xs churn ys,
    get_column "customer_segment" df = Some segment
    /\ get_column "predicted_clv" df = Some clv
    /\ series_floats clv = Ok xs
    /\ get_column "churn_risk" df = Some churn
    /\ series_floats churn = Ok ys
    /\ mask = mask_and
                (mask_and (isin segment segment_filter)
                          (map (fun x => fgeb x (Fin min_clv)) xs))
                (map (fun y => fleb y (Fin max_churn_risk)) ys).
Proof.
  unfold filter_mask, rbind, read_column, series_ge, series_le.
  destruct (get_column "customer_segment" df) as [segment|]; [|discriminate].
  destruct (get_column "predicted_clv" df) as [clv|]; [|discriminate].
  destruct (series_floats clv) as [xs|] eqn:Hxs; [|discriminate].
  destruct (get_column "churn_risk" df) as [churn|]; [|discriminate].
  destruct (series_floats churn) as [ys|] eqn:Hys; [|discriminate].
  intros [= <-]. exists segment, clv, xs, churn, ys. auto 10.
Qed.

(** The filter controls never make the table raise when its three columns
    are there and the two numeric ones hold numbers. *)
Lemma filter_mask_total (df : DataFrame) (segment_filter : list value)
    (min_clv max_churn_risk : Q) (segment clv churn : column)
    (xs ys : list pyfloat) :
  get_column "customer_segment" df = Some segment ->
  get_column "predicted_clv" df = Some clv ->
  series_floats clv = Ok xs ->
  get_column "churn_risk" df = Some churn ->
  series_floats churn = Ok ys ->
  filter_mask df segment_filter min_clv max_churn_risk
  = Ok (mask_and
          (mask_and (isin segment segment_filter)
                    (map (fun x => fgeb x (Fin min_clv)) xs))
          (map (fun y => fleb y (Fin max_churn_risk)) ys)).
Proof.
  intros Hs Hc Hxs Hr Hys.
  unfold filter_mask, rbind, read_column, series_ge, series_le.
  now rewrite Hs, Hc, Hxs, Hr, Hys.
Qed.

Lemma filter_mask_rows (df : DataFrame) (segment_filter : list value)
    (min_clv max_churn_risk : Q) (mask : list bool) :
  filter_mask df segment_filter min_clv max_churn_risk = Ok mask ->
  rectangular df = true ->
  length mask = nrows df
  /\ forall i, mask !! i = Some true
               <-> row_passes df segment_filter min_clv max_churn_risk i
                   = true.
Proof.
  intros Hmask Hrect.
  apply filter_mask_ok in Hmask
    as (segment & clv & xs & churn & ys & Hs & Hc & Hxs & Hr & Hys & ->).
  pose proof (rectangular_column_length _ _ _ Hrect Hs) as Ls.
  pose proof (rectangular_column_length _ _ _ Hrect Hc) as Lc.
  pose proof (rectangular_column_length _ _ _ Hrect Hr) as Lr.
  pose proof (series_floats_same_length _ _ Hxs) as Lxs.
  pose proof (series_floats_same_length _ _ Hys) as Lys.
  split.
  - assert (LA : length (isin segment segment_filter) = nrows df)
      by (unfold isin; rewrite length_map; exact Ls).
    assert (LB : length (map (fun x => fgeb x (Fin min_clv)) xs) = nrows df)
      by (rewrite length_map; congruence).
    assert (LC : length (map (fun y => fleb y (Fin max_churn_risk)) ys)
                 = nrows df)
      by (rewrite length_map; congruence).
    assert (LAB : length (mask_and (isin segment segment_filter)
                            (map (fun x => fgeb x (Fin min_clv)) xs))
                  = nrows df)
      by (rewrite length_mask_and; congruence).
    rewrite length_mask_and; congruence.
  - intros i. unfold row_passes, cell. rewrite Hs, Hc, Hr.
    cbn [mbind option_bind].
    rewrite <- (series_floats_lookup _ _ i Hxs).
    rewrite <- (series_floats_lookup _ _ i Hys).
    rewrite !lookup_mask_and. unfold isin. rewrite !lookup_map.
    destruct (segment !! i) as [s|], (xs !! i) as [x|], (ys !! i) as [y|];
      cbn; try (split; discriminate).
    split; [now intros [= ->] | now intros ->].
Qed.

(** X8.  The detailed table holds exactly the rows of the stored table whose
    segment is selected, whose predicted CLV is at least the minimum and
    whose churn risk is at most the maximum, in their original order, with
    all columns and every cell unchanged. *)
Theorem detailed_table_rows (df : DataFrame) (segment_filter : list value)
    (min_clv max_churn_risk : Q) (shown : DataFrame) :
  filtered_df df segment_filter min_clv max_churn_risk = Ok shown ->
  rectangular df = true ->
  exists mask,
    (forall i, In i (true_indices mask)
               <-> row_passes df segment_filter min_clv max_churn_risk i
                   = true)
    /\ StronglySorted lt (true_indices mask)
    /\ columns shown = columns df
    /\ (forall name j,
          cell shown name j = true_indices mask !! j ≫= cell df name).
Proof.
  unfold filtered_df. intros Hshown Hrect.
  destruct (filter_mask df segment_filter min_clv max_churn_risk)
    as [mask|] eqn:Hmask; [|discriminate].
  injection Hshown as <-.
  destruct (filter_mask_rows _ _ _ _ _ Hmask Hrect) as [Hlen Hrows].
  exists mask. split; [|split; [|split]].
  - intros i. rewrite true_indices_spec. apply Hrows.
  - apply true_indices_sorted.
  - apply columns_filter_rows.
  - intros name j. unfold cell. rewrite get_column_filter_rows.
    destruct (get_column name df) as [c|] eqn:Hget; cbn.
    + apply select_lookup.
      rewrite Hlen. symmetry.
      now apply (rectangular_column_length df name).
    + now destruct (true_indices mask !! j).
Qed.

Lemma detailed_table_rows_witness :
  (filtered_df Examples.scored_table FilterExamples.upper_segments 0 1
   = Ok FilterExamples.upper_rows
   /\ rectangular Examples.scored_table = true)
  /\ exists mask,
       (forall i, In i (true_indices mask)
                  <-> row_passes Examples.scored_table
                        FilterExamples.upper_segments 0 1 i = true)
       /\ StronglySorted lt (true_indices mask)
       /\ columns FilterExamples.upper_rows = columns Examples.scored_table
       /\ (forall name j,
             cell FilterExamples.upper_rows name j
             = true_indices mask !! j ≫= cell Examples.scored_table name).
Proof.
  assert (Hshown : filtered_df Examples.scored_table FilterExamples.upper_segments
                     0 1 = Ok FilterExamples.upper_rows)
    by (vm_compute; reflexivity).
  assert (Hrect : rectangular Examples.scored_table = true)
    by (vm_compute; reflexivity).
  split; [auto|].
  exact (detailed_table_rows _ _ _ _ _ Hshown Hrect).
Defined.

Lemma feqb_refl_finite (q : Q) : feqb (Fin q) (Fin q) = true.
Proof. apply Qeq_bool_refl. Qed.

Lemma value_eqb_refl (v : value) : value_eqb v v = true.
Proof.
  destruct v as [z|[q| | |]|s]; cbn; auto using Qeq_bool_refl, String.eqb_refl.
Qed.

Lemma unique_from_covers (seen : list value) (c : column) (v : value) :
  In v c ->
  existsb (value_eqb v) seen = true
  \/ existsb (value_eqb v) (unique_from seen c) = true.
Proof.
  revert seen. induction c as [|u c IH]; intros seen; [contradiction|].
  intros [->|Hin]; cbn [unique_from].
  - destruct (existsb (value_eqb v) seen) eqn:Hseen; [now left|].
    right. cbn. now rewrite value_eqb_refl.
  - destruct (existsb (value_eqb u) seen) eqn:Hseen; [now apply IH|].
    destruct (IH (u :: seen) Hin) as [H|H].
    + cbn in H. apply orb_true_iff in H as [H|H].
      * right. cbn. now rewrite H.
      * now left.
    + right. cbn. rewrite H. apply orb_true_r.
Qed.

(** Every cell of a column is among its unique values. *)
Lemma isin_unique (c : column) :
  isin c (series_unique c) = repeat true (length c).
Proof.
  unfold isin, series_unique.
  assert (H : forall v, In v c ->
            existsb (value_eqb v) (unique_from [] c) = true).
  { intros v Hv. destruct (unique_from_covers [] c v Hv) as [H|H];
      [discriminate | exact H]. }
  revert H. generalize (unique_from [] c) as u.
  induction c as [|v c IH]; intros u H; [reflexivity|].
  cbn. rewrite (H v) by now left. f_equal. apply IH.
  intros v' Hv'. apply H. now right.
Qed.

Lemma mask_and_true (n : nat) :
  mask_and (repeat true n) (repeat true n) = repeat true n.
Proof. induction n as [|n IH]; [reflexivity|]. cbn. f_equal. exact IH. Qed.

Lemma select_all (c : column) : select (repeat true (length c)) c = c.
Proof. induction c as [|v c IH]; [reflexivity|]. cbn. f_equal. exact IH. Qed.

Lemma filter_rows_all (df : DataFrame) :
  rectangular df = true ->
  filter_rows (repeat true (nrows df)) df = df.
Proof.
  unfold rectangular, filter_rows. generalize (nrows df) as n.
  intros n Hrect. induction df as [|[name c] df IH]; [reflexivity|].
  cbn in Hrect. apply andb_true_iff in Hrect as [Hc Hdf].
  apply Nat.eqb_eq in Hc. cbn. rewrite <- Hc at 1.
  rewrite select_all. f_equal. now apply IH.
Qed.

Lemma map_all_true {A} (test : A -> bool) (l : list A) :
  Forall (fun a => test a = true) l ->
  map test l = repeat true (length l).
Proof.
  induction 1 as [|a l Ha _ IH]; [reflexivity|]. cbn. now rewrite Ha, IH.
Qed.

Lemma series_floats_checked (ok : value -> bool) (R : pyfloat -> Prop)
    (c : column) :
  (forall v, ok v = true -> exists x, to_float v = Some x /\ R x) ->
  forallb ok c = true ->
  exists xs, series_floats c = Ok xs /\ Forall R xs.
Proof.
  intros Hok. induction c as [|v c IH]; cbn.
  - exists []. auto.
  - intros H. apply andb_true_iff in H as [Hv Hc].
    destruct (Hok v Hv) as (x & -> & Hx).
    destruct (IH Hc) as (xs & -> & Hxs). eauto.
Qed.

(** X9.  With the three controls untouched (all segments, minimum 0.0,
    maximum risk 1.0) a rectangular table whose predictions are numbers
    that are not negative and whose churn risks are numbers between 0 and 1
    is shown in full. *)
Theorem untouched_controls_show_all (df : DataFrame) (segment : column) :
  rectangular df = true ->
  get_column "customer_segment" df = Some segment ->
  has_column "predicted_clv" df = true ->
  has_column "churn_risk" df = true ->
  forallb nonneg_number (cells df "predicted_clv") = true ->
  forallb unit_number (cells df "churn_risk") = true ->
  filtered_df df (default_segment_filter df) default_min_clv
              default_max_churn_risk
  = Ok df.
Proof.
  intros Hrect Hs Hhc Hhr Hclv Hchurn.
  apply has_column_get in Hhc as [clv Hc].
  apply has_column_get in Hhr as [churn Hr].
  unfold cells in Hclv, Hchurn. rewrite Hc in Hclv. rewrite Hr in Hchurn.
  destruct (series_floats_checked nonneg_number
              (fun x => fgeb x (Fin default_min_clv) = true) clv)
    as (xs & Hxs & Habove); [|exact Hclv|].
  { intros v Hv. apply nonneg_number_spec in Hv as (q & -> & Hq).
    exists (Fin q). split; [reflexivity|].
    unfold fgeb, fltb, feqb, default_min_clv.
    destruct (0 ?= q)%Q eqn:Hcmp; [|reflexivity|].
    - apply Qeq_alt in Hcmp. cbn. apply Qeq_bool_iff. now symmetry.
    - apply Qgt_alt in Hcmp. lra. }
  destruct (series_floats_checked unit_number
              (fun y => fleb y (Fin default_max_churn_risk) = true) churn)
    as (ys & Hys & Hbelow); [|exact Hchurn|].
  { intros v Hv. unfold unit_number in Hv.
    destruct (to_float v) as [[q| | |]|]; try discriminate.
    apply andb_true_iff in Hv as [_ Hq]. apply Qle_bool_iff in Hq.
    exists (Fin q). split; [reflexivity|].
    unfold fleb, fltb, feqb, default_max_churn_risk.
    destruct (q ?= 1)%Q eqn:Hcmp; [|reflexivity|].
    - apply Qeq_alt in Hcmp. cbn. now apply Qeq_bool_iff.
    - apply Qgt_alt in Hcmp. lra. }
  unfold filtered_df.
  rewrite (filter_mask_total df _ _ _ segment clv churn xs ys Hs Hc Hxs Hr Hys).
  unfold default_segment_filter, cells. rewrite Hs, isin_unique.
  rewrite (map_all_true _ xs Habove), (map_all_true _ ys Hbelow).
  rewrite (series_floats_same_length _ _ Hxs).
  rewrite (series_floats_same_length _ _ Hys).
  rewrite (rectangular_column_length _ _ _ Hrect Hs).
  rewrite (rectangular_column_length _ _ _ Hrect Hc).
  rewrite (rectangular_column_length _ _ _ Hrect Hr).
  rewrite !mask_and_true. now rewrite filter_rows_all.
Qed.

Lemma untouched_controls_show_all_witness :
  (rectangular Examples.scored_table = true
   /\ get_column "customer_segment" Examples.scored_table
      = Some [VStr "Low Value"; VStr "Medium Value"; VStr "High Value"]
   /\ has_column "predicted_clv" Examples.scored_table = true
   /\ has_column "churn_risk" Examples.scored_table = true
   /\ forallb nonneg_number (cells Examples.scored_table "predicted_clv")
      = true
   /\ forallb unit_number (cells Examples.scored_table "churn_risk") = true)
  /\ filtered_df Examples.scored_table
       (default_segment_filter Examples.scored_table) default_min_clv
       default_max_churn_risk
     = Ok Examples.scored_table.
Proof.
  assert (H1 : rectangular Examples.scored_table = true)
    by (vm_compute; reflexivity).
  assert (H2 : get_column "customer_segment" Examples.scored_table
               = Some [VStr "Low Value"; VStr "Medium Value";
                       VStr "High Value"]) by (vm_compute; reflexivity).
  assert (H3 : has_column "predicted_clv" Examples.scored_table = true)
    by (vm_compute; reflexivity).
  assert (H4 : has_column "churn_risk" Examples.scored_table = true)
    by (vm_compute; reflexivity).
  assert (H5 : forallb nonneg_number
                 (cells Examples.scored_table "predicted_clv") = true)
    by (vm_compute; reflexivity).
  assert (H6 : forallb unit_number
                 (cells Examples.scored_table "churn_risk") = true)
    by (vm_compute; reflexivity).
  split; [auto 10|].
  exact (untouched_controls_show_all _ _ H1 H2 H3 H4 H5 H6).
Defined.

Lemma mask_and_all_false (a b : list bool) :
  Forall (fun x => x = false) b ->
  Forall (fun x => x = false) (mask_and a b).
Proof.
  unfold mask_and. intros Hb. revert a.
  induction Hb as [|x b -> _ IH]; intros [|y a]; cbn; try constructor.
  - apply andb_false_r.
  - apply IH.
Qed.

Lemma select_all_false (mask : list bool) (c : column) :
  Forall (fun x => x = false) mask -> select mask c = [].
Proof.
  intros Hmask. revert c.
  induction Hmask as [|x mask -> _ IH]; intros [|v c]; cbn; auto.
Qed.

(** When every recency is zero the batch maximum is zero and every risk is
    0/0. *)
Lemma risk_of_zero (qs : list Q) :
  Forall (fun q => (q == 0)%Q) qs ->
  risk_of (map Fin qs) = map (fun _ => VFloat NaN) qs.
Proof.
  intros Hzero. destruct qs as [|q0 qs0] eqn:E; [reflexivity|].
  rewrite <- E in *.
  destruct (series_max_finite qs) as (m & Hmax & _ & Hin);
    [subst; discriminate|].
  unfold risk_of. rewrite Hmax, map_map.
  assert (Hm : (m == 0)%Q).
  { rewrite List.Forall_forall in Hzero. now apply Hzero. }
  apply map_ext_in. intros q Hq.
  assert (Hq0 : (q == 0)%Q).
  { rewrite List.Forall_forall in Hzero. now apply Hzero. }
  cbn. apply Qeq_alt in Hm, Hq0. now rewrite Hm, Hq0.
Qed.

Lemma series_floats_nan {A} (l : list A) :
  series_floats (map (fun _ => VFloat NaN) l) = Ok (map (fun _ => NaN) l).
Proof. induction l as [|a l IH]; [reflexivity|]. cbn. now rewrite IH. Qed.

Section HiddenRows.

Context `{P : CLVPredictor}.

(** X10.  When every customer of the batch bought today, the detailed table
    of the stored predictions is empty for every setting of the three
    controls: it keeps the labels of the stored table and has no row. *)
Theorem zero_recency_rows_never_shown (cd : DataFrame) (w w' : world)
    (out : DataFrame) (days : column) :
  predict_block cd w = (Ok tt, w') ->
  predictions (session w') = Some out ->
  get_column "days_since_last_purchase" cd = Some days ->
  forallb zero_number days = true ->
  forall (segment_filter : list value) (min_clv max_churn_risk : Q),
  exists shown,
    filtered_df out segment_filter min_clv max_churn_risk = Ok shown
    /\ columns shown = columns out
    /\ (forall name, In name (columns out) -> get_column name shown = Some []).
Proof.
  intros Hrun Hout Hdays Hzero sf min_clv max_risk.
  destruct (stored_table _ _ _ _ Hrun Hout)
    as (raw & segs & risk & _ & Hclv & Hseg & _ & _ & _ & Hchurn & Hrisk).
  rewrite Hdays in Hrisk. destruct Hrisk as (xs & Hxs & ->).
  destruct (series_floats_Forall zero_number (fun q => (q == 0)%Q) days
              zero_number_spec Hzero) as (qs & Hqs & Hall & _).
  rewrite Hqs in Hxs. injection Hxs as <-.
  rewrite (risk_of_zero _ Hall) in Hchurn.
  unfold filtered_df.
  rewrite (filter_mask_total out sf min_clv max_risk _ _ _ _ _
             Hseg Hclv (series_floats_float_column raw) Hchurn
             (series_floats_nan qs)).
  eexists. split; [reflexivity|].
  split; [apply columns_filter_rows|].
  intros name Hname. rewrite get_column_filter_rows.
  destruct (get_column name out) as [c|] eqn:Hc.
  - cbn. f_equal. apply select_all_false, mask_and_all_false.
    rewrite map_map. apply List.Forall_forall. intros b Hb.
    apply in_map_iff in Hb as (q & <- & _). reflexivity.
  - exfalso. apply has_column_In in Hname.
    apply has_column_get in Hname as [c' Hc']. congruence.
Qed.

End HiddenRows.

Lemma zero_recency_rows_never_shown_witness :
  (@predict_block (Examples.as_predictor Examples.fitted)
     Examples.bought_today Examples.start = (Ok tt, Examples.scored_today)
   /\ predictions (session Examples.scored_today)
      = Some Examples.scored_today_table
   /\ get_column "days_since_last_purchase" Examples.bought_today
      = Some [VInt 0]
   /\ forallb zero_number [VInt 0] = true)
  /\ forall (segment_filter : list value) (min_clv max_churn_risk : Q),
     exists shown,
       filtered_df Examples.scored_today_table segment_filter min_clv
                   max_churn_risk = Ok shown
       /\ columns shown = columns Examples.scored_today_table
       /\ (forall name, In name (columns Examples.scored_today_table) ->
             get_column name shown = Some []).
Proof.
  assert (Hrun : @predict_block (Examples.as_predictor Examples.fitted)
                   Examples.bought_today Examples.start
                 = (Ok tt, Examples.scored_today))
    by (vm_compute; reflexivity).
  assert (Hout : predictions (session Examples.scored_today)
                 = Some Examples.scored_today_table)
    by (vm_compute; reflexivity).
  assert (Hdays : get_column "days_since_last_purchase" Examples.bought_today
                  = Some [VInt 0]) by (vm_compute; reflexivity).
  assert (Hzero : forallb zero_number [VInt 0] = true)
    by (vm_compute; reflexivity).
  split; [auto|].
  exact (@zero_recency_rows_never_shown
           (Examples.as_predictor Examples.fitted) _ _ _ _ _
           Hrun Hout Hdays Hzero).
Defined.

(** ** A pending prediction that fails *)

(** Whether the block succeeds depends on the predictor and the table, not
    on the session it runs in. *)
Lemma predict_block_outcome `{P : CLVPredictor} (cd : DataFrame)
    (w w2 : world) :
  fst (predict_block cd w2) = fst (predict_block cd w).
Proof.
  unfold predict_block, bind, call, lift, set_predictions,
    set_trigger_prediction, modify_session, emit.
  cbn [session ui calls fst].
  destruct (create_advanced_features cd) as [processed|]; [|reflexivity].
  destruct (prepare_features_for_prediction processed) as [X|];
    [|reflexivity].
  destruct (predict_clv X) as [raw|]; [|reflexivity].
  destruct (set_column cd "predicted_clv" (float_column raw)) as [df1|];
    [|reflexivity].
  destruct (segment_customers raw) as [segs|]; [|reflexivity].
  destruct (set_column df1 "customer_segment" (map VStr segs)) as [df2|];
    [|reflexivity].
  destruct (add_percentile_rank df2) as [df3|]; [|reflexivity].
  destruct (add_confidence_intervals df3) as [df4|]; [|reflexivity].
  destruct (add_churn_risk df4) as [df5|]; reflexivity.
Qed.

(** One run with a pending prediction whose block raises. *)
Lemma pending_run_fails `{P : CLVPredictor} (cd : DataFrame) (w w0 : world)
    (e : exn) :
  has_column "customer_id" cd = true ->
  trigger_prediction (session w) = true ->
  fst (predict_block cd w0) = Raised e ->
  session (snd (prediction_section cd false w)) = session w
  /\ ui (snd (prediction_section cd false w)) = ui w ++ [prediction_failed e].
Proof.
  intros Hid Htrigger Hraise.
  rewrite (predict_block_outcome cd w w0) in Hraise.
  pose proof (predict_block_run cd w) as Hrun.
  unfold prediction_section, try_except, emit.
  rewrite Htrigger, Hid. cbn [orb].
  destruct (predict_block cd w) as [r w1]. cbn in Hraise. subst r.
  destruct Hrun as (Hs & Hu & _). cbn. now rewrite Hs, Hu.
Qed.

(** X11.  A prediction requested by "Add & Predict" stays pending until a
    run succeeds: through any number of following runs on the same table,
    each with the predictor that run set up, in which the block raises, the
    session (trigger included) stays as it was and each run shows its own
    "Prediction failed" error; the first run after them in which the block
    succeeds stores its table and clears the trigger. *)
Theorem pending_prediction_is_retried (cd : DataFrame) (w : world)
    (runs : list (CLVPredictor * exn)) :
  has_column "customer_id" cd = true ->
  trigger_prediction (session w) = true ->
  Forall (fun run => fst (@predict_block (fst run) cd w) = Raised (snd run))
         runs ->
  let w' := reruns (map fst runs) cd w in
  session w' = session w
  /\ ui w' = ui w ++ map (fun run => prediction_failed (snd run)) runs
  /\ forall (P : CLVPredictor) (w1 : world),
       @predict_block P cd w' = (Ok tt, w1) ->
       @prediction_section P cd false w' = (Ok tt, w1)
       /\ trigger_prediction (session w1) = false
       /\ exists out, predictions (session w1) = Some out.
Proof.
  intros Hid Htrigger Hruns. cbn zeta.
  assert (Hfailed :
    session (reruns (map fst runs) cd w) = session w
    /\ ui (reruns (map fst runs) cd w)
       = ui w ++ map (fun run => prediction_failed (snd run)) runs).
  { revert w Htrigger Hruns.
    induction runs as [|[P e] runs IH]; intros w Htrigger Hruns.
    - cbn. now rewrite app_nil_r.
    - apply Forall_cons in Hruns as [Hrun Hruns]. cbn [fst snd] in Hrun.
      destruct (pending_run_fails cd w w e Hid Htrigger Hrun) as [Hs Hu].
      cbn [map reruns fst snd].
      destruct (IH (snd (@prediction_section P cd false w))) as [IHs IHu].
      + now rewrite Hs.
      + eapply List.Forall_impl; [|exact Hruns].
        intros [P' e'] H'. cbn [fst snd] in *.
        now rewrite (@predict_block_outcome P' cd w).
      + rewrite IHs, IHu, Hs, Hu. now rewrite <- app_assoc. }
  destruct Hfailed as [Hs Hu].
  split; [exact Hs|]. split; [exact Hu|].
  intros P w1 Hok.
  pose proof (@predict_block_run P cd (reruns (map fst runs) cd w)) as Hrun.
  rewrite Hok in Hrun. destruct Hrun as (out & _ & ->).
  split.
  - unfold prediction_section, try_except.
    rewrite Hs, Htrigger, Hid. cbn [orb]. now rewrite Hok.
  - split; [reflexivity | now exists out].
Qed.

Lemma pending_prediction_is_retried_witness :
  (has_column "customer_id" Examples.customers = true
   /\ trigger_prediction (session FurtherExamples.pending) = true
   /\ Forall (fun run =>
                fst (@predict_block (fst run) Examples.customers
                       FurtherExamples.pending)
                = Raised (snd run))
             FurtherExamples.failing_runs)
  /\ let w' := reruns (map fst FurtherExamples.failing_runs)
                 Examples.customers FurtherExamples.pending in
     session w' = session FurtherExamples.pending
     /\ ui w'
        = ui FurtherExamples.pending
            ++ map (fun run => prediction_failed (snd run))
                   FurtherExamples.failing_runs
     /\ forall (P : CLVPredictor) (w1 : world),
          @predict_block P Examples.customers w' = (Ok tt, w1) ->
          @prediction_section P Examples.customers false w' = (Ok tt, w1)
          /\ trigger_prediction (session w1) = false
          /\ exists out, predictions (session w1) = Some out.
Proof.
  assert (Hid : has_column "customer_id" Examples.customers = true)
    by (vm_compute; reflexivity).
  assert (Htrigger : trigger_prediction (session FurtherExamples.pending)
                     = true) by reflexivity.
  assert (Hruns : Forall (fun run =>
                            fst (@predict_block (fst run) Examples.customers
                                   FurtherExamples.pending)
                            = Raised (snd run))
                         FurtherExamples.failing_runs)
    by (repeat constructor; vm_compute; reflexivity).
  split; [auto|].
  exact (pending_prediction_is_retried Examples.customers
           FurtherExamples.pending FurtherExamples.failing_runs
           Hid Htrigger Hruns).
Defined.

(** ** Pages and the admin controls *)

(** A run without the password leaves the dashboards closed. *)
Lemma main_pages_without_password (a : admin_controls) (click : page_click)
    (results_shown : bool) (fl : page_flags) :
  without_password (a, click, results_shown) = true ->
  show_feedback_dashboard fl = false ->
  show_feature_requests fl = false ->
  let '(p, fl', _) := main_pages a click results_shown fl in
  (p = FeedbackForm \/ p = MainPage)
  /\ show_feedback_dashboard fl' = false
  /\ show_feature_requests fl' = false.
Proof.
  unfold without_password, main_pages, admin_navigation, page_of.
  intros Hpw Hd Hr.
  destruct fl as [d r fb fr]. cbn in Hd, Hr. subst d r.
  destruct (admin_access a); cbn in Hpw.
  - apply negb_true_iff in Hpw. rewrite Hpw. cbn.
    destruct fb, click, results_shown, fr; cbn; auto.
  - cbn. destruct fb, click, results_shown, fr; cbn; auto.
Qed.

(** X12.  No dashboard without the password: starting with both dashboards
    closed, as the script initialises them, no sequence of runs in which
    the admin controls never carry the password displays the feedback
    dashboard or the feature requests dashboard, whatever buttons are
    pressed. *)
Theorem no_dashboard_without_password (inputs : list page_input)
    (fl : page_flags) :
  show_feedback_dashboard fl = false ->
  show_feature_requests fl = false ->
  forallb without_password inputs = true ->
  Forall (fun p => p = FeedbackForm \/ p = MainPage) (pages_trace inputs fl).
Proof.
  revert fl. induction inputs as [|[[a click] rs] inputs IH];
    intros fl Hd Hr Hall; [constructor|].
  cbn [forallb] in Hall. apply andb_true_iff in Hall as [Hpw Hall].
  pose proof (main_pages_without_password a click rs fl Hpw Hd Hr) as Hrun.
  cbn [pages_trace].
  destruct (main_pages a click rs fl) as [[p fl'] messages].
  destruct Hrun as (Hp & Hd' & Hr').
  constructor; [exact Hp | now apply IH].
Qed.

Lemma no_dashboard_without_password_witness :
  (show_feedback_dashboard initial_flags = false
   /\ show_feature_requests initial_flags = false
   /\ forallb without_password FurtherExamples.visits = true)
  /\ Forall (fun p => p = FeedbackForm \/ p = MainPage)
            (pages_trace FurtherExamples.visits initial_flags).
Proof.
  assert (H1 : show_feedback_dashboard initial_flags = false) by reflexivity.
  assert (H2 : show_feature_requests initial_flags = false) by reflexivity.
  assert (H3 : forallb without_password FurtherExamples.visits = true)
    by (vm_compute; reflexivity).
  split; [auto|].
  exact (no_dashboard_without_password _ _ H1 H2 H3).
Defined.

(** X13.  Once the feedback dashboard is open it is displayed in every run
    and stays open, except in a run in which the admin box is ticked, the
    password is right and "Main Interface" is the selected action: neither
    unticking the box nor selecting "View Feature Requests" leaves it. *)
Theorem feedback_dashboard_stays_open (a : admin_controls)
    (click : page_click) (results_shown : bool) (fl : page_flags) :
  show_feedback_dashboard fl = true ->
  let run := main_pages a click results_shown fl in
  (fst (fst run) = FeedbackDashboard
   /\ show_feedback_dashboard (snd (fst run)) = true)
  <-> ~ (admin_access a = true
         /\ admin_password a = "clv_admin_2024"
         /\ admin_action a = MainInterface).
Proof.
  intros Hopen. cbn zeta.
  unfold main_pages, admin_navigation, page_of.
  destruct fl as [d r fb fr]. cbn in Hopen. subst d.
  destruct a as [access password action]. cbn [admin_access admin_password
                                                 admin_action].
  destruct access; cbn.
  - destruct (String.eqb password "clv_admin_2024") eqn:Hpw.
    + apply String.eqb_eq in Hpw. subst password.
      destruct action; cbn.
      * split; [intros [? _]; destruct r, fb; discriminate | tauto].
      * split; [intros _ (_ & _ & ?); discriminate | auto].
      * split; [intros _ (_ & _ & ?); discriminate | auto].
    + apply String.eqb_neq in Hpw. cbn.
      split; [intros _ (_ & ? & _); contradiction | auto].
  - split; [intros _ (? & _); discriminate | auto].
Qed.

Lemma feedback_dashboard_stays_open_witness :
  show_feedback_dashboard FurtherExamples.on_feedback_dashboard = true
  /\ let run := main_pages
                  (FurtherExamples.administrator ViewFeatureRequests)
                  NoPageClick false FurtherExamples.on_feedback_dashboard in
     ((fst (fst run) = FeedbackDashboard
       /\ show_feedback_dashboard (snd (fst run)) = true)
      <-> ~ (admin_access (FurtherExamples.administrator ViewFeatureRequests)
             = true
             /\ admin_password
                  (FurtherExamples.administrator ViewFeatureRequests)
                = "clv_admin_2024"
             /\ admin_action
                  (FurtherExamples.administrator ViewFeatureRequests)
                = MainInterface)).
Proof.
  assert (H : show_feedback_dashboard FurtherExamples.on_feedback_dashboard
              = true) by reflexivity.
  split; [exact H|].
  exact (feedback_dashboard_stays_open
           (FurtherExamples.administrator ViewFeatureRequests)
           NoPageClick false FurtherExamples.on_feedback_dashboard H).
Defined.

(** ** Feature requests *)

Lemma request_keys_distinct (f : feature_form) :
  NoDup (request_fields f).*1.
Proof.
  unfold request_fields. cbn.
  repeat (apply NoDup_cons; split;
          [rewrite ?elem_of_cons, elem_of_nil; intros H;
           repeat (destruct H as [H|H]; [discriminate|]); exact H|]).
  apply NoDup_nil_2.
Qed.

Lemma request_data_lookup (f : feature_form) (key v : string) :
  request_data f !! key = Some v <-> In (key, v) (request_fields f).
Proof.
  unfold request_data. rewrite <- list_elem_of_In.
  symmetry. apply elem_of_list_to_map, request_keys_distinct.
Qed.

Lemma strip_or_filled (s placeholder : string) :
  placeholder <> EmptyString -> strip_or s placeholder <> EmptyString.
Proof.
  unfold strip_or. intros Hp.
  destruct (String.eqb (strip s) EmptyString) eqn:E; [exact Hp|].
  now apply String.eqb_neq.
Qed.

(** X14.  A request handed to [save_feature_request] comes from a submitted
    form whose title and description are not blank; it is the only one of
    the run, it has exactly the eight fields of the form, none of them
    empty, and its status is "Pending". *)
Theorem saved_request_is_complete (save : feature_request -> bool)
    (f : feature_form) (r : feature_request) :
  In r (fst (display_feature_request_form save f)) ->
  (submitted f = true
   /\ strip (feature_title f) <> EmptyString
   /\ strip (feature_description f) <> EmptyString)
  /\ fst (display_feature_request_form save f) = [r]
  /\ (forall key,
        is_Some (r !! key)
        <-> In key [ "feature_title"; "feature_description"; "use_case";
                     "additional_notes"; "priority"; "category";
                     "user_email"; "status" ])
  /\ (forall key v, r !! key = Some v -> v <> EmptyString)
  /\ r !! "status" = Some "Pending".
Proof.
  unfold display_feature_request_form.
  destruct (submitted f); [|intros []].
  destruct (String.eqb (strip (feature_title f)) EmptyString) eqn:Ht;
    [intros []|].
  destruct (String.eqb (strip (feature_description f)) EmptyString) eqn:Hd;
    [intros []|].
  apply String.eqb_neq in Ht, Hd.
  cbn. intros [<-|[]].
  split; [auto|]. split; [reflexivity|].
  split; [|split].
  - intros key. split.
    + intros [v Hv]. apply request_data_lookup in Hv.
      apply (in_map fst) in Hv. exact Hv.
    + intros Hkey.
      change (In key (map fst (request_fields f))) in Hkey.
      apply in_map_iff in Hkey as ([k v] & <- & Hin).
      exists v. now apply request_data_lookup.
  - intros key v Hv. apply request_data_lookup in Hv.
    unfold request_fields in Hv. cbn in Hv.
    repeat (destruct Hv as [Hv|Hv];
            [injection Hv as <- <-;
             first [ assumption
                   | apply strip_or_filled; discriminate
                   | destruct (priority f); discriminate
                   | destruct (category f); discriminate
                   | discriminate ]|]).
    contradiction.
  - apply request_data_lookup. unfold request_fields. cbn. tauto.
Qed.

Lemma saved_request_is_complete_witness :
  In (request_data FurtherExamples.short_request)
     (fst (display_feature_request_form (fun _ => true)
             FurtherExamples.short_request))
  /\ (submitted FurtherExamples.short_request = true
      /\ strip (feature_title FurtherExamples.short_request) <> EmptyString
      /\ strip (feature_description FurtherExamples.short_request)
         <> EmptyString)
  /\ fst (display_feature_request_form (fun _ => true)
            FurtherExamples.short_request)
     = [request_data FurtherExamples.short_request]
  /\ (forall key,
        is_Some (request_data FurtherExamples.short_request !! key)
        <-> In key [ "feature_title"; "feature_description"; "use_case";
                     "additional_notes"; "priority"; "category";
                     "user_email"; "status" ])
  /\ (forall key v,
        request_data FurtherExamples.short_request !! key = Some v ->
        v <> EmptyString)
  /\ request_data FurtherExamples.short_request !! "status" = Some "Pending".
Proof.
  assert (H : In (request_data FurtherExamples.short_request)
                 (fst (display_feature_request_form (fun _ => true)
                         FurtherExamples.short_request)))
    by (left; reflexivity).
  split; [exact H|].
  exact (saved_request_is_complete (fun _ => true)
           FurtherExamples.short_request _ H).
Defined.

(** An optional field of a stored form: whether the dashboard takes it as
    provided, and what it shows for it. *)
Lemma provided_strip_or (r : stored_request) (key s placeholder : string) :
  placeholder <> EmptyString ->
  r !! key = Some (JText (strip_or s placeholder)) ->
  provided r key placeholder = typed s placeholder
  /\ (typed s placeholder = true ->
      shown_value (get_or r key "None") = strip s).
Proof.
  intros Hp Hr. unfold provided, get_or, typed. rewrite Hr.
  unfold strip_or. cbn [truthy is_text shown_value].
  destruct (String.eqb (strip s) EmptyString) eqn:E; cbn.
  - rewrite String.eqb_refl.
    split; [apply andb_false_r | discriminate].
  - rewrite E. split; reflexivity.
Qed.

(** The fields of a form in a stored request. *)
Lemma stored_field (f : feature_form) (id : stored_value) (stamp : string)
    (r : stored_request) (key text : string) :
  stored_as f id stamp r ->
  In (key, text) (request_fields f) ->
  r !! key = Some (JText text).
Proof.
  intros (Hfields & _) Hin. apply Hfields. now apply request_data_lookup.
Qed.

(** The expander of a stored form. *)
Lemma request_expander_stored (f : feature_form) (id : stored_value)
    (stamp : string) (r : stored_request) :
  stored_as f id stamp r ->
  request_expander r = Ok (form_expander f id stamp).
Proof.
  intros Hstored.
  pose proof (stored_field f id stamp r) as Hget.
  assert (Htitle : r !! "feature_title" = Some (JText (strip (feature_title f))))
    by (apply Hget; [exact Hstored | cbn; tauto]).
  assert (Hdesc : r !! "feature_description"
                  = Some (JText (strip (feature_description f))))
    by (apply Hget; [exact Hstored | cbn; tauto]).
  assert (Hcase : r !! "use_case"
                  = Some (JText (strip_or (use_case f) "Not provided")))
    by (apply Hget; [exact Hstored | cbn; tauto]).
  assert (Hnotes : r !! "additional_notes"
                   = Some (JText (strip_or (additional_notes f) "None")))
    by (apply Hget; [exact Hstored | cbn; tauto]).
  assert (Hprio : r !! "priority" = Some (JText (priority_label (priority f))))
    by (apply Hget; [exact Hstored | cbn; tauto]).
  assert (Hcat : r !! "category" = Some (JText (category_label (category f))))
    by (apply Hget; [exact Hstored | cbn; tauto]).
  assert (Hmail : r !! "user_email"
                  = Some (JText (strip_or (user_email f) "Anonymous")))
    by (apply Hget; [exact Hstored | cbn; tauto]).
  assert (Hstatus : r !! "status" = Some (JText "Pending"))
    by (apply Hget; [exact Hstored | cbn; tauto]).
  destruct Hstored as (_ & Hid & Hstamp).
  assert (N1 : "Not provided" <> EmptyString) by discriminate.
  assert (N2 : "None" <> EmptyString) by discriminate.
  assert (N3 : "Anonymous" <> EmptyString) by discriminate.
  destruct (provided_strip_or r _ _ _ N1 Hcase) as [Pcase Gcase].
  destruct (provided_strip_or r _ _ _ N2 Hnotes) as [Pnotes Gnotes].
  destruct (provided_strip_or r _ _ _ N3 Hmail) as [Pmail Gmail].
  assert (G : forall key default text,
            r !! key = Some (JText text) ->
            get_or r key default = JText text)
    by (intros key default text H; unfold get_or; now rewrite H).
  unfold request_expander, form_expander, rbind.
  rewrite Hid, Pcase, Pnotes, Pmail.
  rewrite !(G _ _ _ Hprio), !(G _ _ _ Hstatus), (G _ _ _ Htitle),
    (G _ _ _ Hdesc), (G _ _ _ Hcat), (G _ _ _ Hstamp).
  change (status_color (JText "Pending")) with "🟡".
  replace (priority_color (JText (priority_label (priority f))))
    with (match priority f with
          | PriorityLow => "🟢"
          | PriorityMedium => "🟡"
          | PriorityHigh => "🔴"
          end) by now destruct (priority f).
  cbn [date_text shown_value].
  destruct (typed (use_case f) "Not provided") eqn:T1;
    [rewrite (Gcase eq_refl)|];
    (destruct (typed (additional_notes f) "None") eqn:T2;
       [rewrite (Gnotes eq_refl)|]);
    (destruct (typed (user_email f) "Anonymous") eqn:T3;
       [rewrite (Gmail eq_refl)|]);
    reflexivity.
Qed.

Lemma request_expanders_stored
    (stored : list (feature_form * stored_value * string * stored_request)) :
  Forall (fun e => let '(f, id, stamp, r) := e in stored_as f id stamp r)
         stored ->
  request_expanders (map snd stored)
  = Ok (map (fun e => let '(f, id, stamp, _) := e in form_expander f id stamp)
            stored).
Proof.
  induction 1 as [|[[[f id] stamp] r] stored Hr _ IH]; [reflexivity|].
  cbn [map snd request_expanders]. unfold rbind.
  now rewrite (request_expander_stored f id stamp r Hr), IH.
Qed.

Lemma has_key_first (key : string) (v : stored_value) (r : stored_request)
    (rest : list stored_request) :
  r !! key = Some v -> has_key key (r :: rest) = true.
Proof. intros Hr. unfold has_key. cbn. now rewrite Hr. Qed.

Lemma count_where_stored (key text : string) (test : feature_form -> bool)
    (stored : list (feature_form * stored_value * string * stored_request)) :
  Forall (fun e => let '(f, _, _, r) := e in
                   exists v, r !! key = Some (JText v)
                             /\ String.eqb v text = test f)
         stored ->
  count_where key text (map snd stored)
  = length (List.filter (fun e => test (fst (fst (fst e)))) stored).
Proof.
  unfold count_where.
  induction 1 as [|[[[f id] stamp] r] stored (v & Hv & Htest) _ IH];
    [reflexivity|].
  cbn [map snd List.filter fst]. rewrite Hv. cbn [is_text]. rewrite Htest.
  destruct (test f); cbn [length]; now rewrite IH.
Qed.

(** X15.  Forms as storage keeps them (every field of the form as text,
    with an id and a timestamp as text, and whatever else storage adds), at
    least one, with timestamps that pandas can format: the dashboard raises
    no exception; every request counts as pending, and as high priority
    exactly when "High" was chosen; the expanders come newest first, each
    labelled with the colours of its priority and of "Pending", its id and
    its stripped title, with the stripped description, and with the "Use
    Case", "Additional Notes" and "Email" lines exactly when the user typed
    text that is neither blank nor the placeholder stored for a blank field
    ("Not provided", "None", "Anonymous"). *)
Theorem submitted_request_on_dashboard
    (format_timestamps : list (option stored_value)
                         -> result (list (option string)))
    (stored : list (feature_form * stored_value * string * stored_request))
    (dates : list (option string)) :
  stored <> [] ->
  Forall (fun e => let '(f, id, stamp, r) := e in stored_as f id stamp r)
         stored ->
  format_timestamps (map (fun r : stored_request => r !! "timestamp")
                         (map snd stored))
  = Ok dates ->
  exists table,
    display_feature_requests_admin format_timestamps (map snd stored)
    = Ok (RequestsShown
            (length stored, length stored,
             length (List.filter
                       (fun e => match priority (fst (fst (fst e))) with
                                 | PriorityHigh => true
                                 | _ => false
                                 end)
                       stored))
            table
            (map (fun e => let '(f, id, stamp, _) := e in
                           form_expander f id stamp)
                 (rev stored))).
Proof.
  intros Hne Hstored Hdates.
  assert (Hexpanders :
    request_expanders (rev (map snd stored))
    = Ok (map (fun e => let '(f, id, stamp, _) := e in
                        form_expander f id stamp) (rev stored))).
  { rewrite <- map_rev. apply request_expanders_stored.
    now apply List.Forall_rev. }
  assert (Hpending : count_where "status" "Pending" (map snd stored)
                     = length stored).
  { rewrite (count_where_stored "status" "Pending" (fun _ => true)).
    - clear. induction stored as [|e l IH]; [reflexivity|].
      cbn. now rewrite IH.
    - eapply List.Forall_impl; [|exact Hstored].
      intros [[[f id] stamp] r] Hr. exists "Pending".
      split; [|reflexivity].
      apply (stored_field f id stamp r); [exact Hr | cbn; tauto]. }
  assert (Hhigh : count_where "priority" "High" (map snd stored)
                  = length (List.filter
                              (fun e => match priority (fst (fst (fst e))) with
                                        | PriorityHigh => true
                                        | _ => false
                                        end) stored)).
  { apply (count_where_stored "priority" "High"
             (fun f => match priority f with
                       | PriorityHigh => true
                       | _ => false
                       end)).
    eapply List.Forall_impl; [|exact Hstored].
    intros [[[f id] stamp] r] Hr. exists (priority_label (priority f)).
    split; [|now destruct (priority f)].
    apply (stored_field f id stamp r); [exact Hr | cbn; tauto]. }
  destruct stored as [|[[[f id] stamp] r] rest] eqn:E; [congruence|].
  rewrite <- E in *.
  assert (Hfirst : stored_as f id stamp r).
  { subst stored. now apply Forall_cons in Hstored as [Hr _]. }
  assert (Hkeys : forall key text,
            In (key, text) (request_fields f) ->
            has_key key (map snd stored) = true).
  { intros key text Hin. subst stored. cbn [map snd].
    eapply has_key_first, (stored_field f id stamp r); eauto. }
  assert (Hstamp : has_key "timestamp" (map snd stored) = true).
  { subst stored. cbn [map snd]. destruct Hfirst as (_ & _ & Hs).
    eapply has_key_first; eauto. }
  eexists.
  unfold display_feature_requests_admin, requests_table, request_metrics,
    rbind.
  rewrite Hstamp, Hdates, Hexpanders, Hpending, Hhigh. cbn [negb].
  unfold table_columns. cbn [List.filter].
  rewrite (Hkeys "feature_title" _ ltac:(cbn; left; reflexivity)).
  rewrite (Hkeys "priority" (priority_label (priority f)))
    by (cbn; tauto).
  rewrite (Hkeys "category" (category_label (category f)))
    by (cbn; tauto).
  rewrite (Hkeys "status" "Pending") by (cbn; tauto).
  rewrite (Hkeys "user_email" (strip_or (user_email f) "Anonymous"))
    by (cbn; tauto).
  cbn [negb]. rewrite length_map.
  subst stored. reflexivity.
Qed.

Lemma submitted_request_on_dashboard_witness :
  ([ (FurtherExamples.short_request, JInt 1, "2024-07-01T10:30:00.123456",
      FurtherExamples.stored_request) ] <> []
   /\ Forall (fun e => let '(f, id, stamp, r) := e in stored_as f id stamp r)
        [ (FurtherExamples.short_request, JInt 1,
           "2024-07-01T10:30:00.123456", FurtherExamples.stored_request) ]
   /\ FurtherExamples.to_the_minute
        (map (fun r : stored_request => r !! "timestamp")
             [FurtherExamples.stored_request])
      = Ok [Some "2024-07-01T10:30"])
  /\ exists table,
       display_feature_requests_admin FurtherExamples.to_the_minute
         [FurtherExamples.stored_request]
       = Ok (RequestsShown (1%nat, 1%nat, 1%nat) table
               [ ("🔴 🟡 Request #1 - Dark mode",
                  ["**Description:** A dark theme."],
                  [ "**Priority:** High"; "**Category:** UI/UX Improvement";
                    "**Status:** Pending";
                    "**Date:** 2024-07-01T10:30:00" ]) ]).
Proof.
  assert (H1 : [ (FurtherExamples.short_request, JInt 1,
                  "2024-07-01T10:30:00.123456",
                  FurtherExamples.stored_request) ] <> [])
    by discriminate.
  assert (H2 : Forall (fun e => let '(f, id, stamp, r) := e in
                                stored_as f id stamp r)
                 [ (FurtherExamples.short_request, JInt 1,
                    "2024-07-01T10:30:00.123456",
                    FurtherExamples.stored_request) ]).
  { repeat constructor.
    intros key text Hfield. apply request_data_lookup in Hfield.
    cbn in Hfield.
    repeat (destruct Hfield as [Hfield|Hfield];
            [injection Hfield as <- <-; vm_compute; reflexivity|]).
    contradiction. }
  assert (H3 : FurtherExamples.to_the_minute
                 (map (fun r : stored_request => r !! "timestamp")
                      [FurtherExamples.stored_request])
               = Ok [Some "2024-07-01T10:30"]) by (vm_compute; reflexivity).
  split; [auto|].
  exact (submitted_request_on_dashboard FurtherExamples.to_the_minute
           [ (FurtherExamples.short_request, JInt 1,
              "2024-07-01T10:30:00.123456",
              FurtherExamples.stored_request) ]
           [Some "2024-07-01T10:30"] H1 H2 H3).
Defined.

(** ** The data source *)

Lemma handle_manual_entry_returns (f : manual_form) (w w1 : world)
    (r : result bool) :
  handle_manual_entry f w = (r, w1) ->
  r = Ok (negb (df_empty (manual_customers (session w1)))).
Proof.
  unfold handle_manual_entry, bind.
  destruct (add_customer f || add_and_predict f).
  - destruct (validation_errors (manual_customers (session w)) f)
      as [|e errors].
    + unfold modify_session, emit, set_trigger_prediction, modify_session,
        ret.
      destruct (add_and_predict f); cbn; intros [= <- <-]; reflexivity.
    + cbn. intros [= <- <-]. reflexivity.
  - cbn. intros [= <- <-]. reflexivity.
Qed.

(** The list handler changes the world only together with [st.rerun()]. *)
Lemma display_manual_customers_continue (click : manual_click)
    (show show' : bool) (w w' : world) :
  display_manual_customers click show w = (Continue, show', w') -> w' = w.
Proof.
  unfold display_manual_customers.
  destruct (negb (df_empty (manual_customers (session w))));
    [|now intros [= _ <-]].
  destruct click as [|idx| | |]; try (now intros [= _ <-]);
    try discriminate.
  destruct (Nat.ltb idx (nrows (manual_customers (session w))));
    [discriminate | now intros [= _ <-]].
Qed.

Lemma display_manual_customers_no_click (show : bool) (w : world) :
  display_manual_customers NoClick show w = (Continue, show, w).
Proof.
  unfold display_manual_customers.
  now destruct (negb (df_empty (manual_customers (session w)))).
Qed.

Section DataSource.

Context `{P : CLVPredictor}.

(** X16.  In "Manual Entry" mode, on a session fed by the manual form, the
    table a run passes on to the preview and to the prediction section is
    the manual table of the session as the run leaves it, with
    [customer_data] holding the same table; it has at least one customer,
    the nine CustomerRecord columns, and no customer id twice. *)
Theorem manual_entry_hands_over_table (f : manual_form) (click : manual_click)
    (close_view show show' : bool) (w w' : world) (cd : DataFrame) :
  manual_session_ok (session w) ->
  data_source_section (ManualEntry f click close_view) show w
  = (Ok (Continue, Some cd, show'), w') ->
  cd = manual_customers (session w')
  /\ customer_data (session w') = Some cd
  /\ df_empty cd = false
  /\ manual_table cd = true
  /\ NoDup (customer_ids cd).
Proof.
  intros Hok. unfold data_source_section, bind.
  destruct (handle_manual_entry f w) as [r w1] eqn:Hform.
  pose proof (handle_manual_entry_returns _ _ _ _ Hform) as ->.
  destruct (display_manual_customers click show w1) as [[fl sh] w2] eqn:Hlist.
  destruct fl; [|discriminate].
  pose proof (display_manual_customers_continue _ _ _ _ _ Hlist) as ->.
  destruct (sh && close_view); [discriminate|].
  destruct (df_empty (manual_customers (session w1))) eqn:Hempty;
    [discriminate|].
  cbn. intros [= <- <- <-].
  assert (Hok1 : manual_session_ok (session w1)).
  { apply (manual_step_keeps_ok w w1); [|exact Hok].
    exact (SubmitForm f w w1 _ Hform). }
  destruct Hok1 as (Hshape & Hnodup & Hdata).
  rewrite Hempty in Hdata. auto.
Qed.

(** X17.  The session keeps one table for both sources: after sample data
    were generated, a valid manual entry replaces them, and "Use Sample
    Data" then presents the manual table, without a press on
    "Generate Sample Data". *)
Theorem manual_entry_replaces_sample (sample : DataFrame) (f : manual_form)
    (show : bool) (w : world) :
  manual_table (manual_customers (session w)) = true ->
  add_customer f || add_and_predict f = true ->
  validation_errors (manual_customers (session w)) f = [] ->
  let w1 := snd (data_source_section (UseSampleData (Some sample)) show w) in
  let w2 := snd (data_source_section (ManualEntry f NoClick false) show w1) in
  fst (data_source_section (UseSampleData (Some sample)) show w)
  = Ok (Continue, Some sample, show)
  /\ fst (data_source_section (UseSampleData None) show w2)
     = Ok (Continue, Some (add_row (manual_customers (session w)) f), show).
Proof.
  intros Hshape Hsubmit Hvalid. cbn zeta.
  split; [reflexivity|].
  remember (snd (data_source_section (UseSampleData (Some sample)) show w))
    as w1 eqn:Hw1.
  assert (Hmanual : manual_customers (session w1)
                    = manual_customers (session w))
    by (subst w1; reflexivity).
  assert (Hshape1 : manual_table (manual_customers (session w1)) = true)
    by now rewrite Hmanual.
  assert (Hvalid1 : validation_errors (manual_customers (session w1)) f = [])
    by now rewrite Hmanual.
  unfold data_source_section at 2. unfold bind.
  rewrite (handle_manual_entry_valid f w1 Hshape1 Hsubmit Hvalid1).
  rewrite display_manual_customers_no_click, andb_false_r.
  cbn [snd]. unfold data_source_section, bind, ret.
  cbn [fst session customer_data]. now rewrite Hmanual.
Qed.

End DataSource.

Lemma manual_entry_hands_over_table_witness :
  (manual_session_ok (session Examples.earlier)
   /\ data_source_section (ManualEntry Examples.quiet_form NoClick false)
        false Examples.earlier
      = (Ok (Continue,
             Some (add_row Examples.customers Examples.quiet_form), false),
         snd (handle_manual_entry Examples.quiet_form Examples.earlier)))
  /\ add_row Examples.customers Examples.quiet_form
     = manual_customers
         (session (snd (handle_manual_entry Examples.quiet_form
                          Examples.earlier)))
  /\ customer_data
       (session (snd (handle_manual_entry Examples.quiet_form
                        Examples.earlier)))
     = Some (add_row Examples.customers Examples.quiet_form)
  /\ df_empty (add_row Examples.customers Examples.quiet_form) = false
  /\ manual_table (add_row Examples.customers Examples.quiet_form) = true
  /\ NoDup (customer_ids (add_row Examples.customers Examples.quiet_form)).
Proof.
  assert (Hok : manual_session_ok (session Examples.earlier)).
  { split; [reflexivity|]. split; [|reflexivity].
    vm_compute.
    repeat (apply NoDup_cons_2;
            [rewrite ?elem_of_cons, elem_of_nil; intros H;
             repeat (destruct H as [H|H]; [discriminate|]); exact H|]).
    apply NoDup_nil_2. }
  assert (Hrun :
    data_source_section (ManualEntry Examples.quiet_form NoClick false)
      false Examples.earlier
    = (Ok (Continue,
           Some (add_row Examples.customers Examples.quiet_form), false),
       snd (handle_manual_entry Examples.quiet_form Examples.earlier)))
    by (vm_compute; reflexivity).
  split; [auto|].
  exact (@manual_entry_hands_over_table
           (Examples.as_predictor Examples.fitted) _ _ _ _ _ _ _ _ Hok Hrun).
Defined.

Lemma manual_entry_replaces_sample_witness :
  (manual_table (manual_customers (session Examples.start)) = true
   /\ add_customer Examples.quiet_form
      || add_and_predict Examples.quiet_form = true
   /\ validation_errors (manual_customers (session Examples.start))
        Examples.quiet_form = [])
  /\ let w1 := snd (data_source_section
                      (UseSampleData (Some Examples.customers)) false
                      Examples.start) in
     let w2 := snd (data_source_section
                      (ManualEntry Examples.quiet_form NoClick false)
                      false w1) in
     fst (data_source_section (UseSampleData (Some Examples.customers))
            false Examples.start)
     = Ok (Continue, Some Examples.customers, false)
     /\ fst (data_source_section (UseSampleData None) false w2)
        = Ok (Continue,
              Some (add_row (manual_customers (session Examples.start))
                            Examples.quiet_form),
              false).
Proof.
  assert (H1 : manual_table (manual_customers (session Examples.start))
               = true) by reflexivity.
  assert (H2 : add_customer Examples.quiet_form
               || add_and_predict Examples.quiet_form = true)
    by reflexivity.
  assert (H3 : validation_errors (manual_customers (session Examples.start))
                 Examples.quiet_form = []) by reflexivity.
  split; [auto|].
  exact (manual_entry_replaces_sample Examples.customers Examples.quiet_form
           false Examples.start H1 H2 H3).
Defined.

(** ** The summary metrics *)

Lemma not_nan_finite (qs : list Q) : not_nan (map Fin qs) = map Fin qs.
Proof.
  unfold not_nan. induction qs as [|q qs IH]; [reflexivity|].
  cbn. now rewrite IH.
Qed.

Lemma not_nan_all_nan {A} (l : list A) :
  not_nan (map (fun _ => NaN) l) = [].
Proof. unfold not_nan. induction l as [|a l IH]; [reflexivity | exact IH]. Qed.

Lemma inject_Z_succ (n : nat) :
  (inject_Z (Z.of_nat (S n)) == inject_Z (Z.of_nat n) + 1)%Q.
Proof.
  rewrite Nat2Z.inj_succ. unfold Z.succ. now rewrite inject_Z_plus.
Qed.

(** A sum of finite numbers is finite, and it lies between the bounds of
    its terms, counted. *)
Lemma fsum_from_bounds (lo hi : Q) (qs : list Q) (a : Q) :
  Forall (fun q => (lo <= q <= hi)%Q) qs ->
  exists s,
    fold_left fadd (map Fin qs) (Fin a) = Fin s
    /\ (a + inject_Z (Z.of_nat (length qs)) * lo <= s)%Q
    /\ (s <= a + inject_Z (Z.of_nat (length qs)) * hi)%Q.
Proof.
  intros Hall. revert a.
  induction Hall as [|q qs Hq _ IH]; intros a.
  - exists a. split; [reflexivity|].
    cbn [length]. change (inject_Z (Z.of_nat 0)) with 0%Q. split; lra.
  - destruct (IH (a + q)%Q) as (s & Hs & Hlo & Hhi).
    exists s. split; [exact Hs|].
    cbn [length]. pose proof (inject_Z_succ (length qs)) as Hn.
    split; nra.
Qed.

Lemma fsum_finite (qs : list Q) : exists s, fsum (map Fin qs) = Fin s.
Proof.
  unfold fsum. generalize 0%Q as a.
  induction qs as [|q qs IH]; intros a; [now exists a|].
  apply (IH (a + q)%Q).
Qed.

Lemma fdiv_count (s : Q) (n : nat) :
  (0 < n)%nat ->
  fdiv (Fin s) (of_Z (Z.of_nat n)) = Fin (s / inject_Z (Z.of_nat n)).
Proof.
  intros Hn. unfold fdiv, of_Z.
  assert (Hpos : (0 < inject_Z (Z.of_nat n))%Q).
  { change 0%Q with (inject_Z 0). rewrite <- Zlt_Qlt. lia. }
  destruct (inject_Z (Z.of_nat n) ?= 0)%Q eqn:Hc; [|reflexivity|reflexivity].
  apply Qeq_alt in Hc. lra.
Qed.

(** The mean of finite numbers, at least one. *)
Lemma series_mean_finite (c : column) (qs : list Q) :
  series_floats c = Ok (map Fin qs) ->
  qs <> [] ->
  exists s, fsum (map Fin qs) = Fin s
            /\ series_mean c = Ok (Fin (s / inject_Z (Z.of_nat (length qs)))).
Proof.
  intros Hc Hne. destruct (fsum_finite qs) as [s Hs].
  exists s. split; [exact Hs|].
  unfold series_mean. rewrite Hc, not_nan_finite.
  destruct qs as [|q qs']; [congruence|].
  cbn [map]. change (Fin q :: map Fin qs') with (map Fin (q :: qs')).
  rewrite Hs, length_map. rewrite fdiv_count by (cbn; lia). reflexivity.
Qed.

Lemma unit_number_spec (v : value) :
  unit_number v = true ->
  exists q, to_float v = Some (Fin q) /\ (0 <= q <= 1)%Q.
Proof.
  unfold unit_number. destruct (to_float v) as [[q| | |]|]; try discriminate.
  intros H. apply andb_true_iff in H as [H0 H1].
  apply Qle_bool_iff in H0, H1. eauto.
Qed.

Section Summary.

Context `{P : CLVPredictor}.

(** The length of the churn column of a stored table. *)
Lemma stored_risk_length (cd : DataFrame) (raw : list Q) (risk : column) :
  rectangular cd = true ->
  length raw = nrows cd ->
  match get_column "days_since_last_purchase" cd with
  | Some days => exists xs, series_floats days = Ok xs /\ risk = risk_of xs
  | None => risk = repeat (VFloat (Fin 0.5)) (length raw)
  end ->
  length risk = nrows cd.
Proof.
  intros Hrect Hraw Hrisk.
  destruct (get_column "days_since_last_purchase" cd) as [days|] eqn:Hdays.
  - destruct Hrisk as (xs & Hxs & ->).
    rewrite length_risk_of, (series_floats_same_length _ _ Hxs).
    now apply (rectangular_column_length cd "days_since_last_purchase").
  - rewrite Hrisk, repeat_length. exact Hraw.
Qed.

(** X18.  The metric cards of a stored table with at least one customer
    whose churn risks are numbers between 0 and 1: the four numbers are
    computed without an exception; there are at most as many high value
    customers as customers; and the average churn risk is a number
    between 0 and 1. *)
Theorem summary_of_stored_table (cd : DataFrame) (w w' : world)
    (out : DataFrame) :
  predict_block cd w = (Ok tt, w') ->
  predictions (session w') = Some out ->
  rectangular cd = true ->
  (0 < nrows cd)%nat ->
  forallb unit_number (cells out "churn_risk") = true ->
  exists (avg total : pyfloat) (high : nat) (risk : Q),
    summary_metrics out = Ok (mkSummary avg total high (Fin risk))
    /\ (high <= nrows cd)%nat
    /\ (0 <= risk <= 1)%Q.
Proof.
  intros Hrun Hout Hrect Hrows Hunit.
  destruct (stored_table _ _ _ _ Hrun Hout)
    as (raw & segs & risk & Ht & Hclv & Hseg & _ & _ & _ & Hchurn & Hrisk).
  apply prediction_table_ok in Ht as (_ & _ & _ & Hraw & Hsegs).
  destruct Hraw as [->|Hraw]; [cbn in Hrows; lia|].
  pose proof (stored_risk_length cd raw risk Hrect Hraw Hrisk) as Hlen.
  assert (Hne : raw <> []) by (intros ->; cbn in Hraw; lia).
  destruct (series_mean_finite _ raw (series_floats_float_column raw) Hne)
    as (total & Htotal & Hmean).
  unfold cells in Hunit. rewrite Hchurn in Hunit.
  destruct (series_floats_Forall unit_number (fun q => (0 <= q <= 1)%Q) risk
              unit_number_spec Hunit) as (rs & Hrs & Hbounds & Hrs_len).
  assert (Hrs_ne : rs <> []) by (intros ->; cbn in Hrs_len; lia).
  destruct (series_mean_finite _ rs Hrs Hrs_ne) as (s & Hs & Hrisk_mean).
  destruct (fsum_from_bounds 0 1 rs 0 Hbounds) as (s' & Hs' & Hlo & Hhi).
  unfold fsum in Hs. rewrite Hs in Hs'. injection Hs' as <-.
  assert (Hn : (0 < inject_Z (Z.of_nat (nrows cd)))%Q).
  { change 0%Q with (inject_Z 0). rewrite <- Zlt_Qlt. lia. }
  exists (Fin (total / inject_Z (Z.of_nat (nrows cd)))), (Fin total),
    (length (List.filter (str_eq_value "High Value") (map VStr segs))),
    (s / inject_Z (Z.of_nat (nrows cd)))%Q.
  split; [|split].
  - unfold summary_metrics, rbind, read_column, series_sum.
    rewrite Hclv, Hmean, Hseg, Hchurn, Hrisk_mean.
    rewrite series_floats_float_column, not_nan_finite, Htotal.
    rewrite Hraw, Hrs_len, Hlen. reflexivity.
  - etransitivity; [apply List.filter_length_le|].
    rewrite length_map. lia.
  - rewrite Hrs_len, Hlen in Hlo, Hhi.
    apply unit_fraction; [lra | lra | exact Hn].
Qed.

(** X19.  When every customer of the batch bought today, the "Avg Churn
    Risk" card of the stored table shows NaN. *)
Theorem zero_recency_average_is_nan (cd : DataFrame) (w w' : world)
    (out : DataFrame) (days : column) :
  predict_block cd w = (Ok tt, w') ->
  predictions (session w') = Some out ->
  get_column "days_since_last_purchase" cd = Some days ->
  forallb zero_number days = true ->
  exists avg total high,
    summary_metrics out = Ok (mkSummary avg total high NaN).
Proof.
  intros Hrun Hout Hdays Hzero.
  destruct (stored_table _ _ _ _ Hrun Hout)
    as (raw & segs & risk & _ & Hclv & Hseg & _ & _ & _ & Hchurn & Hrisk).
  rewrite Hdays in Hrisk. destruct Hrisk as (xs & Hxs & ->).
  destruct (series_floats_Forall zero_number (fun q => (q == 0)%Q) days
              zero_number_spec Hzero) as (qs & Hqs & Hall & _).
  rewrite Hqs in Hxs. injection Hxs as <-.
  rewrite (risk_of_zero _ Hall) in Hchurn.
  unfold summary_metrics, rbind, read_column, series_sum, series_mean.
  rewrite Hclv, Hseg, Hchurn, series_floats_float_column, series_floats_nan.
  rewrite not_nan_all_nan.
  destruct (not_nan (map Fin raw)); eauto.
Qed.

End Summary.

Lemma summary_of_stored_table_witness :
  (@predict_block (Examples.as_predictor Examples.fitted)
     Examples.customers Examples.start = (Ok tt, Examples.scored)
   /\ predictions (session Examples.scored) = Some Examples.scored_table
   /\ rectangular Examples.customers = true
   /\ (0 < nrows Examples.customers)%nat
   /\ forallb unit_number (cells Examples.scored_table "churn_risk") = true)
  /\ exists (avg total : pyfloat) (high : nat) (risk : Q),
       summary_metrics Examples.scored_table
       = Ok (mkSummary avg total high (Fin risk))
       /\ (high <= nrows Examples.customers)%nat
       /\ (0 <= risk <= 1)%Q.
Proof.
  assert (Hrun : @predict_block (Examples.as_predictor Examples.fitted)
                   Examples.customers Examples.start
                 = (Ok tt, Examples.scored)) by (vm_compute; reflexivity).
  assert (Hout : predictions (session Examples.scored)
                 = Some Examples.scored_table) by (vm_compute; reflexivity).
  assert (Hrect : rectangular Examples.customers = true)
    by (vm_compute; reflexivity).
  assert (Hrows : (0 < nrows Examples.customers)%nat) by (vm_compute; lia).
  assert (Hunit : forallb unit_number
                    (cells Examples.scored_table "churn_risk") = true)
    by (vm_compute; reflexivity).
  split; [auto 10|].
  exact (@summary_of_stored_table (Examples.as_predictor Examples.fitted)
           _ _ _ _ Hrun Hout Hrect Hrows Hunit).
Defined.

Lemma zero_recency_average_is_nan_witness :
  (@predict_block (Examples.as_predictor Examples.fitted)
     Examples.bought_today Examples.start = (Ok tt, Examples.scored_today)
   /\ predictions (session Examples.scored_today)
      = Some Examples.scored_today_table
   /\ get_column "days_since_last_purchase" Examples.bought_today
      = Some [VInt 0]
   /\ forallb zero_number [VInt 0] = true)
  /\ exists avg total high,
       summary_metrics Examples.scored_today_table
       = Ok (mkSummary avg total high NaN).
Proof.
  assert (Hrun : @predict_block (Examples.as_predictor Examples.fitted)
                   Examples.bought_today Examples.start
                 = (Ok tt, Examples.scored_today))
    by (vm_compute; reflexivity).
  assert (Hout : predictions (session Examples.scored_today)
                 = Some Examples.scored_today_table)
    by (vm_compute; reflexivity).
  assert (Hdays : get_column "days_since_last_purchase" Examples.bought_today
                  = Some [VInt 0]) by (vm_compute; reflexivity).
  assert (Hzero : forallb zero_number [VInt 0] = true)
    by (vm_compute; reflexivity).
  split; [auto|].
  exact (@zero_recency_average_is_nan
           (Examples.as_predictor Examples.fitted) _ _ _ _ _
           Hrun Hout Hdays Hzero).
Defined.
